(** * cfrss: the Codeforces recent-actions poller

    A shallow embedding of the three packages of the repository that carry
    logic: [cfapi] (the feed client), [mongodb] (the store) and [scheduler]
    (the polling loop with its timestamp watermark), together with [main].

    The program talks to the network, to MongoDB, to the logger and to the
    clock, and its scheduler loops forever.  Such code is modelled as
    interaction trees: every call that leaves the repository is an event,
    the environment answers it, and [Start] is a tree without leaves. *)

From Stdlib Require Import ZArith List String Bool Lia Morphisms Permutation.
From Stdlib Require DecimalString.
From ITree Require Import ITree ITreeFacts Events.State Events.StateFacts.
From Paco Require Import paco.
Import ListNotations.
Import ITreeNotations.
Local Open Scope Z_scope.
Local Open Scope string_scope.
Local Open Scope list_scope.
Local Open Scope itree_scope.

Set Implicit Arguments.
Set Warnings "-register-all".

(* ===================================================================== *)
(** * Go values *)
(* ===================================================================== *)

Module Go.

(** A Go slice as far as this program can tell slices apart: the nil
    slice ([None]) or a non-nil slice holding elements ([Some l], where
    [l] may be empty).  No slice is ever shared and written through here. *)
Definition slice (A : Type) : Type := option (list A).

Definition nil_slice {A : Type} : slice A := None.

Definition elems {A : Type} (s : slice A) : list A :=
  match s with
  | None => []
  | Some l => l
  end.

Definition is_nil {A : Type} (s : slice A) : bool :=
  match s with
  | None => true
  | Some _ => false
  end.

Definition len {A : Type} (s : slice A) : Z := Z.of_nat (List.length (elems s)).

(** [append(s, x)]: the result is never nil. *)
Definition append {A : Type} (s : slice A) (x : A) : slice A :=
  Some (elems s ++ [x]).

(** Appending the elements of a list to a slice one by one: nothing
    happens to the slice, nil or not, when there is nothing to append. *)
Definition extend {A : Type} (s : slice A) (l : list A) : slice A :=
  match l with
  | [] => s
  | _ :: _ => Some (elems s ++ l)
  end.

(** The [error] interface.  [errorString] is what [errors.New] and a
    [fmt.Errorf] without [%w] build, and stands for the errors of the
    libraries too; [wrapError] is [fmt.Errorf] with a [%w] verb: the
    formatted message and the wrapped cause. *)
Inductive error : Type :=
| errorString (s : string)
| wrapError (msg : string) (err : error).

(** The method [Error()]. *)
Definition Error (e : error) : string :=
  match e with
  | errorString s => s
  | wrapError msg _ => msg
  end.

(** [fmt.Errorf(prefix + "%w" + suffix, err)]. *)
Definition Errorf_w (prefix : string) (err : error) (suffix : string) : error :=
  wrapError (prefix ++ Error err ++ suffix)%string err.

(** [fmt.Errorf(prefix + "%s" + suffix, s)]. *)
Definition Errorf_s (prefix : string) (s : string) (suffix : string) : error :=
  errorString (prefix ++ s ++ suffix)%string.

(** [int64]: the integers from [-2^63] to [2^63 - 1]; arithmetic wraps. *)
Definition wrap64 (z : Z) : Z := (z + 2 ^ 63) mod 2 ^ 64 - 2 ^ 63.

(** [fmt.Sprint] of an [int]. *)
Definition Sprint (z : Z) : string :=
  DecimalString.NilZero.string_of_int (Z.to_int z).

(** [time.Minute], in nanoseconds. *)
Definition Minute : Z := 60 * 1000000000.

End Go.
Import Go.

(* ===================================================================== *)
(** * Package models *)
(* ===================================================================== *)

Module models.

(** Modelled from the spec: the struct [models.RecentAction], whose
    declaration is not among the sources.  Its one significant field is
    the creation time in seconds, an [int64] compared with the watermark;
    everything else is payload that no function of the program reads. *)
Record RecentAction : Type := mkRecentAction {
  TimeSeconds : Z;
  Payload : string
}.

End models.
Import models.

(* ===================================================================== *)
(** * The libraries the program calls: data *)
(* ===================================================================== *)

(** Package net/http, as far as [cfapi] uses it. *)
Module http.

Definition MethodGet : string := "GET".

(** [RawQuery] is kept parsed: the key/value pairs that [URL.Query()]
    reads and [Values.Encode()] writes. *)
Record Request : Type := mkRequest {
  Method : string;
  URL : string;
  RawQuery : list (string * string)
}.

(** The body of a response is a stream owned by the transport. *)
Definition ReadCloser : Type := nat.

Record Response : Type := mkResponse {
  StatusCode : Z;
  Body : ReadCloser
}.

(** [query.Add(key, value)] followed by [req.URL.RawQuery = query.Encode()]. *)
Definition AddQuery (req : Request) (key value : string) : Request :=
  {| Method := Method req;
     URL := URL req;
     RawQuery := RawQuery req ++ [(key, value)] |}.

End http.

(** Package bson and the handles of the mongo driver. *)
Module mongo.

Inductive bson : Type :=
| BNull
| BInt (z : Z)
| BStr (s : string)
| BDoc (fields : list (string * bson)).

Record Client : Type := mkClient { uri : string }.

Record Collection : Type := mkCollection {
  client : Client;
  database : string;
  name : string
}.

Definition Cursor : Type := nat.

End mongo.

(** Levels of the zap logger and the values handed to its format verbs. *)
Module zap.

Inductive level : Type := DebugLevel | InfoLevel | ErrorLevel | FatalLevel.

Inductive arg : Type :=
| AErr (e : error)
| AInt (z : Z)
| AStr (s : string)
| ADuration (d : Z)
| AActions (a : slice RecentAction)
| ARequest (r : http.Request)
| AResponse (r : http.Response)
| ABson (b : mongo.bson).

End zap.

(* ===================================================================== *)
(** * Events: every call that leaves the repository *)
(* ===================================================================== *)

(** What a fetch returns: the Go pair [([]models.RecentAction, error)]. *)
Definition fetched : Type := (slice RecentAction * option error)%type.

(** The two structs that the program has its libraries decode into: the
    anonymous struct of [RecentActions], filled by [json.Unmarshal], and
    the anonymous struct of [LastRecordedTimestampForRecentActions],
    filled by [cursor.Decode]. *)
Record wrapper : Type := mkWrapper {
  Status : string;
  Comment : string;
  Result : slice RecentAction
}.

Record maxResult : Type := mkMaxResult { Max : Z }.

Variant sysE : Type -> Type :=
(* net/http, io/ioutil, encoding/json *)
| NewRequest (method url : string) : sysE (http.Request + error)
| ClientDo (timeout : Z) (req : http.Request) : sysE (http.Response + error)
| ReadAll (body : http.ReadCloser) : sysE (string + error)
| BodyClose (body : http.ReadCloser) : sysE unit
| Unmarshal (data : string) : sysE (wrapper + error)
(* mongo driver *)
| Connect (uri : string) : sysE (mongo.Client + error)
| Ping (c : mongo.Client) : sysE (option error)
| InsertMany (coll : mongo.Collection) (docs : slice RecentAction)
  : sysE (option error)
| Find (coll : mongo.Collection) (filter : mongo.bson)
  : sysE (mongo.Cursor + error)
| CursorAll (c : mongo.Cursor) : sysE (slice RecentAction + error)
| Aggregate (coll : mongo.Collection) (pipeline : list mongo.bson)
  : sysE (mongo.Cursor + error)
| CursorNext (c : mongo.Cursor) : sysE bool
| CursorDecode (c : mongo.Cursor) : sysE (maxResult + error)
(* zap, time *)
| NewLogger (production : bool) : sysE (option error)
| Log (lvl : zap.level) (format : string) (args : list zap.arg) : sysE unit
| Sleep (d : Z) : sysE unit
(* a feed client and a store that are not the two of this repository: a
   test double, or any other implementation of the two interfaces *)
| FeedRecentActions (maxCount : Z) : sysE fetched
| StoreAddRecentActions (actions : slice RecentAction) : sysE (option error)
| StoreQueryRecentActions (timestamp : Z) : sysE fetched
| StoreLastRecordedTimestamp : sysE Z.

(** [zap.S().Infof] and its siblings. *)
Definition Infof (format : string) (args : list zap.arg) : itree sysE unit :=
  ITree.trigger (Log zap.InfoLevel format args).
Definition Debugf (format : string) (args : list zap.arg) : itree sysE unit :=
  ITree.trigger (Log zap.DebugLevel format args).
Definition Errorf (format : string) (args : list zap.arg) : itree sysE unit :=
  ITree.trigger (Log zap.ErrorLevel format args).

(* ===================================================================== *)
(** * Package cfapi *)
(* ===================================================================== *)

Module cfapi.

Definition baseUrl : string := "https://codeforces.com/api".
Definition recentActionsEndpoint : string := "/recentActions".
Definition kStatusOK : string := "OK".

(** The interface [CodeforcesInterface]: a value of it is a method table. *)
Record CodeforcesInterface : Type := mkCodeforcesInterface {
  RecentActions : Z -> itree sysE fetched
}.

(** The struct [codeforcesClient]; of its [http.Client] only the timeout
    is set. *)
Record codeforcesClient : Type := mkCodeforcesClient {
  Timeout : Z
}.

(** The part of [RecentActions] that runs under [defer resp.Body.Close()]. *)
Definition readAndParse (resp : http.Response) : itree sysE fetched :=
  r <- ITree.trigger (ReadAll (http.Body resp)) ;;
  match r with
  | inr err =>
      Debugf "response: %+v" [zap.AResponse resp] ;;
      Ret (nil_slice, Some (Errorf_w
        "could not read response of /recentActions with error [" err "]"))
  | inl body =>
      r <- ITree.trigger (Unmarshal body) ;;
      match r with
      | inr err =>
          Debugf "body: %s" [zap.AStr body] ;;
          Ret (nil_slice, Some (Errorf_w
            "could not unmarshal /recentActions response with error [" err "]"))
      | inl w =>
          if negb (String.eqb (Status w) kStatusOK) then
            Debugf "response body: %s" [zap.AStr body] ;;
            Ret (nil_slice, Some (Errorf_s
              "codeforces returned an internal error with comment ["
              (Comment w) "]"))
          else Ret (Result w, None)
      end
  end.

(** The method [RecentActions] of [*codeforcesClient]. *)
Definition codeforcesClient_RecentActions (cf : codeforcesClient)
  (maxCount : Z) : itree sysE fetched :=
  ITree.trigger (Log zap.InfoLevel "Executing RecentActions API..." []) ;;
  let url := (baseUrl ++ recentActionsEndpoint)%string in
  r <- ITree.trigger (NewRequest http.MethodGet url) ;;
  match r with
  | inr err =>
      Debugf "URL: %s" [zap.AStr url] ;;
      Ret (nil_slice, Some (Errorf_w
        "could not create request for /recentActions api with error [" err "]"))
  | inl req =>
      let req := http.AddQuery req "maxCount" (Sprint maxCount) in
      r <- ITree.trigger (ClientDo (Timeout cf) req) ;;
      match r with
      | inr err =>
          Debugf "request: %+v" [zap.ARequest req] ;;
          Ret (nil_slice, Some (Errorf_w
            "http call to /recentActions failed with error [" err "]"))
      | inl resp =>
          res <- readAndParse resp ;;
          ITree.trigger (BodyClose (http.Body resp)) ;;
          Ret res
      end
  end.

Definition NewCodeforcesClient (timeOut : Z) : CodeforcesInterface :=
  let cf := {| Timeout := timeOut |} in
  {| RecentActions := codeforcesClient_RecentActions cf |}.

End cfapi.

(* ===================================================================== *)
(** * Package store and its MongoDB implementation *)
(* ===================================================================== *)

Module store.

(** The interface [CodeforcesStore]. *)
Record CodeforcesStore : Type := mkCodeforcesStore {
  AddRecentActions : slice RecentAction -> itree sysE (option error);
  QueryRecentActions : Z -> itree sysE fetched;
  LastRecordedTimestampForRecentActions : itree sysE Z
}.

End store.

Module mongodb.

Definition kRecentActionsCollectionName : string := "recent_actions".
Definition kActivityCreationTimeKey : string := "timeSeconds".

Record mongoStore : Type := mkMongoStore {
  mongoClient : mongo.Client;
  recentActionsCollection : mongo.Collection
}.

(** The loop that converts the actions into [[]interface{}]: [docs]
    starts as the nil slice and every action is appended to it. *)
Definition toDocs (actions : slice RecentAction) : slice RecentAction :=
  fold_left (fun docs action => append docs action) (elems actions) nil_slice.

Definition mongoStore_AddRecentActions (st : mongoStore)
  (actions : slice RecentAction) : itree sysE (option error) :=
  if is_nil actions then Ret None
  else
    Infof "Persisting a batch of %d actions to the store"
      [zap.AInt (len actions)] ;;
    let docs := toDocs actions in
    r <- ITree.trigger (InsertMany (recentActionsCollection st) docs) ;;
    match r with
    | Some err =>
        Debugf "actions: %+v" [zap.AActions actions] ;;
        Ret (Some (Errorf_w "bulk insert failed with error [" err "]"))
    | None => Ret None
    end.

Definition mongoStore_QueryRecentActions (st : mongoStore)
  (timestamp : Z) : itree sysE fetched :=
  Infof "Retrieving all actions after timestamp %d" [zap.AInt timestamp] ;;
  let filter :=
    mongo.BDoc [(kActivityCreationTimeKey,
                 mongo.BDoc [("$gte", mongo.BInt timestamp)])] in
  r <- ITree.trigger (Find (recentActionsCollection st) filter) ;;
  match r with
  | inr err =>
      Debugf "Filter for querying recent actions: %+v" [zap.ABson filter] ;;
      Ret (nil_slice, Some (Errorf_w
        "could not query recent actions with error [" err "]"))
  | inl cursor =>
      r <- ITree.trigger (CursorAll cursor) ;;
      match r with
      | inr err =>
          Ret (nil_slice, Some (Errorf_w
            "could not parse query actions to bson.M with error [" err "]"))
      | inl actions =>
          Infof "Retrieved a batch of %d activities" [zap.AInt (len actions)] ;;
          Ret (actions, None)
      end
  end.

(** The pipeline of [LastRecordedTimestampForRecentActions]: one [$group]
    stage that takes the [$max] of the creation time over all documents. *)
Definition maxPipeline : list mongo.bson :=
  [mongo.BDoc
     [("$group",
       mongo.BDoc
         [("_id", mongo.BNull);
          ("max", mongo.BDoc
             [("$max", mongo.BStr ("$" ++ kActivityCreationTimeKey)%string)])])]].

(** The [for cursor.Next(...)] loop returns inside its first iteration, so
    it runs [Next] once and its body at most once. *)
Definition mongoStore_LastRecordedTimestampForRecentActions
  (st : mongoStore) : itree sysE Z :=
  let filter := maxPipeline in
  r <- ITree.trigger (Aggregate (recentActionsCollection st) filter) ;;
  match r with
  | inr err =>
      Errorf "Querying the max recorded activity timestamp failed with error %v"
        [zap.AErr err] ;;
      Ret 0
  | inl cursor =>
      more <- ITree.trigger (CursorNext cursor) ;;
      if (more : bool) then
        r <- ITree.trigger (CursorDecode cursor) ;;
        match r with
        | inr err =>
            Errorf "Decoding of max activity timestamp failed with error%v"
              [zap.AErr err] ;;
            Ret 0
        | inl res => Ret (Max res)
        end
      else Ret 0
  end.

(** The method table of a [*mongoStore]. *)
Definition asStore (st : mongoStore) : store.CodeforcesStore :=
  {| store.AddRecentActions := mongoStore_AddRecentActions st;
     store.QueryRecentActions := mongoStore_QueryRecentActions st;
     store.LastRecordedTimestampForRecentActions :=
       mongoStore_LastRecordedTimestampForRecentActions st |}.

(** The struct that [NewMongoStore] fills in once the server answered. *)
Definition mStoreOf (client : mongo.Client) (databaseName : string)
  : mongoStore :=
  {| mongoClient := client;
     recentActionsCollection :=
       {| mongo.client := client;
          mongo.database := databaseName;
          mongo.name := kRecentActionsCollectionName |} |}.

Definition NewMongoStore (mongoURI databaseName : string)
  : itree sysE (store.CodeforcesStore + error) :=
  Infof "Attempting to create a new mongo store. mongoURI: %s, databaseName = %s"
    [zap.AStr mongoURI; zap.AStr databaseName] ;;
  r <- ITree.trigger (Connect mongoURI) ;;
  match r with
  | inr err =>
      Ret (inr (Errorf_w "could not create mongo client with error [" err "]"))
  | inl client =>
      r <- ITree.trigger (Ping client) ;;
      match r with
      | Some err =>
          Ret (inr (Errorf_w "could not ping primary with error [" err "]"))
      | None => Ret (inl (asStore (mStoreOf client databaseName)))
      end
  end.

End mongodb.

(* ===================================================================== *)
(** * Package scheduler *)
(* ===================================================================== *)

Module scheduler.

Record CodeforcesScheduler : Type := mkCodeforcesScheduler {
  cfClient : cfapi.CodeforcesInterface;
  cfStore : store.CodeforcesStore;
  cooldown : Z;
  lastInsertedTimestamp : Z;
  batchSize : Z
}.

(** The methods have a pointer receiver: they run against the scheduler
    that [sch] points to and may write to it.  [method A] is such a
    computation: from the scheduler before to a result and the scheduler
    after. *)
Definition method (A : Type) : Type :=
  CodeforcesScheduler -> A * CodeforcesScheduler.

Definition pure {A : Type} (a : A) : method A := fun sch => (a, sch).

Definition seq {A B : Type} (m : method A) (k : A -> method B) : method B :=
  fun sch => let '(a, sch') := m sch in k a sch'.

Declare Scope method_scope.
Delimit Scope method_scope with method.
Notation "'do' x <~ m ; k" := (seq m (fun x => k))
  (at level 10, x name, m at level 100, k at level 200) : method_scope.

(** Reading and writing the field [sch.lastInsertedTimestamp]. *)
Definition load_lastInsertedTimestamp : method Z :=
  fun sch => (lastInsertedTimestamp sch, sch).

Definition store_lastInsertedTimestamp (v : Z) : method unit :=
  fun sch =>
    (tt, {| cfClient := cfClient sch;
            cfStore := cfStore sch;
            cooldown := cooldown sch;
            lastInsertedTimestamp := v;
            batchSize := batchSize sch |}).

(** [for _, x := range xs { body }] over the local variables [vars]. *)
Fixpoint range {A V : Type} (body : A -> V -> method V) (xs : list A)
  (vars : V) : method V :=
  match xs with
  | [] => pure vars
  | x :: xs' => (do vars' <~ body x vars; range body xs' vars')%method
  end.

(** The body of the loop of [filter]; its local variables are
    [newActions] and [maxTimestampAfterInsertion]. *)
Definition filter_body (action : RecentAction)
  (vars : slice RecentAction * Z) : method (slice RecentAction * Z) :=
  let '(newActions, maxTimestampAfterInsertion) := vars in
  let now := TimeSeconds action in
  let maxTimestampAfterInsertion :=
    if now >? maxTimestampAfterInsertion then now
    else maxTimestampAfterInsertion in
  (do watermark <~ load_lastInsertedTimestamp;
   let newActions :=
     if now >? watermark then append newActions action else newActions in
   pure (newActions, maxTimestampAfterInsertion))%method.

Definition filter (actions : slice RecentAction)
  : method (slice RecentAction * Z) :=
  (do maxTimestampAfterInsertion <~ load_lastInsertedTimestamp;
   range filter_body (elems actions) (nil_slice, maxTimestampAfterInsertion))%method.

(** One iteration of the loop of [Start], from the scheduler before it to
    the scheduler after it. *)
Definition cycle (sch : CodeforcesScheduler) : itree sysE CodeforcesScheduler :=
  '(actions, err) <- cfapi.RecentActions (cfClient sch) (batchSize sch) ;;
  sch <- match err with
         | Some err =>
             Errorf "codeforces query failed with error %v" [zap.AErr err] ;;
             Ret sch
         | None =>
             let '((newActions, maxTimestampAfterInsertion), sch) :=
               filter actions sch in
             err <- store.AddRecentActions (cfStore sch) newActions ;;
             match err with
             | Some err =>
                 Errorf "mongo insertion failed with error %v" [zap.AErr err] ;;
                 Ret sch
             | None =>
                 let '(_, sch) :=
                   store_lastInsertedTimestamp maxTimestampAfterInsertion sch in
                 Infof "Persisted activities till timestamp: %d"
                   [zap.AInt (lastInsertedTimestamp sch)] ;;
                 Ret sch
             end
         end ;;
  Infof "Sleeping for %v" [zap.ADuration (cooldown sch)] ;;
  ITree.trigger (Sleep (cooldown sch)) ;;
  Ret sch.

(** [Start]: [for { ... }] has no exit, so the tree has no leaf. *)
Definition Start (sch : CodeforcesScheduler) : itree sysE void :=
  ITree.iter (fun sch => sch' <- cycle sch ;; Ret (inl sch')) sch.

(** The first [n] iterations of that loop. *)
Fixpoint cycles (n : nat) (sch : CodeforcesScheduler)
  : itree sysE CodeforcesScheduler :=
  match n with
  | O => Ret sch
  | S n' => sch' <- cycle sch ;; cycles n' sch'
  end.

Definition NewScheduler (cfClient : cfapi.CodeforcesInterface)
  (cfStore : store.CodeforcesStore) (batchSize : Z)
  (lastInsertedTimestamp : Z) (coolDown : Z) : CodeforcesScheduler :=
  {| cfClient := cfClient;
     cfStore := cfStore;
     cooldown := coolDown;
     lastInsertedTimestamp := lastInsertedTimestamp;
     batchSize := batchSize |}.

End scheduler.

(* ===================================================================== *)
(** * Package main *)
(* ===================================================================== *)

Module cmd.

Definition kDevelopmentEnvironment : string := "dev".
Definition kDefaultCoolDownMinutes : Z := 5.
Definition kDefaultBatchSize : Z := 100.
Definition kDefaultDatabaseName : string := "cfrss-local".
Definition kDefaultMongoAddr : string := "mongodb://localhost:27017".
Definition kDefaultCodeforcesTimeoutMinutes : Z := 2.

(** The values of the command-line flags after [flag.Parse()]. *)
Record flags : Type := mkFlags {
  environment : string;
  mongoAddr : string;
  databaseName : string;
  coolDownInMinutes : Z;
  batchSize : Z
}.

Definition defaults : flags :=
  {| environment := kDevelopmentEnvironment;
     mongoAddr := kDefaultMongoAddr;
     databaseName := kDefaultDatabaseName;
     coolDownInMinutes := kDefaultCoolDownMinutes;
     batchSize := kDefaultBatchSize |}.

(** What [main] does once the store is there: it asks the store for the
    last recorded timestamp, builds the scheduler from it and runs it.
    [go sch.Start()] is the only goroutine that does anything, since
    [main] itself waits on a wait group that is never released. *)
Definition resume (fl : flags) (cfClient : cfapi.CodeforcesInterface)
  (cfStore : store.CodeforcesStore) : itree sysE void :=
  lastRecordedTimestamp <- store.LastRecordedTimestampForRecentActions cfStore ;;
  let sch :=
    scheduler.NewScheduler cfClient cfStore (batchSize fl)
      lastRecordedTimestamp (wrap64 (coolDownInMinutes fl * Minute)) in
  scheduler.Start sch.

(** What [flag.Parse()] makes of the command line.  The flags are those
    of [flag.CommandLine], which handles errors by [flag.ExitOnError]:
    after [-h] or [-help] it prints the usage and ends the process with
    the status 0, and on a command line that it cannot parse it prints
    the error and the usage and ends the process with the status 2.
    Else the five variables hold the values of the flags, the default
    where a flag is not given. *)
Variant commandLine : Type :=
| Parsed (fl : flags)
| HelpRequested
| Unparsable.

(** [main]: the result is the exit status of the process, which it has
    only where [flag.Parse] or a [Fatal] call ends it. *)
Definition main (cl : commandLine) : itree sysE Z :=
  match cl with
  | Unparsable => Ret 2
  | HelpRequested => Ret 0
  | Parsed fl =>
      r <- ITree.trigger
             (NewLogger
                (negb (String.eqb (environment fl) kDevelopmentEnvironment))) ;;
      match r with
      | Some loggerError =>
          ITree.trigger (Log zap.FatalLevel "%v" [zap.AErr loggerError]) ;;
          Ret 1
      | None =>
          let cfClient :=
            cfapi.NewCodeforcesClient
              (wrap64 (kDefaultCodeforcesTimeoutMinutes * Minute)) in
          r <- mongodb.NewMongoStore (mongoAddr fl) (databaseName fl) ;;
          match r with
          | inr err =>
              ITree.trigger (Log zap.FatalLevel "%v" [zap.AErr err]) ;;
              Ret 1
          | inl cfStore =>
              never <- resume fl cfClient cfStore ;;
              match never : void with end
          end
      end
  end.

End cmd.

(* ===================================================================== *)
(** * The environment *)
(* ===================================================================== *)

Module world.

(** A call that was made, with the answer it got. *)
Record call : Type := Call {
  answer_type : Type;
  event : sysE answer_type;
  answer : answer_type
}.

Definition history : Type := list call.

(** An environment answers every event, and may look at everything that
    happened before.  All the theorems below hold for every environment. *)
Definition Env : Type := forall X : Type, history -> sysE X -> X.

Definition handle (env : Env) : sysE ~> Monads.stateT history (itree void1) :=
  fun X e hist =>
    let x := env X hist e in
    Ret (hist ++ [Call e x], x).

(** Calls that answer nothing. *)
Definition logged (lvl : zap.level) (format : string) (args : list zap.arg)
  : call := Call (Log lvl format args) tt.

Definition slept (d : Z) : call := Call (Sleep d) tt.

(** Running a tree in an environment, from the history so far: the result
    has the history after. *)
Definition run (env : Env) {R : Type} (t : itree sysE R) (hist : history)
  : itree void1 (history * R) :=
  interp_state (handle env) t hist.

(** The environment, asked the calls of [calls] one after the other from
    [hist] on, gives the answers that [calls] records. *)
Fixpoint answers (env : Env) (hist : history) (calls : history) : Prop :=
  match calls with
  | [] => True
  | c :: calls' =>
      env _ hist (event c) = answer c /\ answers env (hist ++ [c]) calls'
  end.

(** [t], run from [hist], returns, and [post] holds of the history and
    the result it returns with. *)
Definition returns (env : Env) {R : Type} (t : itree sysE R) (hist : history)
  (post : history -> R -> Prop) : Prop :=
  exists (hist' : history) (r : R),
    run env t hist ≈ Ret (hist', r) /\ post hist' r.

End world.

(** Collaborators that are not the two of this repository: each method
    is one event, and the environment decides what it returns. *)
Module doubles.

Definition feed : cfapi.CodeforcesInterface :=
  {| cfapi.RecentActions := fun maxCount =>
       ITree.trigger (FeedRecentActions maxCount) |}.

Definition vault : store.CodeforcesStore :=
  {| store.AddRecentActions := fun actions =>
       ITree.trigger (StoreAddRecentActions actions);
     store.QueryRecentActions := fun timestamp =>
       ITree.trigger (StoreQueryRecentActions timestamp);
     store.LastRecordedTimestampForRecentActions :=
       ITree.trigger StoreLastRecordedTimestamp |}.

End doubles.

(** What a cycle leaves in the history after its two calls. *)
Module trail.

Import world scheduler.

(** The calls of a cycle after a fetch that failed, after an append that
    failed, and after an append that went through. *)
Definition after_failed_fetch (sch : CodeforcesScheduler) (err : error)
  : history :=
  [logged zap.ErrorLevel "codeforces query failed with error %v" [zap.AErr err];
   logged zap.InfoLevel "Sleeping for %v" [zap.ADuration (cooldown sch)];
   slept (cooldown sch)].

Definition after_failed_append (sch : CodeforcesScheduler) (err : error)
  : history :=
  [logged zap.ErrorLevel "mongo insertion failed with error %v" [zap.AErr err];
   logged zap.InfoLevel "Sleeping for %v" [zap.ADuration (cooldown sch)];
   slept (cooldown sch)].

Definition after_append (sch : CodeforcesScheduler) (committed : Z) : history :=
  [logged zap.InfoLevel "Persisted activities till timestamp: %d"
     [zap.AInt committed];
   logged zap.InfoLevel "Sleeping for %v" [zap.ADuration (cooldown sch)];
   slept (cooldown sch)].

(** The scheduler with its watermark set to [v]. *)
Definition committed_to (v : Z) (sch : CodeforcesScheduler)
  : CodeforcesScheduler :=
  snd (store_lastInsertedTimestamp v sch).

(** The calls of [main] up to a store that is connected. *)
Definition startup (fl : cmd.flags) (client : mongo.Client) : history :=
  [Call (NewLogger (negb (String.eqb (cmd.environment fl)
                            cmd.kDevelopmentEnvironment))) None;
   logged zap.InfoLevel
     "Attempting to create a new mongo store. mongoURI: %s, databaseName = %s"
     [zap.AStr (cmd.mongoAddr fl); zap.AStr (cmd.databaseName fl)];
   Call (Connect (cmd.mongoAddr fl)) (inl client);
   Call (Ping client) None].

(** The scheduler that [main] builds for a store that reports [seed]. *)
Definition seeded (fl : cmd.flags) (client : mongo.Client) (seed : Z)
  : CodeforcesScheduler :=
  NewScheduler
    (cfapi.NewCodeforcesClient
       (wrap64 (cmd.kDefaultCodeforcesTimeoutMinutes * Minute)))
    (mongodb.asStore (mongodb.mStoreOf client (cmd.databaseName fl)))
    (cmd.batchSize fl) seed (wrap64 (cmd.coolDownInMinutes fl * Minute)).

(** A scheduler whose collaborators are the two doubles. *)
Definition over_doubles (sch : CodeforcesScheduler) : Prop :=
  cfClient sch = doubles.feed /\ cfStore sch = doubles.vault.

(** [main] never returns from the scheduler it started. *)
Definition forever (r : history * void) : itree void1 (history * Z) :=
  match snd r with end.

End trail.

(** What can go wrong in a fetch, by the call that reports it. *)
Module failures.

Import world.

Inductive failure : Type :=
| RequestConstructionError (cause : error)
| TransportError (cause : error)
| BodyReadError (cause : error)
| ResponseParseError (cause : error)
| RemoteStatusError (comment : string).

Definition failure_of (c : call) : option failure :=
  match event c in sysE X return X -> option failure with
  | NewRequest _ _ => fun x =>
      match x with
      | inr cause => Some (RequestConstructionError cause)
      | inl _ => None
      end
  | ClientDo _ _ => fun x =>
      match x with
      | inr cause => Some (TransportError cause)
      | inl _ => None
      end
  | ReadAll _ => fun x =>
      match x with
      | inr cause => Some (BodyReadError cause)
      | inl _ => None
      end
  | Unmarshal _ => fun x =>
      match x with
      | inr cause => Some (ResponseParseError cause)
      | inl w =>
          if String.eqb (Status w) "OK" then None
          else Some (RemoteStatusError (Comment w))
      end
  | _ => fun _ => None
  end (answer c).

(** Calls of the kinds that insert into the store. *)
Definition is_insertion (c : call) : bool :=
  match event c with
  | InsertMany _ _ => true
  | _ => false
  end.

(** Calls that ask the store for its largest timestamp. *)
Definition is_aggregate (c : call) : bool :=
  match event c with
  | Aggregate _ _ => true
  | _ => false
  end.

(** Calls of the kinds that fetch from the feed. *)
Definition is_fetch (c : call) : bool :=
  match event c with
  | ClientDo _ _ => true
  | FeedRecentActions _ => true
  | _ => false
  end.

(** Calls of the kinds that persist through the store interface. *)
Definition is_persist (c : call) : bool :=
  match event c with
  | InsertMany _ _ => true
  | StoreAddRecentActions _ => true
  | _ => false
  end.

End failures.

(** MongoDB as [LastRecordedTimestampForRecentActions] sees it. *)
Module database.

Import world.

(** The result of [mongodb.maxPipeline] over a collection that holds
    [docs]: [$group] makes no group when there is no document, and else
    one document that carries the largest creation time. *)
Definition group_max (docs : list RecentAction) : list maxResult :=
  match docs with
  | [] => []
  | d :: ds =>
      [{| Max := fold_left Z.max (List.map TimeSeconds ds) (TimeSeconds d) |}]
  end.

(** The timestamp that a store holding [docs] reports. *)
Definition reported (docs : list RecentAction) : Z :=
  match group_max docs with
  | [] => 0
  | r :: _ => Max r
  end.

(** The calls of an aggregation that serves [result] through [cursor]:
    the call gives the cursor, and the cursor gives the first document of
    [result], or says that there is none. *)
Definition aggregation (coll : mongo.Collection) (cursor : mongo.Cursor)
  (result : list maxResult) : history :=
  Call (Aggregate coll mongodb.maxPipeline) (inl cursor)
  :: match result with
     | [] => [Call (CursorNext cursor) false]
     | r :: _ =>
         [Call (CursorNext cursor) true; Call (CursorDecode cursor) (inl r)]
     end.

(** An aggregation that fails, and one whose document cannot be decoded. *)
Definition failed_aggregation (coll : mongo.Collection) (err : error)
  : history :=
  [Call (Aggregate coll mongodb.maxPipeline) (inr err)].

Definition failed_decoding (coll : mongo.Collection) (cursor : mongo.Cursor)
  (err : error) : history :=
  [Call (Aggregate coll mongodb.maxPipeline) (inl cursor);
   Call (CursorNext cursor) true;
   Call (CursorDecode cursor) (inr err)].

End database.

(** Environments to run the program in. *)
Module lab.

Import world.

Definition count (p : call -> bool) (hist : history) : nat :=
  List.length (List.filter p hist).

Definition is_feed_call (c : call) : bool :=
  match event c with
  | FeedRecentActions _ => true
  | _ => false
  end.

Definition is_append_call (c : call) : bool :=
  match event c with
  | StoreAddRecentActions _ => true
  | _ => false
  end.

Definition is_next_call (c : call) : bool :=
  match event c with
  | CursorNext _ => true
  | _ => false
  end.

Definition refused : error := errorString "connection refused".

(** A MongoDB that holds [stored] and works, a network that is down, and
    a feed double and a store double that answer from two scripts, call by
    call, and fail once their script is over. *)
Definition plain (stored : list RecentAction) (feeds : list fetched)
  (appends : list (option error)) : Env :=
  fun X hist e =>
    match e in sysE X return X with
    | NewRequest method url =>
        inl {| http.Method := method; http.URL := url; http.RawQuery := [] |}
    | ClientDo _ _ => inr refused
    | ReadAll _ => inr refused
    | BodyClose _ => tt
    | Unmarshal _ => inr (errorString "unexpected end of JSON input")
    | Connect uri => inl {| mongo.uri := uri |}
    | Ping _ => None
    | InsertMany _ docs =>
        match elems docs with
        | [] => Some (errorString
                        "must provide at least one element in input slice")
        | _ :: _ => None
        end
    | Find _ _ => inl 0%nat
    | CursorAll _ => inl (Some stored)
    | Aggregate _ _ => inl 0%nat
    | CursorNext _ =>
        match database.group_max stored with
        | [] => false
        | _ :: _ => Nat.eqb (count is_next_call hist) 0
        end
    | CursorDecode _ => inl {| Max := database.reported stored |}
    | NewLogger _ => None
    | Log _ _ _ => tt
    | Sleep _ => tt
    | FeedRecentActions _ =>
        nth (count is_feed_call hist) feeds (nil_slice, Some refused)
    | StoreAddRecentActions _ =>
        nth (count is_append_call hist) appends (Some refused)
    | StoreQueryRecentActions _ => (Some stored, None)
    | StoreLastRecordedTimestamp => database.reported stored
    end.

(** [env], but with a network that answers one page: the response [resp],
    its body [body], and what the body parses to. *)
Definition online (resp : http.Response) (body : string)
  (parsed : wrapper + error) (env : Env) : Env :=
  fun X hist e =>
    match e in sysE X return X -> X with
    | ClientDo _ _ => fun _ => inl resp
    | ReadAll _ => fun _ => inl body
    | Unmarshal _ => fun _ => parsed
    | _ => fun x => x
    end (env X hist e).

(** [env], but with a MongoDB whose aggregations fail. *)
Definition aggregate_down (env : Env) : Env :=
  fun X hist e =>
    match e in sysE X return X -> X with
    | Aggregate _ _ => fun _ => inr refused
    | _ => fun x => x
    end (env X hist e).

(** [env], but with a MongoDB whose cursors cannot be decoded. *)
Definition decode_down (env : Env) : Env :=
  fun X hist e =>
    match e in sysE X return X -> X with
    | CursorDecode _ => fun _ => inr (errorString "cannot decode")
    | _ => fun x => x
    end (env X hist e).

Definition item (t : Z) : RecentAction :=
  {| TimeSeconds := t; Payload := "" |}.

(** A scheduler over the two doubles, with the default batch size and
    cooldown, and one over the feed double and a MongoDB store. *)
Definition bench (watermark : Z) : scheduler.CodeforcesScheduler :=
  scheduler.NewScheduler doubles.feed doubles.vault cmd.kDefaultBatchSize
    watermark (wrap64 (cmd.kDefaultCoolDownMinutes * Minute)).

Definition local : mongodb.mongoStore :=
  mongodb.mStoreOf {| mongo.uri := cmd.kDefaultMongoAddr |}
    cmd.kDefaultDatabaseName.

Definition bench_mongo (watermark : Z) : scheduler.CodeforcesScheduler :=
  scheduler.NewScheduler doubles.feed (mongodb.asStore local)
    cmd.kDefaultBatchSize watermark
    (wrap64 (cmd.kDefaultCoolDownMinutes * Minute)).

(** The two fetches of the overlap scenario. *)
Definition first_fetch : fetched :=
  (Some [item 90; item 110; item 105], None).

Definition second_fetch : fetched :=
  (Some [item 110; item 108], None).

Definition overlap : Env :=
  plain [item 100] [first_fetch; second_fetch] [None; None].

Definition cooldown : Z := wrap64 (cmd.kDefaultCoolDownMinutes * Minute).

(** What the two cycles of the scenario leave in the history, over the
    store double and over the MongoDB store. *)
Definition first_cycle : history :=
  [Call (FeedRecentActions 100) first_fetch;
   Call (StoreAddRecentActions (Some [item 110; item 105])) None;
   logged zap.InfoLevel "Persisted activities till timestamp: %d" [zap.AInt 110];
   logged zap.InfoLevel "Sleeping for %v" [zap.ADuration cooldown];
   slept cooldown].

Definition second_cycle : history :=
  [Call (FeedRecentActions 100) second_fetch;
   Call (StoreAddRecentActions nil_slice) None;
   logged zap.InfoLevel "Persisted activities till timestamp: %d" [zap.AInt 110];
   logged zap.InfoLevel "Sleeping for %v" [zap.ADuration cooldown];
   slept cooldown].

Definition first_cycle_mongo : history :=
  [Call (FeedRecentActions 100) first_fetch;
   logged zap.InfoLevel "Persisting a batch of %d actions to the store"
     [zap.AInt 2];
   Call (InsertMany (mongodb.recentActionsCollection local)
           (Some [item 110; item 105])) None;
   logged zap.InfoLevel "Persisted activities till timestamp: %d" [zap.AInt 110];
   logged zap.InfoLevel "Sleeping for %v" [zap.ADuration cooldown];
   slept cooldown].

Definition second_cycle_mongo : history :=
  [Call (FeedRecentActions 100) second_fetch;
   logged zap.InfoLevel "Persisted activities till timestamp: %d" [zap.AInt 110];
   logged zap.InfoLevel "Sleeping for %v" [zap.ADuration cooldown];
   slept cooldown].

(** What the store leaves in the history when it is handed a slice that
    is empty but not nil: the driver is called, and refuses. *)
Definition empty_insert : history :=
  [logged zap.InfoLevel "Persisting a batch of %d actions to the store"
     [zap.AInt 0];
   Call (InsertMany (mongodb.recentActionsCollection local) nil_slice)
     (Some (errorString "must provide at least one element in input slice"));
   logged zap.DebugLevel "actions: %+v" [zap.AActions (Some [])]].

(** The client and the collection that [main] gets with the default
    flags, and the calls of its startup against a store that holds the
    item of time 100, against one whose aggregations fail and against one
    whose cursors cannot be decoded. *)
Definition client : mongo.Client := {| mongo.uri := cmd.kDefaultMongoAddr |}.

Definition collection : mongo.Collection :=
  mongodb.recentActionsCollection local.

Definition resumed : history :=
  trail.startup cmd.defaults client
  ++ database.aggregation collection 0%nat (database.group_max [item 100]).

Definition unavailable : history :=
  trail.startup cmd.defaults client
  ++ database.failed_aggregation collection refused.

Definition undecodable : history :=
  trail.startup cmd.defaults client
  ++ database.failed_decoding collection 0%nat (errorString "cannot decode").

(** A remote that answers, and reports that the request failed. *)
Definition complaint : wrapper :=
  {| Status := "FAILED";
     Comment := "maxCount: Field should be no more than 100";
     Result := nil_slice |}.

Definition complaining : Env :=
  online {| http.StatusCode := 400; http.Body := 0%nat |} "{}" (inl complaint)
    (plain [] [] []).

Definition complained : history :=
  [logged zap.InfoLevel "Executing RecentActions API..." [];
   Call (NewRequest "GET" "https://codeforces.com/api/recentActions")
     (inl {| http.Method := "GET";
             http.URL := "https://codeforces.com/api/recentActions";
             http.RawQuery := [] |});
   Call (ClientDo 120000000000
           {| http.Method := "GET";
              http.URL := "https://codeforces.com/api/recentActions";
              http.RawQuery := [("maxCount", "100")] |})
     (inl {| http.StatusCode := 400; http.Body := 0%nat |});
   Call (ReadAll 0%nat) (inl "{}");
   Call (Unmarshal "{}") (inl complaint);
   logged zap.DebugLevel "response body: %s" [zap.AStr "{}"];
   Call (BodyClose 0%nat) tt].

(** A feed that is down. *)
Definition offline : Env := plain [] [] [].

Definition failed_fetch : history :=
  [Call (FeedRecentActions 100) (nil_slice, Some refused)].

(** A store double that refuses the first batch. *)
Definition refusing : Env := plain [] [first_fetch] [Some refused].

Definition refused_append : history :=
  [Call (FeedRecentActions 100) first_fetch;
   Call (StoreAddRecentActions (Some [item 110; item 105])) (Some refused)].

(** A remote that answers with the first fetch of the scenario, over the
    MongoDB that holds the item of time 100, and the calls of a cycle of
    the scheduler that [main] builds with the default flags, when the
    cycle inserts [docs] and commits 110. *)
Definition page : wrapper :=
  {| Status := "OK"; Comment := ""; Result := fst first_fetch |}.

Definition live : Env :=
  online {| http.StatusCode := 200; http.Body := 0%nat |} "{}" (inl page)
    overlap.

Definition live_cycle (docs : list RecentAction) : history :=
  [logged zap.InfoLevel "Executing RecentActions API..." [];
   Call (NewRequest "GET" "https://codeforces.com/api/recentActions")
     (inl {| http.Method := "GET";
             http.URL := "https://codeforces.com/api/recentActions";
             http.RawQuery := [] |});
   Call (ClientDo 120000000000
           {| http.Method := "GET";
              http.URL := "https://codeforces.com/api/recentActions";
              http.RawQuery := [("maxCount", "100")] |})
     (inl {| http.StatusCode := 200; http.Body := 0%nat |});
   Call (ReadAll 0%nat) (inl "{}");
   Call (Unmarshal "{}") (inl page);
   Call (BodyClose 0%nat) tt;
   logged zap.InfoLevel "Persisting a batch of %d actions to the store"
     [zap.AInt (len (Some docs))];
   Call (InsertMany collection (Some docs)) None;
   logged zap.InfoLevel "Persisted activities till timestamp: %d"
     [zap.AInt 110];
   logged zap.InfoLevel "Sleeping for %v" [zap.ADuration cooldown];
   slept cooldown].

(** The environments of the lab whose feed answers with [page]. *)
Definition is_live (env : Env) : Prop :=
  env = live \/ env = aggregate_down live \/ env = decode_down live.

End lab.

(** Package errors, as far as a caller of this program uses it. *)
Module errors.

(** [errors.Unwrap]: the cause that a [%w] verb wrapped, if any. *)
Definition Unwrap (e : error) : option error :=
  match e with
  | errorString _ => None
  | wrapError _ cause => Some cause
  end.

End errors.

(** More kinds of calls. *)
Module kinds.

Import world.

Definition is_close (c : call) : bool :=
  match event c with
  | BodyClose _ => true
  | _ => false
  end.

Definition is_transport (c : call) : bool :=
  match event c with
  | ClientDo _ _ => true
  | _ => false
  end.

Definition is_sleep (c : call) : bool :=
  match event c with
  | Sleep _ => true
  | _ => false
  end.

Definition is_find (c : call) : bool :=
  match event c with
  | Find _ _ => true
  | _ => false
  end.

Definition is_connect (c : call) : bool :=
  match event c with
  | Connect _ => true
  | _ => false
  end.

Definition is_ping (c : call) : bool :=
  match event c with
  | Ping _ => true
  | _ => false
  end.

Definition is_decode (c : call) : bool :=
  match event c with
  | CursorDecode _ => true
  | _ => false
  end.

(** The error of a call of the startup that failed: the logger could not
    be built, the server could not be connected to or did not answer. *)
Definition startup_failure_of (c : call) : option error :=
  match event c in sysE X return X -> option error with
  | NewLogger _ => fun x => x
  | Connect _ => fun x =>
      match x with
      | inr cause => Some cause
      | inl _ => None
      end
  | Ping _ => fun x => x
  | _ => fun _ => None
  end (answer c).

(** The error of a call of a query that failed. *)
Definition query_failure_of (c : call) : option error :=
  match event c in sysE X return X -> option error with
  | Find _ _ => fun x =>
      match x with
      | inr cause => Some cause
      | inl _ => None
      end
  | CursorAll _ => fun x =>
      match x with
      | inr cause => Some cause
      | inl _ => None
      end
  | _ => fun _ => None
  end (answer c).

(** What ends [main] once the flags are parsed: the last call is the
    fatal log of [e], a call of the startup failed with the cause of [e],
    and neither the store was asked for its timestamp nor the feed
    fetched. *)
Definition ended_by (calls : history) : Prop :=
  exists e,
    last calls (slept 0) = Call (Log zap.FatalLevel "%v" [zap.AErr e]) tt /\
    (exists c cause,
        In c calls /\ startup_failure_of c = Some cause /\
        (e = cause \/ errors.Unwrap e = Some cause)) /\
    List.filter failures.is_aggregate calls = [] /\
    List.filter failures.is_fetch calls = [] /\
    List.filter is_sleep calls = [].

(** The cause of a failure of a fetch, when it is an error of a library. *)
Definition cause_of (f : failures.failure) : option error :=
  match f with
  | failures.RequestConstructionError cause => Some cause
  | failures.TransportError cause => Some cause
  | failures.BodyReadError cause => Some cause
  | failures.ResponseParseError cause => Some cause
  | failures.RemoteStatusError _ => None
  end.

(** [env], but with a MongoDB server that cannot be reached.  The driver
    connects in the background: [mongo.Connect] returns a client, and it
    is the ping that fails. *)
Definition unreachable (env : Env) : Env :=
  fun X hist e =>
    match e in sysE X return X -> X with
    | Ping _ => fun _ => Some lab.refused
    | _ => fun x => x
    end (env X hist e).

(** The documents of an insertion. *)
Definition inserted (c : call) : slice RecentAction :=
  match event c with
  | InsertMany _ docs => docs
  | _ => nil_slice
  end.

(** The bounds of [int64]. *)
Definition in_int64 (z : Z) : Prop := - 2 ^ 63 <= z < 2 ^ 63.

(** The largest number of minutes that fits a [time.Duration]. *)
Definition maxMinutes : Z := 153722867.

End kinds.

(* ===================================================================== *)
(** * What a program is seen to do *)
(* ===================================================================== *)

(** A run of [world.run] keeps the calls in the history that it returns,
    so it tells nothing of a program that never returns.  [play] also
    shows every call as it is made: the calls of a loop can then be
    followed cycle by cycle. *)
Module observed.

Import world.

Variant callE : Type -> Type :=
| Made (c : call) : callE unit.

Definition tell (env : Env) : sysE ~> Monads.stateT history (itree callE) :=
  fun X e hist =>
    let x := env X hist e in
    ITree.trigger (Made (Call e x)) ;;
    Ret (hist ++ [Call e x], x).

Definition play (env : Env) {R : Type} (t : itree sysE R) (hist : history)
  : itree callE (history * R) :=
  interp_state (tell env) t hist.

Definition call_of {X : Type} (e : callE X) : call :=
  match e with
  | Made c => c
  end.

(** The calls of [calls], made one after the other. *)
Fixpoint made (calls : history) : itree callE unit :=
  match calls with
  | [] => Ret tt
  | c :: calls' => ITree.trigger (Made c) ;; made calls'
  end.

(** [main] never returns from the scheduler it started. *)
Definition never (r : history * void) : itree callE (history * Z) :=
  match snd r with end.

End observed.

(* ===================================================================== *)
(** * Running trees *)
(* ===================================================================== *)

Section Running.

Import world.
Variable env : Env.

Lemma run_ret (R : Type) (r : R) (hist : history) :
  run env (Ret r) hist ≈ Ret (hist, r).
Proof. unfold run. rewrite interp_state_ret. reflexivity. Qed.

Lemma run_bind (A B : Type) (t : itree sysE A) (k : A -> itree sysE B)
  (hist : history) :
  run env (ITree.bind t k) hist
  ≈ ITree.bind (run env t hist) (fun st => run env (k (snd st)) (fst st)).
Proof. unfold run. rewrite interp_state_bind. reflexivity. Qed.

Lemma run_trigger (X : Type) (e : sysE X) (hist : history) :
  run env (ITree.trigger e) hist
  ≈ Ret (hist ++ [Call e (env hist e)], env hist e).
Proof. unfold run. rewrite interp_state_trigger. reflexivity. Qed.

(** A call followed by the rest of the program. *)
Lemma run_call (X B : Type) (e : sysE X) (k : X -> itree sysE B)
  (hist : history) :
  run env (ITree.bind (ITree.trigger e) k) hist
  ≈ run env (k (env hist e)) (hist ++ [Call e (env hist e)]).
Proof. rewrite run_bind, run_trigger, bind_ret_l. reflexivity. Qed.

Lemma run_call_unit (B : Type) (e : sysE unit) (k : unit -> itree sysE B)
  (hist : history) :
  run env (ITree.bind (ITree.trigger e) k) hist
  ≈ run env (k tt) (hist ++ [Call e tt]).
Proof. rewrite run_call. destruct (env hist e). reflexivity. Qed.

Lemma run_trigger_unit (e : sysE unit) (hist : history) :
  run env (ITree.trigger e) hist ≈ Ret (hist ++ [Call e tt], tt).
Proof. rewrite run_trigger. destruct (env hist e). reflexivity. Qed.

Lemma run_proper (R : Type) :
  Proper (eutt eq ==> eq ==> eutt eq)%signature (@run env R).
Proof.
  intros t1 t2 Ht h1 h2 Hh. subst h2. unfold run.
  rewrite Ht. reflexivity.
Qed.
#[local] Existing Instance run_proper.

(** A part that returns, followed by the rest of the program. *)
Lemma run_then (A B : Type) (t : itree sysE A) (k : A -> itree sysE B)
  (hist hist' : history) (a : A) :
  run env t hist ≈ Ret (hist', a) ->
  run env (ITree.bind t k) hist ≈ run env (k a) hist'.
Proof. intros H. rewrite run_bind, H, bind_ret_l. reflexivity. Qed.

(** If a sequence returns, its first part returned. *)
Lemma run_bind_inv (A B : Type) (t : itree sysE A) (k : A -> itree sysE B)
  (hist hist' : history) (b : B) :
  run env (ITree.bind t k) hist ≈ Ret (hist', b) ->
  exists hist1 a,
    run env t hist ≈ Ret (hist1, a) /\ run env (k a) hist1 ≈ Ret (hist', b).
Proof.
  intros H. rewrite run_bind in H.
  apply eutt_inv_bind_ret in H. destruct H as [[hist1 a] [H1 H2]].
  exists hist1, a. split; assumption.
Qed.

Lemma run_ret_inv (R : Type) (r r' : R) (hist hist' : history) :
  run env (Ret r) hist ≈ Ret (hist', r') -> hist' = hist /\ r' = r.
Proof.
  intros H. rewrite run_ret in H. apply eutt_inv_Ret in H.
  inversion H. split; reflexivity.
Qed.

Lemma answers_app (calls calls' : history) :
  forall hist : history,
    answers env hist (calls ++ calls') <->
    answers env hist calls /\ answers env (hist ++ calls) calls'.
Proof.
  induction calls as [|c calls IH]; intros hist; simpl.
  - rewrite app_nil_r. tauto.
  - rewrite IH, <- app_assoc. simpl. tauto.
Qed.

(** Rules to walk through a tree that returns. *)
Lemma returns_ret (R : Type) (r : R) (hist : history)
  (post : history -> R -> Prop) :
  post hist r -> returns env (Ret r) hist post.
Proof. intros H. exists hist, r. split; [apply run_ret | exact H]. Qed.

Lemma returns_call (X R : Type) (e : sysE X) (k : X -> itree sysE R)
  (hist : history) (post : history -> R -> Prop) :
  returns env (k (env hist e)) (hist ++ [Call e (env hist e)]) post ->
  returns env (ITree.bind (ITree.trigger e) k) hist post.
Proof.
  intros (hist' & r & Hrun & Hpost). exists hist', r.
  split; [rewrite run_call; exact Hrun | exact Hpost].
Qed.

Lemma returns_call_unit (R : Type) (e : sysE unit) (k : unit -> itree sysE R)
  (hist : history) (post : history -> R -> Prop) :
  returns env (k tt) (hist ++ [Call e tt]) post ->
  returns env (ITree.bind (ITree.trigger e) k) hist post.
Proof.
  intros (hist' & r & Hrun & Hpost). exists hist', r.
  split; [rewrite run_call_unit; exact Hrun | exact Hpost].
Qed.

Lemma returns_eutt (R : Type) (t t' : itree sysE R) (hist : history)
  (post : history -> R -> Prop) :
  t ≈ t' -> returns env t' hist post -> returns env t hist post.
Proof.
  intros Heq (hist' & r & Hrun & Hpost). exists hist', r.
  split; [rewrite Heq; exact Hrun | exact Hpost].
Qed.

Lemma returns_bind_bind (A B R : Type) (t : itree sysE A)
  (k : A -> itree sysE B) (k' : B -> itree sysE R) (hist : history)
  (post : history -> R -> Prop) :
  returns env (ITree.bind t (fun a => ITree.bind (k a) k')) hist post ->
  returns env (ITree.bind (ITree.bind t k) k') hist post.
Proof. apply returns_eutt. rewrite bind_bind. reflexivity. Qed.

Lemma returns_bind_ret (A R : Type) (a : A) (k : A -> itree sysE R)
  (hist : history) (post : history -> R -> Prop) :
  returns env (k a) hist post ->
  returns env (ITree.bind (Ret a) k) hist post.
Proof. apply returns_eutt. rewrite bind_ret_l. reflexivity. Qed.

Lemma returns_bind (A R : Type) (t : itree sysE A) (k : A -> itree sysE R)
  (hist : history) (post : history -> R -> Prop) :
  returns env t hist (fun hist1 a => returns env (k a) hist1 post) ->
  returns env (ITree.bind t k) hist post.
Proof.
  intros (hist1 & a & Hrun & hist' & r & Hrest & Hpost). exists hist', r.
  split; [| exact Hpost].
  rewrite (@run_then _ _ _ _ _ _ _ Hrun). exact Hrest.
Qed.

Lemma returns_trigger (X : Type) (e : sysE X) (hist : history)
  (post : history -> X -> Prop) :
  post (hist ++ [Call e (env hist e)]) (env hist e) ->
  returns env (ITree.trigger e) hist post.
Proof.
  intros H. exists (hist ++ [Call e (env hist e)]), (env hist e).
  split; [apply run_trigger | exact H].
Qed.

End Running.

#[global] Existing Instance run_proper.

(* ===================================================================== *)
(** * The dedup filter *)
(* ===================================================================== *)

Section Filter.

Import scheduler.

Lemma elems_extend (s : slice RecentAction) (l : list RecentAction) :
  elems (extend s l) = elems s ++ l.
Proof.
  destruct l as [|x l]; simpl.
  - rewrite app_nil_r. reflexivity.
  - reflexivity.
Qed.

Lemma extend_append (s : slice RecentAction) (x : RecentAction)
  (l : list RecentAction) :
  extend (append s x) l = extend s (x :: l).
Proof.
  destruct l as [|y l]; simpl.
  - reflexivity.
  - rewrite <- app_assoc. reflexivity.
Qed.

(** The newer of two timestamps, the way the loop picks it. *)
Lemma pick_max (now m : Z) : (if now >? m then now else m) = Z.max m now.
Proof.
  destruct (now >? m) eqn:E.
  - apply Z.gtb_lt in E. lia.
  - rewrite Z.gtb_ltb in E. apply Z.ltb_ge in E. lia.
Qed.

(** One iteration of the loop of [filter]. *)
Lemma filter_body_step (x : RecentAction) (newActions : slice RecentAction)
  (m : Z) (sch : CodeforcesScheduler) :
  filter_body x (newActions, m) sch
  = ((if TimeSeconds x >? lastInsertedTimestamp sch
      then append newActions x else newActions,
      if TimeSeconds x >? m then TimeSeconds x else m),
     sch).
Proof. reflexivity. Qed.

(** The loop of [filter], from any value of its two local variables. *)
Lemma range_filter_body (xs : list RecentAction) :
  forall (newActions : slice RecentAction) (m : Z) (sch : CodeforcesScheduler),
    range filter_body xs (newActions, m) sch
    = ((extend newActions
          (List.filter (fun a => TimeSeconds a >? lastInsertedTimestamp sch) xs),
        fold_left Z.max (List.map TimeSeconds xs) m),
       sch).
Proof.
  induction xs as [|x xs IH]; intros newActions m sch.
  - reflexivity.
  - cbn [range]. unfold seq at 1.
    rewrite (filter_body_step x newActions m sch).
    cbn [List.filter List.map fold_left].
    rewrite IH, pick_max.
    destruct (TimeSeconds x >? lastInsertedTimestamp sch).
    + rewrite extend_append. reflexivity.
    + reflexivity.
Qed.

Lemma fold_left_max_right (ts : list Z) :
  forall m : Z, fold_left Z.max ts m = fold_right Z.max m ts.
Proof.
  induction ts as [|t ts IH]; intros m; simpl.
  - reflexivity.
  - rewrite IH. clear IH. revert m.
    induction ts as [|u ts IH]; intros m; simpl.
    + lia.
    + rewrite IH. lia.
Qed.

Lemma fold_right_max_upper (ts : list Z) (m : Z) :
  m <= fold_right Z.max m ts /\
  Forall (fun t => t <= fold_right Z.max m ts) ts.
Proof.
  induction ts as [|t ts [IH1 IH2]]; simpl.
  - split; [lia | constructor].
  - split; [lia |].
    constructor; [lia |].
    eapply Forall_impl; [| exact IH2]. simpl. intros; lia.
Qed.

Lemma fold_right_max_attained (ts : list Z) (m : Z) :
  fold_right Z.max m ts = m \/ In (fold_right Z.max m ts) ts.
Proof.
  induction ts as [|t ts IH]; simpl.
  - left; reflexivity.
  - destruct (Z.max_spec t (fold_right Z.max m ts)) as [[_ E] | [_ E]];
      rewrite E.
    + destruct IH as [IH | IH]; [left | right; right]; assumption.
    + right; left; reflexivity.
Qed.

(** What [filter] returns, for every scheduler and every batch. *)
Lemma filter_run (actions : slice RecentAction) (sch : CodeforcesScheduler) :
  filter actions sch
  = ((extend nil_slice
        (List.filter (fun a => TimeSeconds a >? lastInsertedTimestamp sch)
           (elems actions)),
      fold_right Z.max (lastInsertedTimestamp sch)
        (List.map TimeSeconds (elems actions))),
     sch).
Proof.
  unfold filter, seq, load_lastInsertedTimestamp.
  rewrite range_filter_body, fold_left_max_right. reflexivity.
Qed.

Lemma filter_candidate_ge (actions : slice RecentAction)
  (sch : CodeforcesScheduler) :
  lastInsertedTimestamp sch <= snd (fst (filter actions sch)).
Proof.
  rewrite filter_run. simpl. apply fold_right_max_upper.
Qed.

Lemma filter_same_scheduler (actions : slice RecentAction)
  (sch : CodeforcesScheduler) :
  snd (filter actions sch) = sch.
Proof. rewrite filter_run. reflexivity. Qed.

End Filter.

(* ===================================================================== *)
(** * The cycle and the loop *)
(* ===================================================================== *)

Ltac run_step :=
  first
    [ rewrite bind_bind
    | rewrite bind_ret_l
    | rewrite run_call_unit
    | rewrite run_call
    | rewrite run_trigger_unit
    | rewrite run_trigger
    | rewrite run_ret ].

Ltac run_all :=
  unfold Infof, Debugf, Errorf; repeat (run_step; cbn beta iota).

Ltac run_done := rewrite <- ?app_assoc; reflexivity.

(** Walking through a tree that returns, by cases on every answer that
    the program branches on. *)
Ltac walk_step :=
  lazymatch goal with
  | |- world.returns _ (Ret _) _ _ => fail
  | |- world.returns _ (ITree.bind (ITree.bind _ _) _) _ _ =>
      apply returns_bind_bind
  | |- world.returns _ (ITree.bind (Ret _) _) _ _ =>
      apply returns_bind_ret
  | |- world.returns _ (ITree.bind (ITree.trigger _) _) _ _ =>
      first [apply returns_call_unit | apply returns_call]
  | |- world.returns _ (ITree.trigger _) _ _ =>
      apply returns_trigger
  | |- world.returns _ ?t _ _ =>
      match t with
      | context [match ?x with _ => _ end] => destruct x eqn:?
      end
  end.

Ltac walk := unfold Infof, Debugf, Errorf; repeat (walk_step; cbn beta iota).

(** By cases on the answer that the program branches on next. *)
Ltac answer_cases :=
  match goal with
  | |- context [world.run _ (match ?x with _ => _ end) _] => destruct x eqn:?
  end.

Lemma last_last_3 (A : Type) (l : list A) (a b c d : A) :
  last (l ++ [a; b; c]) d = c.
Proof.
  change (l ++ [a; b; c]) with (l ++ [a; b] ++ [c]).
  rewrite app_assoc. apply last_last.
Qed.

Section Cycle.

Import world scheduler trail.
Variable env : Env.

(** The three ways through one cycle. *)
Lemma cycle_fetch_failed (sch : CodeforcesScheduler) (hist h1 : history)
  (actions : slice RecentAction) (err : error) :
  run env (cfapi.RecentActions (cfClient sch) (batchSize sch)) hist
    ≈ Ret (h1, (actions, Some err)) ->
  run env (cycle sch) hist ≈ Ret (h1 ++ after_failed_fetch sch err, sch).
Proof.
  intros Hfetch. unfold cycle.
  rewrite (@run_then env _ _ _ _ _ _ _ Hfetch). cbn beta iota.
  run_all. run_done.
Qed.

Lemma cycle_append_failed (sch : CodeforcesScheduler) (hist h1 h2 : history)
  (actions : slice RecentAction) (err : error) :
  run env (cfapi.RecentActions (cfClient sch) (batchSize sch)) hist
    ≈ Ret (h1, (actions, None)) ->
  run env (store.AddRecentActions (cfStore sch) (fst (fst (filter actions sch)))) h1
    ≈ Ret (h2, Some err) ->
  run env (cycle sch) hist ≈ Ret (h2 ++ after_failed_append sch err, sch).
Proof.
  intros Hfetch Happend. unfold cycle.
  rewrite (@run_then env _ _ _ _ _ _ _ Hfetch). cbn beta iota.
  rewrite filter_run in *. cbn [fst snd] in Happend.
  rewrite bind_bind.
  rewrite (@run_then env _ _ _ _ _ _ _ Happend). cbn beta iota.
  run_all. run_done.
Qed.

Lemma cycle_committed (sch : CodeforcesScheduler) (hist h1 h2 : history)
  (actions : slice RecentAction) :
  run env (cfapi.RecentActions (cfClient sch) (batchSize sch)) hist
    ≈ Ret (h1, (actions, None)) ->
  run env (store.AddRecentActions (cfStore sch) (fst (fst (filter actions sch)))) h1
    ≈ Ret (h2, None) ->
  run env (cycle sch) hist
    ≈ Ret (h2 ++ after_append sch (snd (fst (filter actions sch))),
           committed_to (snd (fst (filter actions sch))) sch).
Proof.
  intros Hfetch Happend. unfold cycle.
  rewrite (@run_then env _ _ _ _ _ _ _ Hfetch). cbn beta iota.
  rewrite filter_run in *. cbn [fst snd] in Happend.
  rewrite bind_bind.
  rewrite (@run_then env _ _ _ _ _ _ _ Happend).
  unfold committed_to, store_lastInsertedTimestamp. cbn beta iota zeta.
  cbn [fst snd lastInsertedTimestamp cooldown].
  run_all. run_done.
Qed.

(** Every cycle that returns went one of these three ways. *)
Lemma cycle_inv (sch sch' : CodeforcesScheduler) (hist hist' : history) :
  run env (cycle sch) hist ≈ Ret (hist', sch') ->
  exists h1 actions err,
    run env (cfapi.RecentActions (cfClient sch) (batchSize sch)) hist
      ≈ Ret (h1, (actions, err)) /\
    match err with
    | Some e => hist' = h1 ++ after_failed_fetch sch e /\ sch' = sch
    | None =>
        exists h2 err2,
          run env (store.AddRecentActions (cfStore sch)
                     (fst (fst (filter actions sch)))) h1
            ≈ Ret (h2, err2) /\
          match err2 with
          | Some e => hist' = h2 ++ after_failed_append sch e /\ sch' = sch
          | None =>
              hist' = h2 ++ after_append sch (snd (fst (filter actions sch))) /\
              sch' = committed_to (snd (fst (filter actions sch))) sch
          end
    end.
Proof.
  intros Hrun.
  pose proof Hrun as Hsplit. unfold cycle in Hsplit.
  apply run_bind_inv in Hsplit.
  destruct Hsplit as (h1 & [actions err] & Hfetch & Hrest).
  exists h1, actions, err. split; [exact Hfetch |].
  destruct err as [e|].
  - rewrite (@cycle_fetch_failed _ _ _ _ _ Hfetch) in Hrun.
    apply eutt_inv_Ret in Hrun. inversion Hrun. split; reflexivity.
  - cbn beta iota in Hrest. rewrite filter_run in Hrest.
    apply run_bind_inv in Hrest. destruct Hrest as (h3 & sch3 & Hmid & _).
    apply run_bind_inv in Hmid. destruct Hmid as (h2 & err2 & Happend & _).
    assert (Happend' :
      run env (store.AddRecentActions (cfStore sch)
                 (fst (fst (filter actions sch)))) h1 ≈ Ret (h2, err2)).
    { rewrite filter_run. exact Happend. }
    exists h2, err2. split; [exact Happend' |].
    destruct err2 as [e|].
    + rewrite (@cycle_append_failed _ _ _ _ _ _ Hfetch Happend') in Hrun.
      apply eutt_inv_Ret in Hrun. inversion Hrun. split; reflexivity.
    + rewrite (@cycle_committed _ _ _ _ _ Hfetch Happend') in Hrun.
      apply eutt_inv_Ret in Hrun. inversion Hrun. split; reflexivity.
Qed.

(** The watermark after a cycle that returned. *)
Lemma cycle_watermark_le (sch sch' : CodeforcesScheduler)
  (hist hist' : history) :
  run env (cycle sch) hist ≈ Ret (hist', sch') ->
  lastInsertedTimestamp sch <= lastInsertedTimestamp sch'.
Proof.
  intros Hrun. apply cycle_inv in Hrun.
  destruct Hrun as (h1 & actions & [e|] & _ & H).
  - destruct H as [_ ->]. lia.
  - destruct H as (h2 & [e|] & _ & H).
    + destruct H as [_ ->]. lia.
    + destruct H as [_ ->]. apply filter_candidate_ge.
Qed.

Lemma cycles_watermark_le (n : nat) :
  forall (sch sch' : CodeforcesScheduler) (hist hist' : history),
    run env (cycles n sch) hist ≈ Ret (hist', sch') ->
    lastInsertedTimestamp sch <= lastInsertedTimestamp sch'.
Proof.
  induction n as [|n IH]; intros sch sch' hist hist' Hrun; simpl in Hrun.
  - apply run_ret_inv in Hrun. destruct Hrun as [_ ->]. lia.
  - apply run_bind_inv in Hrun. destruct Hrun as (h1 & sch1 & H1 & H2).
    apply cycle_watermark_le in H1. apply IH in H2. lia.
Qed.

(** The loop is one cycle and then the loop again. *)
Lemma Start_unfold (sch : CodeforcesScheduler) :
  Start sch ≈ ITree.bind (cycle sch) Start.
Proof.
  unfold Start at 1. rewrite unfold_iter, bind_bind.
  apply eutt_eq_bind. intros sch'.
  rewrite bind_ret_l, tau_eutt. reflexivity.
Qed.

Lemma Start_cycles (n : nat) :
  forall sch : CodeforcesScheduler,
    Start sch ≈ ITree.bind (cycles n sch) Start.
Proof.
  induction n as [|n IH]; intros sch; simpl.
  - rewrite bind_ret_l. reflexivity.
  - rewrite Start_unfold, bind_bind.
    apply eutt_eq_bind. intros sch'. apply IH.
Qed.

(** After cycles that returned, the loop goes on from where they ended. *)
Lemma Start_goes_on (n : nat) (sch sch' : CodeforcesScheduler)
  (hist hist' : history) :
  run env (cycles n sch) hist ≈ Ret (hist', sch') ->
  run env (Start sch) hist ≈ run env (Start sch') hist'.
Proof.
  intros Hrun. rewrite (Start_cycles n sch) at 1.
  rewrite (@run_then env _ _ _ _ _ _ _ Hrun). reflexivity.
Qed.

Lemma cycles_one (sch : CodeforcesScheduler) : cycles 1 sch ≈ cycle sch.
Proof. simpl. rewrite bind_ret_r. reflexivity. Qed.

(** One more cycle is one cycle after the others. *)
Lemma cycles_snoc (n : nat) :
  forall sch : CodeforcesScheduler,
    cycles (S n) sch ≈ ITree.bind (cycles n sch) cycle.
Proof.
  induction n as [|n IH]; intros sch.
  - rewrite cycles_one. simpl. rewrite bind_ret_l. reflexivity.
  - change (cycles (S (S n)) sch)
      with (ITree.bind (cycle sch) (cycles (S n))).
    change (cycles (S n) sch) with (ITree.bind (cycle sch) (cycles n)).
    rewrite bind_bind. apply eutt_eq_bind. intros sch'. apply IH.
Qed.

(** The state after [n + 1] cycles is the state after [n] cycles and one
    more cycle. *)
Lemma cycles_next (n : nat) (sch s1 s2 : CodeforcesScheduler)
  (hist h1 h2 : history) :
  run env (cycles n sch) hist ≈ Ret (h1, s1) ->
  run env (cycles (S n) sch) hist ≈ Ret (h2, s2) ->
  run env (cycle s1) h1 ≈ Ret (h2, s2).
Proof.
  intros Hn HSn. rewrite cycles_snoc in HSn.
  rewrite (@run_then env _ _ _ _ _ _ _ Hn) in HSn. exact HSn.
Qed.

(** Over the two doubles every cycle returns, whatever they answer. *)
Lemma cycle_over_doubles_returns (sch : CodeforcesScheduler)
  (hist : history) :
  over_doubles sch ->
  returns env (cycle sch) hist (fun _ sch' => over_doubles sch').
Proof.
  intros [Hfeed Hvault]. unfold cycle. rewrite Hfeed.
  cbn [cfapi.RecentActions doubles.feed].
  apply returns_call.
  destruct (env hist (FeedRecentActions (batchSize sch))) as [actions [err|]].
  - walk. apply returns_ret. split; assumption.
  - cbn beta iota. rewrite filter_run. cbn beta iota. rewrite Hvault.
    cbn [store.AddRecentActions doubles.vault].
    unfold store_lastInsertedTimestamp.
    walk; apply returns_ret; split; assumption.
Qed.

Lemma cycles_over_doubles_returns (n : nat) :
  forall (sch : CodeforcesScheduler) (hist : history),
    over_doubles sch ->
    returns env (cycles n sch) hist (fun _ sch' => over_doubles sch').
Proof.
  induction n as [|n IH]; intros sch hist Hsch; simpl.
  - apply returns_ret. exact Hsch.
  - apply returns_bind.
    destruct (cycle_over_doubles_returns hist Hsch) as (h1 & s1 & Hrun & Hs1).
    exists h1, s1. split; [exact Hrun |]. apply IH. exact Hs1.
Qed.

End Cycle.

(* ===================================================================== *)
(** * The store *)
(* ===================================================================== *)

Section Store.

Import world mongodb.
Variable env : Env.

Lemma fold_append_extend (A : Type) (l : list A) :
  forall s : slice A,
    fold_left (fun docs action => append docs action) l s = extend s l.
Proof.
  induction l as [|x l IH]; intros s; simpl.
  - reflexivity.
  - rewrite IH. destruct l as [|y l]; simpl.
    + reflexivity.
    + rewrite <- app_assoc. reflexivity.
Qed.

Lemma toDocs_extend (actions : slice RecentAction) :
  toDocs actions = extend nil_slice (elems actions).
Proof. unfold toDocs. apply fold_append_extend. Qed.

(** A nil batch: no call at all. *)
Lemma AddRecentActions_nil_run (st : mongoStore) (hist : history) :
  run env (mongoStore_AddRecentActions st nil_slice) hist ≈ Ret (hist, None).
Proof. unfold mongoStore_AddRecentActions. simpl. apply run_ret. Qed.

(** A batch that is not nil: one [InsertMany], whose answer decides. *)
Lemma AddRecentActions_some_run (st : mongoStore) (l : list RecentAction)
  (hist : history) :
  let h1 :=
    hist ++ [logged zap.InfoLevel "Persisting a batch of %d actions to the store"
               [zap.AInt (len (Some l))]] in
  let ins := InsertMany (recentActionsCollection st) (extend nil_slice l) in
  run env (mongoStore_AddRecentActions st (Some l)) hist
  ≈ Ret (match env h1 ins with
         | Some err =>
             (h1 ++ [Call ins (Some err);
                     logged zap.DebugLevel "actions: %+v" [zap.AActions (Some l)]],
              Some (Errorf_w "bulk insert failed with error [" err "]"))
         | None => (h1 ++ [Call ins None], None)
         end).
Proof.
  intros h1 ins. subst h1 ins. unfold logged.
  unfold mongoStore_AddRecentActions. cbn [is_nil].
  rewrite toDocs_extend. cbn [elems].
  unfold Infof. rewrite run_call_unit, run_call.
  answer_cases; run_all; run_done.
Qed.

(** The four ways through [LastRecordedTimestampForRecentActions]. *)
Lemma LastRecorded_aggregate_failed (st : mongoStore) (hist : history)
  (err : error) :
  let agg := Aggregate (recentActionsCollection st) maxPipeline in
  env hist agg = inr err ->
  run env (mongoStore_LastRecordedTimestampForRecentActions st) hist
  ≈ Ret (hist ++ [Call agg (inr err);
                  logged zap.ErrorLevel
                    "Querying the max recorded activity timestamp failed with error %v"
                    [zap.AErr err]],
         0).
Proof.
  intros agg H. unfold mongoStore_LastRecordedTimestampForRecentActions.
  cbn zeta. rewrite run_call. fold agg. rewrite H.
  run_all. run_done.
Qed.

Lemma LastRecorded_no_document (st : mongoStore) (hist : history)
  (cursor : mongo.Cursor) :
  let agg := Aggregate (recentActionsCollection st) maxPipeline in
  env hist agg = inl cursor ->
  env (hist ++ [Call agg (inl cursor)]) (CursorNext cursor) = false ->
  run env (mongoStore_LastRecordedTimestampForRecentActions st) hist
  ≈ Ret (hist ++ [Call agg (inl cursor); Call (CursorNext cursor) false], 0).
Proof.
  intros agg H1 H2. unfold mongoStore_LastRecordedTimestampForRecentActions.
  cbn zeta. rewrite run_call. fold agg. rewrite H1.
  rewrite run_call, H2. run_all. run_done.
Qed.

Lemma LastRecorded_decode_failed (st : mongoStore) (hist : history)
  (cursor : mongo.Cursor) (err : error) :
  let agg := Aggregate (recentActionsCollection st) maxPipeline in
  let h1 := hist ++ [Call agg (inl cursor)] in
  let h2 := h1 ++ [Call (CursorNext cursor) true] in
  env hist agg = inl cursor ->
  env h1 (CursorNext cursor) = true ->
  env h2 (CursorDecode cursor) = inr err ->
  run env (mongoStore_LastRecordedTimestampForRecentActions st) hist
  ≈ Ret (h2 ++ [Call (CursorDecode cursor) (inr err);
                logged zap.ErrorLevel
                  "Decoding of max activity timestamp failed with error%v"
                  [zap.AErr err]],
         0).
Proof.
  intros agg h1 h2 H1 H2 H3.
  unfold mongoStore_LastRecordedTimestampForRecentActions.
  cbn zeta. rewrite run_call. fold agg. rewrite H1. fold h1.
  rewrite run_call, H2. fold h2. rewrite run_call, H3.
  run_all. run_done.
Qed.

Lemma LastRecorded_decoded (st : mongoStore) (hist : history)
  (cursor : mongo.Cursor) (res : maxResult) :
  let agg := Aggregate (recentActionsCollection st) maxPipeline in
  let h1 := hist ++ [Call agg (inl cursor)] in
  let h2 := h1 ++ [Call (CursorNext cursor) true] in
  env hist agg = inl cursor ->
  env h1 (CursorNext cursor) = true ->
  env h2 (CursorDecode cursor) = inl res ->
  run env (mongoStore_LastRecordedTimestampForRecentActions st) hist
  ≈ Ret (h2 ++ [Call (CursorDecode cursor) (inl res)], Max res).
Proof.
  intros agg h1 h2 H1 H2 H3.
  unfold mongoStore_LastRecordedTimestampForRecentActions.
  cbn zeta. rewrite run_call. fold agg. rewrite H1. fold h1.
  rewrite run_call, H2. fold h2. rewrite run_call, H3.
  run_all. reflexivity.
Qed.

(** A store that holds [docs] reports their largest timestamp, or 0. *)
Lemma LastRecorded_served (st : mongoStore) (hist : history)
  (cursor : mongo.Cursor) (docs : list RecentAction) :
  answers env hist
    (database.aggregation (recentActionsCollection st) cursor
       (database.group_max docs)) ->
  run env (mongoStore_LastRecordedTimestampForRecentActions st) hist
  ≈ Ret (hist ++ database.aggregation (recentActionsCollection st) cursor
                   (database.group_max docs),
         database.reported docs).
Proof.
  unfold database.reported, database.aggregation.
  destruct (database.group_max docs) as [|r rs]; cbn [answers event answer].
  - intros (Hagg & Hnext & _).
    rewrite (@LastRecorded_no_document _ _ _ Hagg Hnext). reflexivity.
  - intros (Hagg & Hnext & Hdecode & _).
    rewrite (@LastRecorded_decoded _ _ _ _ Hagg Hnext Hdecode).
    cbv zeta. run_done.
Qed.

Lemma LastRecorded_unavailable (st : mongoStore) (hist : history)
  (err : error) :
  answers env hist
    (database.failed_aggregation (recentActionsCollection st) err) ->
  run env (mongoStore_LastRecordedTimestampForRecentActions st) hist
  ≈ Ret (hist ++ database.failed_aggregation (recentActionsCollection st) err
              ++ [logged zap.ErrorLevel
                    "Querying the max recorded activity timestamp failed with error %v"
                    [zap.AErr err]],
         0).
Proof.
  cbn [answers database.failed_aggregation event answer].
  intros (Hagg & _).
  rewrite (@LastRecorded_aggregate_failed _ _ _ Hagg). reflexivity.
Qed.

Lemma LastRecorded_undecodable (st : mongoStore) (hist : history)
  (cursor : mongo.Cursor) (err : error) :
  answers env hist
    (database.failed_decoding (recentActionsCollection st) cursor err) ->
  run env (mongoStore_LastRecordedTimestampForRecentActions st) hist
  ≈ Ret (hist ++ database.failed_decoding (recentActionsCollection st) cursor err
              ++ [logged zap.ErrorLevel
                    "Decoding of max activity timestamp failed with error%v"
                    [zap.AErr err]],
         0).
Proof.
  cbn [answers database.failed_decoding event answer].
  intros (Hagg & Hnext & Hdecode & _).
  rewrite (@LastRecorded_decode_failed _ _ _ _ Hagg Hnext Hdecode).
  cbv zeta. run_done.
Qed.

End Store.

(* ===================================================================== *)
(** * Startup *)
(* ===================================================================== *)

Section Startup.

Import world scheduler trail cmd.
Variable env : Env.

(** With a logger and a server that answers the ping, the store is
    there. *)
Lemma NewMongoStore_connected (fl : flags) (client : mongo.Client)
  (hist : history) :
  answers env hist (startup fl client) ->
  run env (mongodb.NewMongoStore (mongoAddr fl) (databaseName fl))
    (hist ++ firstn 1 (startup fl client))
  ≈ Ret (hist ++ startup fl client,
         inl (mongodb.asStore (mongodb.mStoreOf client (databaseName fl)))).
Proof.
  cbn [answers startup event answer answer_type firstn]. unfold logged.
  cbn [event answer answer_type].
  intros (_ & _ & Hconnect & Hping & _).
  unfold mongodb.NewMongoStore, Infof.
  rewrite ?bind_bind, run_call_unit.
  rewrite ?bind_bind, run_call, Hconnect. cbn beta iota.
  rewrite ?bind_bind, run_call, Hping. cbn beta iota.
  rewrite run_ret. rewrite <- !app_assoc. reflexivity.
Qed.

(** With a logger and a store that is connected, [main] gets there. *)
Lemma main_resumes (fl : flags) (client : mongo.Client) (hist : history) :
  answers env hist (startup fl client) ->
  run env (main (Parsed fl)) hist
  ≈ ITree.bind
      (run env
         (resume fl
            (cfapi.NewCodeforcesClient
               (wrap64 (kDefaultCodeforcesTimeoutMinutes * Minute)))
            (mongodb.asStore (mongodb.mStoreOf client (databaseName fl))))
         (hist ++ startup fl client))
      forever.
Proof.
  intros Hstart. pose proof (NewMongoStore_connected Hstart) as Hstore.
  revert Hstart.
  cbn [answers startup event answer answer_type]. unfold logged.
  cbn [event answer answer_type].
  intros (Hlogger & _).
  unfold main.
  rewrite run_call, Hlogger. cbn beta iota.
  rewrite (@run_then env _ _ _ _ _ _ _ Hstore). cbn beta iota.
  rewrite run_bind.
  apply eutt_eq_bind. intros [h never]. destruct never.
Qed.

End Startup.

(* ===================================================================== *)
(** * Following a program call by call *)
(* ===================================================================== *)

Section Observed.

Import world observed scheduler trail cmd.
Variable env : Env.

Lemma play_ret (R : Type) (r : R) (hist : history) :
  play env (Ret r) hist ≈ Ret (hist, r).
Proof. unfold play. rewrite interp_state_ret. reflexivity. Qed.

Lemma play_bind (A B : Type) (t : itree sysE A) (k : A -> itree sysE B)
  (hist : history) :
  play env (ITree.bind t k) hist
  ≈ ITree.bind (play env t hist) (fun st => play env (k (snd st)) (fst st)).
Proof. unfold play. rewrite interp_state_bind. reflexivity. Qed.

Lemma play_proper (R : Type) :
  Proper (eutt eq ==> eq ==> eutt eq)%signature (@play env R).
Proof.
  intros t1 t2 Ht h1 h2 Hh. subst h2. unfold play.
  rewrite Ht. reflexivity.
Qed.
#[local] Existing Instance play_proper.

Lemma made_app (calls calls' : history) :
  made (calls ++ calls') ≈ (made calls ;; made calls').
Proof.
  induction calls as [|c calls IH]; cbn [made app].
  - rewrite bind_ret_l. reflexivity.
  - rewrite bind_bind. apply eutt_eq_bind. intros _. exact IH.
Qed.

(** Calls made one after the other add up. *)
Lemma made_then (R : Type) (calls calls' : history)
  (t t' t'' : itree callE R) :
  t ≈ (made calls ;; t') ->
  t' ≈ (made calls' ;; t'') ->
  t ≈ (made (calls ++ calls') ;; t'').
Proof.
  intros H H'. rewrite H, made_app, bind_bind.
  apply eutt_eq_bind. intros _. exact H'.
Qed.

(** What is seen tells the calls apart: two plays that agree made the
    same calls. *)
Lemma made_agree (R : Type) (X1 X2 : Type) (p : X1 = X2)
  (e1 : callE X1) (e2 : callE X2)
  (k1 : X1 -> itree callE R) (k2 : X2 -> itree callE R) :
  eqeq callE p e1 e2 ->
  pweqeq (eutt eq) p k1 k2 ->
  call_of e1 = call_of e2 /\ forall x1, exists x2, k1 x1 ≈ k2 x2.
Proof.
  destruct p. cbn. intros -> Hk. split; [reflexivity |].
  intros x. exists x. apply Hk.
Qed.

Lemma made_cons_inv (R : Type) (c c' : call) (t t' : itree callE R) :
  (ITree.trigger (Made c) ;; t) ≈ (ITree.trigger (Made c') ;; t') ->
  c = c' /\ t ≈ t'.
Proof.
  intros H. rewrite !bind_trigger in H. apply eqit_inv in H. cbn in H.
  destruct H as (p & He & Hk).
  destruct (@made_agree _ _ _ p _ _ _ _ He Hk) as [Hc Ht].
  split; [exact Hc |]. destruct (Ht tt) as (_ & H). exact H.
Qed.

Lemma made_inv (R : Type) (calls : history) :
  forall (calls' : history) (t t' : itree callE R),
    List.length calls = List.length calls' ->
    (made calls ;; t) ≈ (made calls' ;; t') ->
    calls = calls' /\ t ≈ t'.
Proof.
  induction calls as [|c calls IH]; intros [|c' calls'] t t' Hlen H;
    try discriminate Hlen.
  - cbn [made] in H. rewrite !bind_ret_l in H. split; [reflexivity | exact H].
  - cbn [made] in H. rewrite !bind_bind in H.
    apply made_cons_inv in H. destruct H as [-> H].
    injection Hlen as Hlen.
    destruct (IH calls' t t' Hlen H) as [-> Ht].
    split; [reflexivity | exact Ht].
Qed.

(** A run that returns is seen to make the calls that its history has
    more than the history it began with, and then to return.  The proof
    follows the run step by step: the run and the play of a tree take
    their steps together. *)
Lemma play_of_run_steps (R : Type) (T : itree void1 (history * R))
  (res : history * R) :
  T ≈ Ret res ->
  forall (t : itree sysE R) (hist : history),
    T ≅ run env t hist ->
    exists calls,
      fst res = hist ++ calls /\
      play env t hist ≈ (made calls ;; Ret res).
Proof.
  intros H. punfold H. red in H. cbn in H.
  remember (observe T) as oT eqn:EoT.
  remember (RetF res) as oR eqn:EoR.
  revert T EoT.
  induction H; intros T0 EoT t hist HT; try discriminate.
  - inversion EoR; subst.
    rewrite (itree_eta T0), <- EoT in HT.
    unfold run, play in *.
    assert (Et : t ≅ go (observe t)) by apply itree_eta.
    destruct (observe t) as [r | t' | X e k]; rewrite Et in HT.
    + rewrite interp_state_ret in HT. apply eqit_inv_Ret in HT. subst.
      exists []. split; [cbn; now rewrite app_nil_r |].
      rewrite Et, interp_state_ret. cbn. rewrite bind_ret_l. reflexivity.
    + rewrite interp_state_tau in HT. apply eqit_inv in HT. contradiction.
    + rewrite interp_state_vis in HT. unfold handle in HT.
      rewrite bind_ret_l in HT. apply eqit_inv in HT. contradiction.
  - rewrite (itree_eta T0), <- EoT in HT.
    unfold run, play in *.
    assert (Et : t ≅ go (observe t)) by apply itree_eta.
    destruct (observe t) as [r | t' | X e k]; rewrite Et in HT.
    + rewrite interp_state_ret in HT. apply eqit_inv in HT. contradiction.
    + rewrite interp_state_tau in HT. apply eqit_inv_Tau in HT.
      destruct (IHeqitF EoR t1 eq_refl t' hist HT) as (calls & E & P).
      exists calls. split; [exact E |].
      rewrite Et, interp_state_tau, tau_eutt. exact P.
    + rewrite interp_state_vis in HT. unfold handle in HT.
      rewrite bind_ret_l in HT. cbn in HT. apply eqit_inv_Tau in HT.
      destruct (IHeqitF EoR t1 eq_refl _ _ HT) as (calls & E & P).
      exists (Call e (env hist e) :: calls). split.
      * rewrite E, <- app_assoc. reflexivity.
      * rewrite Et, interp_state_vis. unfold tell.
        cbn [made]. rewrite !bind_bind.
        apply eutt_eq_bind. intros []. rewrite bind_ret_l. cbn [fst snd].
        rewrite tau_eutt. exact P.
Qed.

Lemma play_of_run (R : Type) (t : itree sysE R) (hist calls : history)
  (r : R) :
  run env t hist ≈ Ret (hist ++ calls, r) ->
  play env t hist ≈ (made calls ;; Ret (hist ++ calls, r)).
Proof.
  intros H.
  destruct (@play_of_run_steps R _ _ H t hist) as (calls' & E & P);
    [reflexivity |].
  cbn [fst] in E. apply app_inv_head in E. subst calls'. exact P.
Qed.

(** A run that returns only adds calls to the history. *)
Lemma run_extends (R : Type) (t : itree sysE R) (hist hist' : history)
  (r : R) :
  run env t hist ≈ Ret (hist', r) -> exists calls, hist' = hist ++ calls.
Proof.
  intros H.
  destruct (@play_of_run_steps R _ _ H t hist) as (calls & E & _);
    [reflexivity |].
  exists calls. exact E.
Qed.

(** A part that returns, followed by the rest of the program. *)
Lemma play_then (A B : Type) (t : itree sysE A) (k : A -> itree sysE B)
  (hist calls : history) (a : A) :
  run env t hist ≈ Ret (hist ++ calls, a) ->
  play env (ITree.bind t k) hist
  ≈ (made calls ;; play env (k a) (hist ++ calls)).
Proof.
  intros H. rewrite play_bind, (@play_of_run _ _ _ _ _ H), bind_bind.
  apply eutt_eq_bind. intros _. rewrite bind_ret_l. reflexivity.
Qed.

(** The loop is seen to make the calls of a cycle that returns, and then
    to be the loop again, from the scheduler and the history that the
    cycle left. *)
Lemma Start_plays_cycle (sch sch' : CodeforcesScheduler)
  (hist calls : history) :
  run env (cycle sch) hist ≈ Ret (hist ++ calls, sch') ->
  play env (Start sch) hist
  ≈ (made calls ;; play env (Start sch') (hist ++ calls)).
Proof.
  intros H. rewrite (Start_unfold sch) at 1. apply play_then. exact H.
Qed.

Lemma Start_plays_cycles (n : nat) (sch sch' : CodeforcesScheduler)
  (hist calls : history) :
  run env (cycles n sch) hist ≈ Ret (hist ++ calls, sch') ->
  play env (Start sch) hist
  ≈ (made calls ;; play env (Start sch') (hist ++ calls)).
Proof.
  intros H. rewrite (Start_cycles n sch) at 1. apply play_then. exact H.
Qed.

(** The same, cycle by cycle and without asking that the cycle returns. *)
Lemma Start_plays_unfold (sch : CodeforcesScheduler) (hist : history) :
  play env (Start sch) hist
  ≈ ITree.bind (play env (cycle sch) hist)
      (fun st => play env (Start (snd st)) (fst st)).
Proof. rewrite (Start_unfold sch) at 1. apply play_bind. Qed.

(** With a logger and a store that is connected and that reports [seed],
    [main] is seen to make the calls of the startup and those of the
    store, and then to be the loop of the scheduler seeded with [seed]. *)
Lemma main_plays_seeded (fl : flags) (client : mongo.Client)
  (hist calls : history) (seed : Z) :
  answers env hist (startup fl client) ->
  run env
    (mongodb.mongoStore_LastRecordedTimestampForRecentActions
       (mongodb.mStoreOf client (databaseName fl)))
    (hist ++ startup fl client)
    ≈ Ret ((hist ++ startup fl client) ++ calls, seed) ->
  play env (main (Parsed fl)) hist
  ≈ (made (startup fl client ++ calls) ;;
     ITree.bind
       (play env (Start (seeded fl client seed))
          (hist ++ startup fl client ++ calls))
       never).
Proof.
  intros Hstart Hlast.
  pose proof (NewMongoStore_connected Hstart) as Hstore.
  assert (Hlogger :
            run env
              (ITree.trigger
                 (NewLogger (negb (String.eqb (environment fl)
                                     kDevelopmentEnvironment))))
              hist
            ≈ Ret (hist ++ firstn 1 (startup fl client), None)).
  { destruct Hstart as (Hlogger & _). cbn [event answer answer_type] in Hlogger.
    rewrite run_trigger, Hlogger. reflexivity. }
  change (startup fl client)
    with (firstn 1 (startup fl client) ++ skipn 1 (startup fl client))
    in Hstore at 2.
  rewrite app_assoc in Hstore.
  change (startup fl client)
    with (firstn 1 (startup fl client) ++ skipn 1 (startup fl client)) at 1.
  rewrite <- app_assoc.
  eapply made_then; [unfold main; apply play_then; exact Hlogger |].
  cbn beta iota.
  eapply made_then; [apply play_then; exact Hstore |].
  cbn beta iota. rewrite play_bind.
  unfold resume at 1.
  assert (Hseed :
            play env
              (resume fl
                 (cfapi.NewCodeforcesClient
                    (wrap64 (kDefaultCodeforcesTimeoutMinutes * Minute)))
                 (mongodb.asStore (mongodb.mStoreOf client (databaseName fl))))
              (hist ++ startup fl client)
            ≈ (made calls ;;
               play env (Start (seeded fl client seed))
                 ((hist ++ startup fl client) ++ calls))).
  { exact (@play_then _ _ _ (fun ts => Start (seeded fl client ts)) _ _ _ Hlast). }
  fold (resume fl
          (cfapi.NewCodeforcesClient
             (wrap64 (kDefaultCodeforcesTimeoutMinutes * Minute)))
          (mongodb.asStore (mongodb.mStoreOf client (databaseName fl)))).
  change ((hist ++ firstn 1 (startup fl client)) ++ skipn 1 (startup fl client))
    with ((hist ++ [hd (slept 0) (startup fl client)])
            ++ skipn 1 (startup fl client)).
  rewrite <- (app_assoc hist). 
  change ([hd (slept 0) (startup fl client)] ++ skipn 1 (startup fl client))
    with (startup fl client).
  rewrite Hseed, bind_bind. rewrite <- !app_assoc.
  apply eutt_eq_bind. intros _.
  apply eutt_eq_bind. intros [h never]. destruct never.
Qed.

(** The fetch of the feed client and the append of the MongoDB store
    return, whatever the network and the server answer, and neither asks
    the store for its timestamp. *)
Lemma fetch_never_aggregates (cf : cfapi.codeforcesClient) (maxCount : Z)
  (hist : history) :
  returns env (cfapi.codeforcesClient_RecentActions cf maxCount) hist
    (fun hist' _ =>
       exists calls,
         hist' = hist ++ calls /\
         List.filter failures.is_aggregate calls = []).
Proof.
  unfold cfapi.codeforcesClient_RecentActions, cfapi.readAndParse. cbn zeta.
  walk.
  all: apply returns_ret; rewrite <- ?app_assoc.
  all: eexists; split; reflexivity.
Qed.

Lemma append_never_aggregates (st : mongodb.mongoStore)
  (actions : slice RecentAction) (hist : history) :
  returns env (mongodb.mongoStore_AddRecentActions st actions) hist
    (fun hist' _ =>
       exists calls,
         hist' = hist ++ calls /\
         List.filter failures.is_aggregate calls = []).
Proof.
  unfold mongodb.mongoStore_AddRecentActions.
  destruct (is_nil actions).
  - apply returns_ret. exists []. rewrite app_nil_r. split; reflexivity.
  - walk.
    all: apply returns_ret; rewrite <- ?app_assoc.
    all: eexists; split; reflexivity.
Qed.

(** The cycles of the scheduler that [main] builds return, whatever the
    network and the server answer, and none of them asks the store for
    its timestamp: the watermark they run on is the one of the startup,
    moved by their own commits. *)
Lemma cycle_of_main_returns (fl : flags) (client : mongo.Client) (W : Z)
  (hist : history) :
  returns env (cycle (seeded fl client W)) hist
    (fun hist' sch' =>
       exists calls W',
         hist' = hist ++ calls /\ sch' = seeded fl client W' /\
         List.filter failures.is_aggregate calls = []).
Proof.
  unfold cycle. apply returns_bind.
  destruct (fetch_never_aggregates
              {| cfapi.Timeout :=
                   wrap64 (kDefaultCodeforcesTimeoutMinutes * Minute) |}
              (batchSize fl) hist)
    as (h1 & [actions err] & Hfetch & calls & -> & Hnone).
  exists (hist ++ calls), (actions, err). split; [exact Hfetch |].
  destruct err as [err|]; cbn beta iota.
  - walk. apply returns_ret. rewrite <- ?app_assoc.
    eexists _, W. split; [reflexivity |]. split; [reflexivity |].
    rewrite filter_app, Hnone. reflexivity.
  - rewrite filter_run. cbn beta iota. apply returns_bind_bind.
    apply returns_bind.
    destruct (append_never_aggregates
                (mongodb.mStoreOf client (databaseName fl))
                (extend nil_slice
                   (List.filter
                      (fun a => TimeSeconds a >?
                                lastInsertedTimestamp (seeded fl client W))
                      (elems actions)))
                (hist ++ calls))
      as (h2 & err2 & Happend & calls2 & -> & Hnone2).
    exists ((hist ++ calls) ++ calls2), err2. split; [exact Happend |].
    destruct err2 as [err2|]; cbn beta iota.
    + walk. apply returns_ret. rewrite <- ?app_assoc.
      eexists _, W. split; [reflexivity |]. split; [reflexivity |].
      rewrite !filter_app, Hnone, Hnone2. reflexivity.
    + unfold store_lastInsertedTimestamp. cbn beta iota.
      walk. apply returns_ret. rewrite <- ?app_assoc.
      eexists _, _. split; [reflexivity |]. split; [reflexivity |].
      rewrite !filter_app, Hnone, Hnone2. reflexivity.
Qed.

Lemma cycles_of_main_return (fl : flags) (client : mongo.Client) (n : nat) :
  forall (W : Z) (hist : history),
    returns env (cycles n (seeded fl client W)) hist
      (fun hist' sch' =>
         exists calls W',
           hist' = hist ++ calls /\ sch' = seeded fl client W' /\
           List.filter failures.is_aggregate calls = []).
Proof.
  induction n as [|n IH]; intros W hist; cbn [cycles].
  - apply returns_ret. exists [], W. rewrite app_nil_r. repeat split.
  - apply returns_bind.
    destruct (cycle_of_main_returns fl client W hist)
      as (h1 & s1 & Hrun & calls & W1 & -> & -> & Hnone).
    exists (hist ++ calls), (seeded fl client W1). split; [exact Hrun |].
    destruct (IH W1 (hist ++ calls))
      as (h2 & s2 & Hrun2 & calls2 & W2 & -> & -> & Hnone2).
    exists ((hist ++ calls) ++ calls2), (seeded fl client W2).
    split; [exact Hrun2 |].
    exists (calls ++ calls2), W2. rewrite app_assoc.
    split; [reflexivity |]. split; [reflexivity |].
    rewrite filter_app, Hnone, Hnone2. reflexivity.
Qed.

End Observed.

Section Database.

(** The timestamp that a store reports is the largest one it holds. *)
Lemma reported_empty : database.reported [] = 0.
Proof. reflexivity. Qed.

Lemma reported_is_max (docs : list RecentAction) (T0 : Z) :
  In T0 (List.map TimeSeconds docs) ->
  Forall (fun d => TimeSeconds d <= T0) docs ->
  database.reported docs = T0.
Proof.
  destruct docs as [|d ds]; [intros [] |].
  intros Hin Hall. unfold database.reported. cbn [database.group_max Max].
  rewrite fold_left_max_right.
  destruct (fold_right_max_upper (List.map TimeSeconds ds) (TimeSeconds d))
    as [Hd Hds].
  assert (Hle : T0 <= fold_right Z.max (TimeSeconds d) (List.map TimeSeconds ds)).
  { destruct Hin as [<- | Hin]; [exact Hd |].
    rewrite Forall_forall in Hds. apply Hds. exact Hin. }
  assert (Hge : fold_right Z.max (TimeSeconds d) (List.map TimeSeconds ds) <= T0).
  { inversion Hall as [|? ? Hd0 Hds0]; subst.
    destruct (fold_right_max_attained (List.map TimeSeconds ds) (TimeSeconds d))
      as [-> | Hat]; [exact Hd0 |].
    apply in_map_iff in Hat. destruct Hat as (x & <- & Hx).
    rewrite Forall_forall in Hds0. apply Hds0. exact Hx. }
  lia.
Qed.

End Database.

(* ===================================================================== *)
(** * The feed client *)
(* ===================================================================== *)

Section Client.

Import world cfapi failures.

Lemma status_ok (w : wrapper) :
  negb (String.eqb (Status w) kStatusOK) = false ->
  String.eqb (Status w) "OK" = true.
Proof. intros H. apply negb_false_iff in H. exact H. Qed.

Lemma status_not_ok (w : wrapper) :
  negb (String.eqb (Status w) kStatusOK) = true ->
  String.eqb (Status w) "OK" = false.
Proof. intros H. apply negb_true_iff in H. exact H. Qed.

(** Whether one of the calls reports a failure, computed. *)
Lemma some_failure_iff (calls : history) :
  (exists c, In c calls /\ failure_of c <> None) <->
  existsb (fun c => match failure_of c with Some _ => true | None => false end)
    calls = true.
Proof.
  rewrite existsb_exists. split.
  - intros (c & Hin & Hf). exists c. split; [exact Hin |].
    destruct (failure_of c); [reflexivity | contradiction].
  - intros (c & Hin & Hf). exists c. split; [exact Hin |].
    destruct (failure_of c); [discriminate | discriminate].
Qed.

End Client.

(* ===================================================================== *)
(** * Runs in the environments of the lab *)
(* ===================================================================== *)

Section Scenarios.

Import world scheduler trail.

Lemma overlap_first_cycle :
  run lab.overlap (cycle (lab.bench 100)) []
  ≈ Ret (lab.first_cycle, lab.bench 110).
Proof.
  assert (Hfetch :
    run lab.overlap
      (cfapi.RecentActions (cfClient (lab.bench 100)) (batchSize (lab.bench 100)))
      []
    ≈ Ret ([Call (FeedRecentActions 100) lab.first_fetch], lab.first_fetch)).
  { cbn. rewrite run_trigger. reflexivity. }
  assert (Happend :
    run lab.overlap
      (store.AddRecentActions (cfStore (lab.bench 100))
         (fst (fst (filter (fst lab.first_fetch) (lab.bench 100)))))
      [Call (FeedRecentActions 100) lab.first_fetch]
    ≈ Ret (firstn 2 lab.first_cycle, None)).
  { cbn. rewrite run_trigger. reflexivity. }
  rewrite (@cycle_committed _ _ _ _ _ _ Hfetch Happend). reflexivity.
Qed.

Lemma overlap_second_cycle :
  run lab.overlap (cycle (lab.bench 110)) lab.first_cycle
  ≈ Ret (lab.first_cycle ++ lab.second_cycle, lab.bench 110).
Proof.
  assert (Hfetch :
    run lab.overlap
      (cfapi.RecentActions (cfClient (lab.bench 110)) (batchSize (lab.bench 110)))
      lab.first_cycle
    ≈ Ret (lab.first_cycle ++ firstn 1 lab.second_cycle, lab.second_fetch)).
  { cbn. rewrite run_trigger. reflexivity. }
  assert (Happend :
    run lab.overlap
      (store.AddRecentActions (cfStore (lab.bench 110))
         (fst (fst (filter (fst lab.second_fetch) (lab.bench 110)))))
      (lab.first_cycle ++ firstn 1 lab.second_cycle)
    ≈ Ret (lab.first_cycle ++ firstn 2 lab.second_cycle, None)).
  { cbn. rewrite run_trigger. reflexivity. }
  rewrite (@cycle_committed _ _ _ _ _ _ Hfetch Happend). reflexivity.
Qed.

Lemma overlap_two_cycles :
  run lab.overlap (cycles 2 (lab.bench 100)) []
  ≈ Ret (lab.first_cycle ++ lab.second_cycle, lab.bench 110).
Proof.
  change (cycles 2 (lab.bench 100))
    with (ITree.bind (cycle (lab.bench 100)) (cycles 1)).
  rewrite (@run_then _ _ _ _ _ _ _ _ overlap_first_cycle), cycles_one.
  apply overlap_second_cycle.
Qed.

Lemma overlap_first_cycle_mongo :
  run lab.overlap (cycle (lab.bench_mongo 100)) []
  ≈ Ret (lab.first_cycle_mongo, lab.bench_mongo 110).
Proof.
  assert (Hfetch :
    run lab.overlap
      (cfapi.RecentActions (cfClient (lab.bench_mongo 100))
         (batchSize (lab.bench_mongo 100)))
      []
    ≈ Ret ([Call (FeedRecentActions 100) lab.first_fetch], lab.first_fetch)).
  { cbn. rewrite run_trigger. reflexivity. }
  assert (Happend :
    run lab.overlap
      (store.AddRecentActions (cfStore (lab.bench_mongo 100))
         (fst (fst (filter (fst lab.first_fetch) (lab.bench_mongo 100)))))
      [Call (FeedRecentActions 100) lab.first_fetch]
    ≈ Ret (firstn 3 lab.first_cycle_mongo, None)).
  { change (run lab.overlap
              (mongodb.mongoStore_AddRecentActions lab.local
                 (Some [lab.item 110; lab.item 105]))
              [Call (FeedRecentActions 100) lab.first_fetch]
            ≈ Ret (firstn 3 lab.first_cycle_mongo, None)).
    rewrite AddRecentActions_some_run. reflexivity. }
  rewrite (@cycle_committed _ _ _ _ _ _ Hfetch Happend). reflexivity.
Qed.

Lemma overlap_second_cycle_mongo :
  run lab.overlap (cycle (lab.bench_mongo 110)) lab.first_cycle_mongo
  ≈ Ret (lab.first_cycle_mongo ++ lab.second_cycle_mongo, lab.bench_mongo 110).
Proof.
  assert (Hfetch :
    run lab.overlap
      (cfapi.RecentActions (cfClient (lab.bench_mongo 110))
         (batchSize (lab.bench_mongo 110)))
      lab.first_cycle_mongo
    ≈ Ret (lab.first_cycle_mongo ++ firstn 1 lab.second_cycle_mongo,
           lab.second_fetch)).
  { cbn. rewrite run_trigger. reflexivity. }
  assert (Happend :
    run lab.overlap
      (store.AddRecentActions (cfStore (lab.bench_mongo 110))
         (fst (fst (filter (fst lab.second_fetch) (lab.bench_mongo 110)))))
      (lab.first_cycle_mongo ++ firstn 1 lab.second_cycle_mongo)
    ≈ Ret (lab.first_cycle_mongo ++ firstn 1 lab.second_cycle_mongo, None)).
  { change (run lab.overlap
              (mongodb.mongoStore_AddRecentActions lab.local nil_slice)
              (lab.first_cycle_mongo ++ firstn 1 lab.second_cycle_mongo)
            ≈ Ret (lab.first_cycle_mongo ++ firstn 1 lab.second_cycle_mongo,
                   None)).
    apply AddRecentActions_nil_run. }
  rewrite (@cycle_committed _ _ _ _ _ _ Hfetch Happend). reflexivity.
Qed.

Lemma offline_fetch :
  run lab.offline
    (cfapi.RecentActions (cfClient (lab.bench 42)) (batchSize (lab.bench 42)))
    []
  ≈ Ret (lab.failed_fetch, (nil_slice, Some lab.refused)).
Proof. cbn. rewrite run_trigger. reflexivity. Qed.

Lemma refusing_fetch :
  run lab.refusing
    (cfapi.RecentActions (cfClient (lab.bench 100)) (batchSize (lab.bench 100)))
    []
  ≈ Ret (firstn 1 lab.refused_append, (fst lab.first_fetch, None)).
Proof. cbn. rewrite run_trigger. reflexivity. Qed.

Lemma refusing_append :
  run lab.refusing
    (store.AddRecentActions (cfStore (lab.bench 100))
       (fst (fst (filter (fst lab.first_fetch) (lab.bench 100)))))
    (firstn 1 lab.refused_append)
  ≈ Ret (lab.refused_append, Some lab.refused).
Proof. cbn. rewrite run_trigger. reflexivity. Qed.

(** The trees compute: burning the silent steps of a run gives its
    result. *)
Example overlap_first_cycle_computes :
  observe (burn 50 (run lab.overlap (cycle (lab.bench 100)) []))
  = RetF (lab.first_cycle, lab.bench 110).
Proof. vm_compute. reflexivity. Qed.

Example overlap_two_cycles_mongo_computes :
  observe (burn 100 (run lab.overlap (cycles 2 (lab.bench_mongo 100)) []))
  = RetF (lab.first_cycle_mongo ++ lab.second_cycle_mongo, lab.bench_mongo 110).
Proof. vm_compute. reflexivity. Qed.

Lemma complaining_fetch :
  run lab.complaining
    (cfapi.codeforcesClient_RecentActions {| cfapi.Timeout := 120000000000 |} 100)
    []
  ≈ Ret (lab.complained,
         (nil_slice,
          Some (errorString
                  "codeforces returned an internal error with comment [maxCount: Field should be no more than 100]"))).
Proof.
  unfold cfapi.codeforcesClient_RecentActions, cfapi.readAndParse. cbn zeta.
  rewrite run_call_unit, run_call. cbn.
  rewrite run_call. cbn. rewrite bind_bind, run_call. cbn.
  rewrite bind_bind, run_call. cbn.
  run_all. reflexivity.
Qed.

Lemma empty_slice_insert :
  run lab.offline
    (mongodb.mongoStore_AddRecentActions lab.local (Some [])) []
  ≈ Ret (lab.empty_insert,
         Some (Errorf_w "bulk insert failed with error ["
                 (errorString "must provide at least one element in input slice")
                 "]")).
Proof. rewrite AddRecentActions_some_run. reflexivity. Qed.

(** Over a feed that answers with the first fetch, the scheduler of
    [main] inserts what is new against its watermark and commits 110. *)
Lemma live_fetch (env : Env) (hist : history) :
  lab.is_live env ->
  run env
    (cfapi.codeforcesClient_RecentActions {| cfapi.Timeout := 120000000000 |}
       100)
    hist
  ≈ Ret (hist ++ firstn 6 (lab.live_cycle []), lab.first_fetch).
Proof.
  intros Henv.
  unfold cfapi.codeforcesClient_RecentActions, cfapi.readAndParse. cbn zeta.
  destruct Henv as [-> | [-> | ->]].
  all: rewrite run_call_unit, run_call; cbn.
  all: rewrite run_call; cbn; rewrite bind_bind, run_call; cbn.
  all: rewrite bind_bind, run_call; cbn.
  all: run_all; run_done.
Qed.

Lemma live_cycle_run (env : Env) (W : Z) (docs : list RecentAction)
  (hist : history) :
  lab.is_live env ->
  (W, docs) = (100, [lab.item 110; lab.item 105]) \/
  (W, docs) = (0, [lab.item 90; lab.item 110; lab.item 105]) ->
  run env (cycle (trail.seeded cmd.defaults lab.client W)) hist
  ≈ Ret (hist ++ lab.live_cycle docs, trail.seeded cmd.defaults lab.client 110).
Proof.
  intros Henv HW.
  assert (Hfetch :
    run env
      (cfapi.RecentActions (cfClient (trail.seeded cmd.defaults lab.client W))
         (batchSize (trail.seeded cmd.defaults lab.client W)))
      hist
    ≈ Ret (hist ++ firstn 6 (lab.live_cycle []), (fst lab.first_fetch, None))).
  { apply live_fetch. exact Henv. }
  assert (Happend :
    run env
      (store.AddRecentActions
         (cfStore (trail.seeded cmd.defaults lab.client W))
         (fst (fst (filter (fst lab.first_fetch)
                      (trail.seeded cmd.defaults lab.client W)))))
      (hist ++ firstn 6 (lab.live_cycle []))
    ≈ Ret (hist ++ firstn 8 (lab.live_cycle docs), None)).
  { change (run env
              (mongodb.mongoStore_AddRecentActions lab.local
                 (fst (fst (filter (fst lab.first_fetch)
                              (trail.seeded cmd.defaults lab.client W)))))
              (hist ++ firstn 6 (lab.live_cycle []))
            ≈ Ret (hist ++ firstn 8 (lab.live_cycle docs), None)).
    destruct HW as [E | E]; injection E as -> ->.
    - change (fst (fst (filter (fst lab.first_fetch)
                          (trail.seeded cmd.defaults lab.client 100))))
        with (Some [lab.item 110; lab.item 105]).
      rewrite AddRecentActions_some_run.
      destruct Henv as [-> | [-> | ->]]; cbn; rewrite <- !app_assoc;
        reflexivity.
    - change (fst (fst (filter (fst lab.first_fetch)
                          (trail.seeded cmd.defaults lab.client 0))))
        with (Some [lab.item 90; lab.item 110; lab.item 105]).
      rewrite AddRecentActions_some_run.
      destruct Henv as [-> | [-> | ->]]; cbn; rewrite <- !app_assoc;
        reflexivity. }
  rewrite (@cycle_committed _ _ _ _ _ _ Hfetch Happend).
  destruct HW as [E | E]; injection E as -> ->.
  - cbn. rewrite <- !app_assoc. reflexivity.
  - cbn. rewrite <- !app_assoc. reflexivity.
Qed.

(** The watermark of the startup is seen: over a feed that answers, the
    loop seeded with 0 and the loop seeded with 100 make different calls,
    the one inserts the item of time 90 and the other does not. *)
Lemma seed_is_seen (env : Env) (hist : history) :
  lab.is_live env ->
  ~ (observed.play env (Start (trail.seeded cmd.defaults lab.client 0)) hist
     ≈ observed.play env (Start (trail.seeded cmd.defaults lab.client 100))
         hist).
Proof.
  intros Henv H.
  rewrite (@Start_plays_cycle env _ _ _ _
             (@live_cycle_run env 0 _ hist Henv (or_intror eq_refl))) in H.
  rewrite (@Start_plays_cycle env _ _ _ _
             (@live_cycle_run env 100 _ hist Henv (or_introl eq_refl))) in H.
  apply made_inv in H; [| reflexivity].
  destruct H as [E _].
  apply (f_equal (List.map kinds.inserted)) in E. discriminate E.
Qed.

End Scenarios.

(* ===================================================================== *)
(** * The properties of the specification *)
(* ===================================================================== *)

Section Claims.

Import world observed scheduler trail.

(** C1.  For every batch, in any order, and every watermark [W >= 0],
    [filter] returns as new items exactly the items of the batch whose
    [TimeSeconds] is strictly greater than [W], in their order of
    appearance and as they are, and as candidate watermark the maximum of
    [W] and of the [TimeSeconds] of all the items of the batch, new or
    not: an upper bound of [W] and of all of them that is one of them. *)
Theorem filter_keeps_newer_and_tracks_max (sch : CodeforcesScheduler)
  (actions : slice RecentAction) :
  0 <= lastInsertedTimestamp sch ->
  let W := lastInsertedTimestamp sch in
  let newActions := fst (fst (filter actions sch)) in
  let candidate := snd (fst (filter actions sch)) in
  elems newActions
    = List.filter (fun a => TimeSeconds a >? W) (elems actions) /\
  candidate = fold_right Z.max W (List.map TimeSeconds (elems actions)) /\
  W <= candidate /\
  Forall (fun a => TimeSeconds a <= candidate) (elems actions) /\
  (candidate = W \/ In candidate (List.map TimeSeconds (elems actions))).
Proof.
  intros _ W newActions candidate.
  subst W newActions candidate. rewrite filter_run. cbn [fst snd].
  split; [rewrite elems_extend; reflexivity |].
  split; [reflexivity |].
  destruct (fold_right_max_upper (List.map TimeSeconds (elems actions))
              (lastInsertedTimestamp sch)) as [Hw Hall].
  split; [exact Hw |].
  split; [| apply fold_right_max_attained].
  rewrite Forall_map in Hall. exact Hall.
Qed.

Lemma filter_keeps_newer_and_tracks_max_witness :
  0 <= lastInsertedTimestamp (lab.bench 7) /\
  elems (fst (fst (filter (Some [lab.item 10; lab.item 5; lab.item 20])
                     (lab.bench 7))))
    = [lab.item 10; lab.item 20] /\
  snd (fst (filter (Some [lab.item 10; lab.item 5; lab.item 20])
              (lab.bench 7))) = 20.
Proof.
  split; [simpl; lia |].
  destruct (filter_keeps_newer_and_tracks_max (lab.bench 7)
              (Some [lab.item 10; lab.item 5; lab.item 20]))
    as (Hnew & Hmax & _).
  - simpl; lia.
  - split; [exact Hnew | exact Hmax].
Defined.

(** C4.  The three vectors of [filter]: the empty batch against 42 gives
    no new item and 42; two items of time 3 against 5 give no new item
    and 5; items of time 10 and 5 against 7 give the item of time 10 and
    the candidate 10.  The payloads and the rest of the scheduler are
    arbitrary, and the scheduler is left as it was. *)
Theorem filter_vectors (cfClient : cfapi.CodeforcesInterface)
  (cfStore : store.CodeforcesStore) (batchSize coolDown : Z)
  (p1 p2 : string) :
  let sch := fun W => NewScheduler cfClient cfStore batchSize W coolDown in
  filter nil_slice (sch 42) = ((nil_slice, 42), sch 42) /\
  filter (Some []) (sch 42) = ((nil_slice, 42), sch 42) /\
  filter (Some [mkRecentAction 3 p1; mkRecentAction 3 p2]) (sch 5)
    = ((nil_slice, 5), sch 5) /\
  filter (Some [mkRecentAction 10 p1; mkRecentAction 5 p2]) (sch 7)
    = ((Some [mkRecentAction 10 p1], 10), sch 7).
Proof. repeat split. Qed.

(** C6.  [filter] is pure: it leaves the scheduler as it found it, the
    watermark included, so that two calls in a row on the same batch,
    with no commit in between, return the same new items and the same
    candidate watermark. *)
Theorem filter_is_pure (sch : CodeforcesScheduler)
  (actions : slice RecentAction) :
  snd (filter actions sch) = sch /\
  lastInsertedTimestamp (snd (filter actions sch)) = lastInsertedTimestamp sch /\
  (do first <~ filter actions;
   do second <~ filter actions;
   pure (first, second))%method sch
  = ((fst (filter actions sch), fst (filter actions sch)), sch).
Proof.
  split; [apply filter_same_scheduler |].
  split; [rewrite filter_same_scheduler; reflexivity |].
  unfold seq, pure. rewrite filter_run. rewrite filter_run. reflexivity.
Qed.

(** C2.  The committed watermark never decreases.  The candidate that
    [filter] computes is at least the watermark it is given; whatever the
    fetch and the append of a cycle answer, the watermark after the cycle
    is at least the watermark before it; and in the loop of [Start],
    which is [n] cycles and then the loop again, the watermark after
    cycle [n + 1] is at least the one after cycle [n], which is at least
    the one the loop started with.  Over two collaborators that return
    whatever they like, the cycles do return. *)
Theorem watermark_never_decreases (env : Env) (sch : CodeforcesScheduler) :
  (forall actions,
      lastInsertedTimestamp sch <= snd (fst (filter actions sch))) /\
  (forall hist hist' sch',
      run env (cycle sch) hist ≈ Ret (hist', sch') ->
      lastInsertedTimestamp sch <= lastInsertedTimestamp sch') /\
  (forall n, Start sch ≈ ITree.bind (cycles n sch) Start) /\
  (forall n hist h1 s1 h2 s2,
      run env (cycles n sch) hist ≈ Ret (h1, s1) ->
      run env (cycles (S n) sch) hist ≈ Ret (h2, s2) ->
      lastInsertedTimestamp sch <= lastInsertedTimestamp s1 /\
      lastInsertedTimestamp s1 <= lastInsertedTimestamp s2) /\
  (over_doubles sch ->
   forall n hist,
   exists hist' sch', run env (cycles n sch) hist ≈ Ret (hist', sch')).
Proof.
  split; [intros actions; apply filter_candidate_ge |].
  split; [intros hist hist' sch'; apply cycle_watermark_le |].
  split; [intros n; apply Start_cycles |].
  split.
  - intros n hist h1 s1 h2 s2 Hn HSn. split.
    + eapply cycles_watermark_le. exact Hn.
    + eapply cycle_watermark_le. eapply cycles_next; [exact Hn | exact HSn].
  - intros Hsch n hist.
    destruct (@cycles_over_doubles_returns env n sch hist Hsch)
      as (hist' & sch' & Hrun & _).
    exists hist', sch'. exact Hrun.
Qed.

Lemma watermark_never_decreases_witness :
  run lab.overlap (cycle (lab.bench 100)) []
    ≈ Ret (lab.first_cycle, lab.bench 110) /\
  lastInsertedTimestamp (lab.bench 100) <= lastInsertedTimestamp (lab.bench 110).
Proof.
  split; [exact overlap_first_cycle |].
  exact (proj1 (proj2 (@watermark_never_decreases lab.overlap (lab.bench 100)))
           [] lab.first_cycle (lab.bench 110) overlap_first_cycle).
Defined.

(** C3.  A cycle whose fetch returns an error ends after the error is
    logged: nothing is persisted and the scheduler is as it was.  A cycle
    whose append returns an error ends the same way.  In both cases the
    loop goes on: [Start] is seen to make the calls of the failed cycle,
    the last of which is the sleep of the cooldown, and then to be
    [Start] again on the same scheduler, which begins with the next
    cycle.  A cycle that returns with another watermark than it began
    with is one whose fetch and append both returned no error, and the
    new watermark is the candidate of [filter]. *)
Theorem failed_cycle_keeps_watermark (env : Env) (sch : CodeforcesScheduler)
  (hist : history) :
  (forall h1 actions err,
      run env (cfapi.RecentActions (cfClient sch) (batchSize sch)) hist
        ≈ Ret (h1, (actions, Some err)) ->
      let hist' := h1 ++ after_failed_fetch sch err in
      run env (cycle sch) hist ≈ Ret (hist', sch) /\
      List.filter failures.is_persist hist' = List.filter failures.is_persist h1 /\
      last hist' (slept 0) = slept (cooldown sch) /\
      exists calls,
        h1 = hist ++ calls /\
        play env (Start sch) hist
          ≈ (made (calls ++ after_failed_fetch sch err) ;;
             play env (Start sch) hist')) /\
  (forall h1 h2 actions err,
      run env (cfapi.RecentActions (cfClient sch) (batchSize sch)) hist
        ≈ Ret (h1, (actions, None)) ->
      run env (store.AddRecentActions (cfStore sch)
                 (fst (fst (filter actions sch)))) h1
        ≈ Ret (h2, Some err) ->
      let hist' := h2 ++ after_failed_append sch err in
      run env (cycle sch) hist ≈ Ret (hist', sch) /\
      last hist' (slept 0) = slept (cooldown sch) /\
      exists calls,
        h2 = hist ++ calls /\
        play env (Start sch) hist
          ≈ (made (calls ++ after_failed_append sch err) ;;
             play env (Start sch) hist')) /\
  (forall h,
      play env (Start sch) h
        ≈ ITree.bind (play env (cycle sch) h)
            (fun st => play env (Start (snd st)) (fst st))) /\
  (forall hist' sch',
      run env (cycle sch) hist ≈ Ret (hist', sch') ->
      lastInsertedTimestamp sch' <> lastInsertedTimestamp sch ->
      exists h1 h2 actions,
        run env (cfapi.RecentActions (cfClient sch) (batchSize sch)) hist
          ≈ Ret (h1, (actions, None)) /\
        run env (store.AddRecentActions (cfStore sch)
                   (fst (fst (filter actions sch)))) h1
          ≈ Ret (h2, None) /\
        lastInsertedTimestamp sch' = snd (fst (filter actions sch))).
Proof.
  split; [| split; [| split]].
  - intros h1 actions err Hfetch hist'.
    pose proof (@cycle_fetch_failed _ _ _ _ _ _ Hfetch) as Hcycle.
    split; [exact Hcycle |].
    split; [subst hist'; rewrite filter_app, app_nil_r; reflexivity |].
    split; [subst hist'; unfold after_failed_fetch, after_failed_append;
            rewrite last_last_3; reflexivity |].
    destruct (@run_extends _ _ _ _ _ _ Hfetch) as (calls & ->).
    exists calls. split; [reflexivity |].
    subst hist'. rewrite <- app_assoc in Hcycle |- *.
    apply Start_plays_cycle. exact Hcycle.
  - intros h1 h2 actions err Hfetch Happend hist'.
    pose proof (@cycle_append_failed _ _ _ _ _ _ _ Hfetch Happend) as Hcycle.
    split; [exact Hcycle |].
    split; [subst hist'; unfold after_failed_fetch, after_failed_append;
            rewrite last_last_3; reflexivity |].
    destruct (@run_extends _ _ _ _ _ _ Hfetch) as (calls1 & ->).
    destruct (@run_extends _ _ _ _ _ _ Happend) as (calls2 & ->).
    exists (calls1 ++ calls2). split; [rewrite app_assoc; reflexivity |].
    assert (E : ((hist ++ calls1) ++ calls2) ++ after_failed_append sch err
                = hist ++ (calls1 ++ calls2) ++ after_failed_append sch err)
      by (rewrite <- !app_assoc; reflexivity).
    subst hist'. rewrite E in Hcycle |- *.
    apply Start_plays_cycle. exact Hcycle.
  - intros h. apply Start_plays_unfold.
  - intros hist' sch' Hcycle Hchanged.
    apply cycle_inv in Hcycle.
    destruct Hcycle as (h1 & actions & [e|] & Hfetch & H).
    + destruct H as [_ ->]. contradiction Hchanged; reflexivity.
    + destruct H as (h2 & [e|] & Happend & H).
      * destruct H as [_ ->]. contradiction Hchanged; reflexivity.
      * destruct H as [_ ->]. exists h1, h2, actions.
        split; [exact Hfetch |]. split; [exact Happend | reflexivity].
Qed.

Lemma failed_cycle_keeps_watermark_witness :
  (run lab.offline
     (cfapi.RecentActions (cfClient (lab.bench 42)) (batchSize (lab.bench 42)))
     []
     ≈ Ret (lab.failed_fetch, (nil_slice, Some lab.refused)) /\
   run lab.offline (cycle (lab.bench 42)) []
     ≈ Ret (lab.failed_fetch ++ after_failed_fetch (lab.bench 42) lab.refused,
            lab.bench 42) /\
   play lab.offline (Start (lab.bench 42)) []
     ≈ (made (lab.failed_fetch ++ after_failed_fetch (lab.bench 42) lab.refused) ;;
        play lab.offline (Start (lab.bench 42))
          (lab.failed_fetch ++ after_failed_fetch (lab.bench 42) lab.refused))) /\
  (run lab.refusing
     (store.AddRecentActions (cfStore (lab.bench 100))
        (fst (fst (filter (fst lab.first_fetch) (lab.bench 100)))))
     (firstn 1 lab.refused_append)
     ≈ Ret (lab.refused_append, Some lab.refused) /\
   run lab.refusing (cycle (lab.bench 100)) []
     ≈ Ret (lab.refused_append
              ++ after_failed_append (lab.bench 100) lab.refused,
            lab.bench 100) /\
   play lab.refusing (Start (lab.bench 100)) []
     ≈ (made (lab.refused_append
                ++ after_failed_append (lab.bench 100) lab.refused) ;;
        play lab.refusing (Start (lab.bench 100))
          (lab.refused_append
             ++ after_failed_append (lab.bench 100) lab.refused))).
Proof.
  split.
  - split; [exact offline_fetch |].
    destruct (proj1 (@failed_cycle_keeps_watermark lab.offline
                       (lab.bench 42) [])
                lab.failed_fetch nil_slice lab.refused offline_fetch)
      as (Hcycle & _ & _ & calls & Hcalls & Hplay).
    split; [exact Hcycle |].
    cbn [app] in Hcalls. subst calls. exact Hplay.
  - split; [exact refusing_append |].
    destruct (proj1 (proj2 (@failed_cycle_keeps_watermark lab.refusing
                              (lab.bench 100) []))
                (firstn 1 lab.refused_append) lab.refused_append
                (fst lab.first_fetch) lab.refused
                refusing_fetch refusing_append)
      as (Hcycle & _ & calls & Hcalls & Hplay).
    split; [exact Hcycle |].
    cbn [app] in Hcalls. subst calls. exact Hplay.
Defined.

(** C5.  The overlap scenario.  From the watermark 100, a cycle whose
    fetch returns items of time 90, 110 and 105 hands the store the items
    of time 110 and 105, in this order, and commits 110; the next cycle,
    whose fetch returns items of time 110 and 108, hands the store the nil
    slice and leaves the watermark at 110; the loop goes on from there.
    Over the MongoDB store the two cycles make one insertion, of the
    items of time 110 and 105. *)
Theorem overlap_scenario :
  lab.bench 100
    = NewScheduler doubles.feed doubles.vault 100 100 lab.cooldown /\
  run lab.overlap (cycle (lab.bench 100)) []
    ≈ Ret (lab.first_cycle, lab.bench 110) /\
  run lab.overlap (cycle (lab.bench 110)) lab.first_cycle
    ≈ Ret (lab.first_cycle ++ lab.second_cycle, lab.bench 110) /\
  run lab.overlap (Start (lab.bench 100)) []
    ≈ run lab.overlap (Start (lab.bench 110))
        (lab.first_cycle ++ lab.second_cycle) /\
  List.filter failures.is_persist (lab.first_cycle ++ lab.second_cycle)
    = [Call (StoreAddRecentActions (Some [lab.item 110; lab.item 105])) None;
       Call (StoreAddRecentActions nil_slice) None] /\
  lastInsertedTimestamp (lab.bench 110) = 110 /\
  run lab.overlap (cycle (lab.bench_mongo 100)) []
    ≈ Ret (lab.first_cycle_mongo, lab.bench_mongo 110) /\
  run lab.overlap (cycle (lab.bench_mongo 110)) lab.first_cycle_mongo
    ≈ Ret (lab.first_cycle_mongo ++ lab.second_cycle_mongo,
           lab.bench_mongo 110) /\
  List.filter failures.is_persist
    (lab.first_cycle_mongo ++ lab.second_cycle_mongo)
    = [Call (InsertMany (mongodb.recentActionsCollection lab.local)
               (Some [lab.item 110; lab.item 105])) None].
Proof.
  split; [reflexivity |].
  split; [exact overlap_first_cycle |].
  split; [exact overlap_second_cycle |].
  split; [apply Start_goes_on with (n := 2%nat); exact overlap_two_cycles |].
  split; [reflexivity |].
  split; [reflexivity |].
  split; [exact overlap_first_cycle_mongo |].
  split; [exact overlap_second_cycle_mongo | reflexivity].
Qed.

(** C7, as the specification has it, fails: handed a slice that is empty
    but not nil, [AddRecentActions] logs, calls [InsertMany] with no
    document and returns the error of the driver. *)
Lemma AddRecentActions_empty_slice_is_inserted :
  len (Some [] : slice RecentAction) = 0 /\
  run lab.offline
    (mongodb.mongoStore_AddRecentActions lab.local (Some [])) []
    ≈ Ret (lab.empty_insert,
           Some (Errorf_w "bulk insert failed with error ["
                   (errorString
                      "must provide at least one element in input slice")
                   "]")) /\
  ~ (run lab.offline
       (mongodb.mongoStore_AddRecentActions lab.local (Some [])) []
       ≈ Ret ([], None)).
Proof.
  split; [reflexivity |].
  split; [exact empty_slice_insert |].
  intros H. rewrite empty_slice_insert in H.
  apply eutt_inv_Ret in H. discriminate H.
Qed.

(** C7, amended.  [AddRecentActions] treats the nil slice as a successful
    no-op: it makes no call and returns no error.  The new items of
    [filter] are the nil slice whenever no item of the batch is newer
    than the watermark, so a cycle with nothing new persists nothing.
    For a slice that is not nil, empty or not, it makes one [InsertMany]
    call, with the items in order, and returns an error exactly when
    that call does. *)
Theorem AddRecentActions_nil_is_noop (env : Env) (st : mongodb.mongoStore)
  (hist : history) :
  run env (mongodb.mongoStore_AddRecentActions st nil_slice) hist
    ≈ Ret (hist, None) /\
  (forall sch actions,
      Forall (fun a => TimeSeconds a <= lastInsertedTimestamp sch)
        (elems actions) ->
      fst (fst (filter actions sch)) = nil_slice) /\
  (forall l : list RecentAction,
      exists calls answer err,
        run env (mongodb.mongoStore_AddRecentActions st (Some l)) hist
          ≈ Ret (hist ++ calls, err) /\
        List.filter failures.is_insertion calls
          = [Call (InsertMany (mongodb.recentActionsCollection st)
                     (extend nil_slice l)) answer] /\
        (err = None <-> answer = None)).
Proof.
  split; [apply AddRecentActions_nil_run |].
  split.
  - intros sch actions Hstale. rewrite filter_run. cbn [fst].
    replace (List.filter
               (fun a => TimeSeconds a >? lastInsertedTimestamp sch)
               (elems actions)) with (@nil RecentAction); [reflexivity |].
    symmetry. induction Hstale as [|a l Ha _ IH]; simpl.
    + reflexivity.
    + rewrite IH. destruct (TimeSeconds a >? lastInsertedTimestamp sch) eqn:E.
      * apply Z.gtb_lt in E. lia.
      * reflexivity.
  - intros l.
    pose proof (AddRecentActions_some_run env st l hist) as Hrun.
    cbv zeta in Hrun.
    destruct (env _ _ (InsertMany (mongodb.recentActionsCollection st)
                         (extend nil_slice l))) as [e|].
    + eexists _, (Some e), _. split.
      * rewrite Hrun, <- app_assoc. reflexivity.
      * split; [reflexivity | split; discriminate].
    + eexists _, None, _. split.
      * rewrite Hrun, <- app_assoc. reflexivity.
      * split; [reflexivity | split; reflexivity].
Qed.

Lemma AddRecentActions_nil_is_noop_witness :
  Forall (fun a => TimeSeconds a <= lastInsertedTimestamp (lab.bench 110))
    (elems (fst lab.second_fetch)) /\
  fst (fst (filter (fst lab.second_fetch) (lab.bench 110))) = nil_slice.
Proof.
  assert (H : Forall
                (fun a => TimeSeconds a <= lastInsertedTimestamp (lab.bench 110))
                (elems (fst lab.second_fetch))).
  { repeat constructor; simpl; lia. }
  split; [exact H |].
  exact (proj1 (proj2 (@AddRecentActions_nil_is_noop lab.overlap lab.local []))
           (lab.bench 110) (fst lab.second_fetch) H).
Defined.

(** C8.  The fetch of the feed client returns, and it returns an error
    exactly when one of its steps failed: the request could not be built,
    the transport call failed, the body could not be read, the body could
    not be parsed, or the parsed status is not "OK"; in this last case the
    error carries the comment of the remote.  When no step failed it
    returns the parsed list and no error. *)
Theorem RecentActions_fails_exactly_when_a_step_fails (env : Env)
  (cf : cfapi.codeforcesClient) (maxCount : Z) (hist : history) :
  exists (calls : history) (actions : slice RecentAction) (err : option error),
    run env (cfapi.codeforcesClient_RecentActions cf maxCount) hist
      ≈ Ret (hist ++ calls, (actions, err)) /\
    (err <> None <-> exists c, In c calls /\ failures.failure_of c <> None) /\
    (forall c comment,
        In c calls ->
        failures.failure_of c = Some (failures.RemoteStatusError comment) ->
        err = Some (errorString
                      ("codeforces returned an internal error with comment ["
                       ++ comment ++ "]")%string)) /\
    (err = None ->
     exists body w,
       In (Call (Unmarshal body) (inl w)) calls /\ Status w = "OK" /\
       actions = Result w).
Proof.
  enough (H : returns env (cfapi.codeforcesClient_RecentActions cf maxCount) hist
            (fun hist' r =>
               exists calls, hist' = hist ++ calls /\
                 (snd r <> None <->
                  exists c, In c calls /\ failures.failure_of c <> None) /\
                 (forall c comment,
                     In c calls ->
                     failures.failure_of c
                       = Some (failures.RemoteStatusError comment) ->
                     snd r = Some (errorString
                       ("codeforces returned an internal error with comment ["
                        ++ comment ++ "]")%string)) /\
                 (snd r = None ->
                  exists body w,
                    In (Call (Unmarshal body) (inl w)) calls /\ Status w = "OK" /\
                    fst r = Result w))).
  { destruct H as (hist' & [actions err] & Hrun & calls & -> & H).
    exists calls, actions, err. split; [exact Hrun | exact H]. }
  unfold cfapi.codeforcesClient_RecentActions, cfapi.readAndParse. cbn zeta.
  walk.
  all: apply returns_ret; rewrite <- ?app_assoc.
  all: eexists; split; [reflexivity |]; cbn [fst snd].
  all: try match goal with
           | H : negb _ = true |- _ => apply status_not_ok in H
           | H : negb _ = false |- _ => apply status_ok in H
           end.
  all: split;
    [ rewrite some_failure_iff; cbn;
      repeat match goal with
             | H : String.eqb _ _ = _ |- _ => rewrite H
             end;
      split; intros F; try reflexivity; try discriminate;
      try (exfalso; apply F; reflexivity)
    | ].
  all: split;
    [ intros c comment Hin Hf; cbn in Hin;
      repeat match goal with
             | H : _ \/ _ |- _ => destruct H as [<- | H]
             | H : False |- _ => contradiction H
             end;
      cbn in Hf;
      repeat match goal with
             | H : String.eqb _ _ = _ |- _ => rewrite H in Hf
             end;
      try discriminate Hf; inversion Hf; reflexivity
    | ].
  all: intros F; try discriminate F.
  match goal with
  | H : String.eqb (Status ?w) _ = true |- exists body w', In (Call (Unmarshal body) _) _ /\ _ =>
      match goal with
      | _ : _ = inl ?body |- _ =>
          exists body, w; split; [cbn; tauto |];
          split; [apply String.eqb_eq; exact H | reflexivity]
      end
  end.
Qed.

Lemma RecentActions_fails_exactly_when_a_step_fails_witness :
  exists (calls : history) (actions : slice RecentAction) (err : option error),
    run lab.complaining
      (cfapi.codeforcesClient_RecentActions
         {| cfapi.Timeout := 120000000000 |} 100) []
      ≈ Ret ([] ++ calls, (actions, err)) /\
    err = Some (errorString
                  "codeforces returned an internal error with comment [maxCount: Field should be no more than 100]").
Proof.
  destruct (RecentActions_fails_exactly_when_a_step_fails lab.complaining
              {| cfapi.Timeout := 120000000000 |} 100 [])
    as (calls & actions & err & Hrun & _ & Hcomment & _).
  exists calls, actions, err. split; [exact Hrun |].
  pose proof Hrun as Hsame. rewrite complaining_fetch in Hsame.
  apply eutt_inv_Ret in Hsame. injection Hsame as Hcalls _ _.
  apply (Hcomment (Call (Unmarshal "{}") (inl lab.complaint))
           "maxCount: Field should be no more than 100").
  - rewrite <- Hcalls. cbn. tauto.
  - reflexivity.
Defined.

(** C9.  [main] seeds the watermark from the store, once, before the
    first cycle.  With flags that parse, a logger and a connected store
    whose aggregation is served the way MongoDB serves it over the
    documents [docs], the method of the store returns what the store
    reports: 0 when [docs] is empty, and [T0] when [T0] is the largest
    timestamp in [docs].  [main] is seen to make the calls of the startup
    and of this aggregation, one aggregation and no fetch, and then to be
    the loop of [Start] on the scheduler whose watermark is that report.
    From there on the cycles of the loop return without another
    aggregation, however many they are. *)
Theorem watermark_seeded_from_store (env : Env) (fl : cmd.flags)
  (client : mongo.Client) (cursor : mongo.Cursor) (docs : list RecentAction)
  (hist : history) :
  let st := mongodb.mStoreOf client (cmd.databaseName fl) in
  let asked :=
    startup fl client
    ++ database.aggregation (mongodb.recentActionsCollection st) cursor
         (database.group_max docs) in
  let sch := seeded fl client (database.reported docs) in
  answers env hist asked ->
  run env (mongodb.mongoStore_LastRecordedTimestampForRecentActions st)
    (hist ++ startup fl client)
    ≈ Ret (hist ++ asked, database.reported docs) /\
  play env (cmd.main (cmd.Parsed fl)) hist
    ≈ (made asked ;;
       ITree.bind (play env (Start sch) (hist ++ asked)) never) /\
  (forall n : nat,
      exists calls W,
        run env (cycles n sch) (hist ++ asked)
          ≈ Ret ((hist ++ asked) ++ calls, seeded fl client W) /\
        List.filter failures.is_aggregate calls = [] /\
        play env (Start sch) (hist ++ asked)
          ≈ (made calls ;;
             play env (Start (seeded fl client W)) ((hist ++ asked) ++ calls))) /\
  lastInsertedTimestamp sch = database.reported docs /\
  List.filter failures.is_fetch asked = [] /\
  List.length (List.filter failures.is_aggregate asked) = 1%nat /\
  (docs = [] -> database.reported docs = 0) /\
  (forall T0,
      In T0 (List.map TimeSeconds docs) ->
      Forall (fun d => TimeSeconds d <= T0) docs ->
      database.reported docs = T0).
Proof.
  intros st asked sch Hasked. subst asked sch st.
  apply answers_app in Hasked. destruct Hasked as [Hstart Hserved].
  pose proof (@LastRecorded_served _ _ _ _ _ Hserved) as Hlast.
  split; [rewrite app_assoc; exact Hlast |].
  split; [exact (@main_plays_seeded _ _ _ _ _ _ Hstart Hlast) |].
  split.
  - intros n.
    destruct (@cycles_of_main_return env fl client n (database.reported docs)
                (hist ++ startup fl client
                   ++ database.aggregation
                        (mongodb.recentActionsCollection
                           (mongodb.mStoreOf client (cmd.databaseName fl)))
                        cursor (database.group_max docs)))
      as (h' & sch' & Hrun & calls & W & -> & -> & Hnone).
    exists calls, W. split; [exact Hrun |]. split; [exact Hnone |].
    apply Start_plays_cycles with (n := n). exact Hrun.
  - split; [reflexivity |].
    split; [destruct (database.group_max docs); reflexivity |].
    split; [destruct (database.group_max docs); reflexivity |].
    split; [intros ->; apply reported_empty |].
    intros T0. apply reported_is_max.
Qed.

Lemma watermark_seeded_from_store_witness :
  answers lab.live [] lab.resumed /\
  run lab.live
    (mongodb.mongoStore_LastRecordedTimestampForRecentActions
       (mongodb.mStoreOf lab.client (cmd.databaseName cmd.defaults)))
    (startup cmd.defaults lab.client)
    ≈ Ret (lab.resumed, 100) /\
  play lab.live (cmd.main (cmd.Parsed cmd.defaults)) []
    ≈ (made lab.resumed ;;
       ITree.bind
         (play lab.live (Start (seeded cmd.defaults lab.client 100))
            lab.resumed)
         never) /\
  ~ (play lab.live (Start (seeded cmd.defaults lab.client 0)) lab.resumed
     ≈ play lab.live (Start (seeded cmd.defaults lab.client 100))
         lab.resumed).
Proof.
  assert (H : answers lab.live [] lab.resumed).
  { cbn. repeat split. }
  split; [exact H |].
  destruct (@watermark_seeded_from_store lab.live cmd.defaults
              lab.client 0%nat [lab.item 100] [] H)
    as (Hlast & Hmain & _).
  split; [exact Hlast |]. split; [exact Hmain |].
  apply seed_is_seen. left. reflexivity.
Defined.

(** C10.  [LastRecordedTimestampForRecentActions] also returns 0 when the
    aggregation fails and when its document cannot be decoded.  [main]
    is then seen to make the calls of the startup, those of the failed
    aggregation and the log of the error, and then to be the loop of
    [Start] on the scheduler whose watermark is 0.  Against 0 every item
    that an earlier run found new, against whatever watermark [W >= 0] it
    had, is new again in any batch it comes back in. *)
Theorem store_error_at_startup_seeds_zero (env : Env) (fl : cmd.flags)
  (client : mongo.Client) (hist : history) :
  let st := mongodb.mStoreOf client (cmd.databaseName fl) in
  let coll := mongodb.recentActionsCollection st in
  (forall err,
      answers env hist (database.failed_aggregation coll err) ->
      exists calls,
        run env (mongodb.mongoStore_LastRecordedTimestampForRecentActions st)
          hist ≈ Ret (hist ++ calls, 0)) /\
  (forall cursor err,
      answers env hist (database.failed_decoding coll cursor err) ->
      exists calls,
        run env (mongodb.mongoStore_LastRecordedTimestampForRecentActions st)
          hist ≈ Ret (hist ++ calls, 0)) /\
  (forall err,
      answers env hist
        (startup fl client ++ database.failed_aggregation coll err) ->
      let calls :=
        startup fl client ++ database.failed_aggregation coll err
        ++ [logged zap.ErrorLevel
              "Querying the max recorded activity timestamp failed with error %v"
              [zap.AErr err]] in
      play env (cmd.main (cmd.Parsed fl)) hist
        ≈ (made calls ;;
           ITree.bind (play env (Start (seeded fl client 0)) (hist ++ calls))
             never)) /\
  (forall cursor err,
      answers env hist
        (startup fl client ++ database.failed_decoding coll cursor err) ->
      let calls :=
        startup fl client ++ database.failed_decoding coll cursor err
        ++ [logged zap.ErrorLevel
              "Decoding of max activity timestamp failed with error%v"
              [zap.AErr err]] in
      play env (cmd.main (cmd.Parsed fl)) hist
        ≈ (made calls ;;
           ITree.bind (play env (Start (seeded fl client 0)) (hist ++ calls))
             never)) /\
  (forall W earlier batch a,
      0 <= W ->
      In a (elems (fst (fst (filter earlier (seeded fl client W))))) ->
      In a (elems batch) ->
      In a (elems (fst (fst (filter batch (seeded fl client 0)))))).
Proof.
  intros st coll. subst coll st.
  split; [| split; [| split; [| split]]].
  - intros err H. eexists. apply LastRecorded_unavailable. exact H.
  - intros cursor err H. eexists. apply LastRecorded_undecodable. exact H.
  - intros err H calls. subst calls.
    apply answers_app in H. destruct H as [Hstart Hfail].
    apply main_plays_seeded; [exact Hstart |].
    apply LastRecorded_unavailable. exact Hfail.
  - intros cursor err H calls. subst calls.
    apply answers_app in H. destruct H as [Hstart Hfail].
    apply main_plays_seeded; [exact Hstart |].
    apply LastRecorded_undecodable. exact Hfail.
  - intros W earlier batch a HW Hearlier Hin.
    rewrite filter_run in *. cbn [fst seeded NewScheduler lastInsertedTimestamp] in *.
    rewrite elems_extend in *. cbn [elems nil_slice app] in *.
    apply filter_In in Hearlier. destruct Hearlier as [_ Hnew].
    apply filter_In. split; [exact Hin |].
    apply Z.gtb_lt in Hnew. apply Z.gtb_lt. lia.
Qed.

Lemma store_error_at_startup_seeds_zero_witness :
  (answers (lab.aggregate_down lab.live) [] lab.unavailable /\
   exists calls,
     play (lab.aggregate_down lab.live) (cmd.main (cmd.Parsed cmd.defaults)) []
       ≈ (made (lab.unavailable ++ calls) ;;
          ITree.bind
            (play (lab.aggregate_down lab.live)
               (Start (seeded cmd.defaults lab.client 0))
               (lab.unavailable ++ calls))
            never) /\
     ~ (play (lab.aggregate_down lab.live)
          (Start (seeded cmd.defaults lab.client 0))
          (lab.unavailable ++ calls)
        ≈ play (lab.aggregate_down lab.live)
            (Start (seeded cmd.defaults lab.client 100))
            (lab.unavailable ++ calls))) /\
  (answers (lab.decode_down lab.live) [] lab.undecodable /\
   exists calls,
     play (lab.decode_down lab.live) (cmd.main (cmd.Parsed cmd.defaults)) []
       ≈ (made (lab.undecodable ++ calls) ;;
          ITree.bind
            (play (lab.decode_down lab.live)
               (Start (seeded cmd.defaults lab.client 0))
               (lab.undecodable ++ calls))
            never) /\
     ~ (play (lab.decode_down lab.live)
          (Start (seeded cmd.defaults lab.client 0))
          (lab.undecodable ++ calls)
        ≈ play (lab.decode_down lab.live)
            (Start (seeded cmd.defaults lab.client 100))
            (lab.undecodable ++ calls))).
Proof.
  assert (H : answers (lab.aggregate_down lab.live) [] lab.unavailable).
  { cbn. repeat split. }
  assert (H' : answers (lab.decode_down lab.live) [] lab.undecodable).
  { cbn. repeat split. }
  split.
  - split; [exact H |]. eexists. split.
    + exact (proj1 (proj2 (proj2
               (@store_error_at_startup_seeds_zero
                  (lab.aggregate_down lab.live) cmd.defaults lab.client [])))
               lab.refused H).
    + apply seed_is_seen. right. left. reflexivity.
  - split; [exact H' |]. eexists. split.
    + exact (proj1 (proj2 (proj2 (proj2
               (@store_error_at_startup_seeds_zero
                  (lab.decode_down lab.live) cmd.defaults lab.client []))))
               0%nat (errorString "cannot decode") H').
    + apply seed_is_seen. right. right. reflexivity.
Defined.

End Claims.

(* ===================================================================== *)
(** * More on the dedup filter *)
(* ===================================================================== *)

Section FilterMore.

Import scheduler trail.

Lemma fold_right_max_app (l1 l2 : list Z) (m : Z) :
  fold_right Z.max m (l1 ++ l2)
  = Z.max (fold_right Z.max m l1) (fold_right Z.max m l2).
Proof.
  induction l1 as [|t l1 IH]; simpl.
  - pose proof (proj1 (fold_right_max_upper l2 m)). lia.
  - rewrite IH. lia.
Qed.

Lemma fold_right_max_stale (l : list Z) (m : Z) :
  Forall (fun t => t <= m) l -> fold_right Z.max m l = m.
Proof.
  induction 1 as [|t l Ht _ IH]; simpl.
  - reflexivity.
  - rewrite IH. lia.
Qed.

Lemma fold_right_max_perm (l1 l2 : list Z) (m : Z) :
  Permutation l1 l2 -> fold_right Z.max m l1 = fold_right Z.max m l2.
Proof.
  induction 1 as [| t l1 l2 _ IH | t u l | l1 l2 l3 _ IH1 _ IH2]; simpl.
  - reflexivity.
  - rewrite IH. reflexivity.
  - lia.
  - rewrite IH1. exact IH2.
Qed.

Lemma filter_perm (A : Type) (p : A -> bool) (l1 l2 : list A) :
  Permutation l1 l2 -> Permutation (List.filter p l1) (List.filter p l2).
Proof.
  induction 1 as [| a l1 l2 _ IH | a b l | l1 l2 l3 _ IH1 _ IH2]; simpl.
  - constructor.
  - destruct (p a); [constructor |]; exact IH.
  - destruct (p a), (p b); try reflexivity. constructor.
  - eapply Permutation_trans; eassumption.
Qed.

Lemma filter_none_newer (W : Z) (l : list RecentAction) :
  Forall (fun a => TimeSeconds a <= W) l ->
  List.filter (fun a => TimeSeconds a >? W) l = [].
Proof.
  induction 1 as [|a l Ha _ IH]; simpl.
  - reflexivity.
  - rewrite IH. destruct (TimeSeconds a >? W) eqn:E; [| reflexivity].
    apply Z.gtb_lt in E. lia.
Qed.

Lemma filter_nil_none_newer (W : Z) (l : list RecentAction) :
  List.filter (fun a => TimeSeconds a >? W) l = [] ->
  Forall (fun a => TimeSeconds a <= W) l.
Proof.
  induction l as [|a l IH]; simpl; intros H.
  - constructor.
  - destruct (TimeSeconds a >? W) eqn:E; [discriminate H |].
    constructor; [| apply IH; exact H].
    rewrite Z.gtb_ltb in E. apply Z.ltb_ge in E. exact E.
Qed.

Lemma extend_nil_iff (l : list RecentAction) :
  extend nil_slice l = nil_slice <-> l = [].
Proof.
  destruct l as [|a l]; simpl; split; intros H;
    reflexivity || discriminate H.
Qed.

(** X1.  Filtering two batches in a row, one appended to the other, gives
    the new items of the first followed by the new items of the second,
    and the larger of the two candidate watermarks. *)
Theorem filter_appended_batches (sch : CodeforcesScheduler)
  (first second : list RecentAction) :
  elems (fst (fst (filter (Some (first ++ second)) sch)))
    = elems (fst (fst (filter (Some first) sch)))
      ++ elems (fst (fst (filter (Some second) sch))) /\
  snd (fst (filter (Some (first ++ second)) sch))
    = Z.max (snd (fst (filter (Some first) sch)))
        (snd (fst (filter (Some second) sch))).
Proof.
  rewrite !filter_run. cbn [fst snd elems].
  rewrite !elems_extend. cbn [elems nil_slice app].
  rewrite filter_app, map_app, fold_right_max_app.
  split; reflexivity.
Qed.

(** X2.  The order in which the feed lists the items does not matter to
    what is new: two batches with the same items in another order give
    the same new items, in another order, and the same candidate
    watermark. *)
Theorem filter_order_independent (sch : CodeforcesScheduler)
  (batch batch' : slice RecentAction) :
  Permutation (elems batch) (elems batch') ->
  Permutation (elems (fst (fst (filter batch sch))))
    (elems (fst (fst (filter batch' sch)))) /\
  snd (fst (filter batch sch)) = snd (fst (filter batch' sch)).
Proof.
  intros Hperm. rewrite !filter_run. cbn [fst snd].
  rewrite !elems_extend. cbn [elems nil_slice app].
  split.
  - apply filter_perm. exact Hperm.
  - apply fold_right_max_perm. apply Permutation_map. exact Hperm.
Qed.

Lemma filter_order_independent_witness :
  Permutation (elems (Some [lab.item 10; lab.item 5; lab.item 20]))
    (elems (Some [lab.item 20; lab.item 10; lab.item 5])) /\
  Permutation
    (elems (fst (fst (filter (Some [lab.item 10; lab.item 5; lab.item 20])
                        (lab.bench 7)))))
    (elems (fst (fst (filter (Some [lab.item 20; lab.item 10; lab.item 5])
                        (lab.bench 7))))) /\
  snd (fst (filter (Some [lab.item 10; lab.item 5; lab.item 20]) (lab.bench 7)))
    = snd (fst (filter (Some [lab.item 20; lab.item 10; lab.item 5])
                  (lab.bench 7))).
Proof.
  assert (H : Permutation (elems (Some [lab.item 10; lab.item 5; lab.item 20]))
                (elems (Some [lab.item 20; lab.item 10; lab.item 5]))).
  { simpl. apply Permutation_sym.
    apply (Permutation_cons_app [lab.item 10; lab.item 5] [] (lab.item 20)).
    rewrite app_nil_r. apply Permutation_refl. }
  split; [exact H |].
  exact (filter_order_independent (lab.bench 7) _ _ H).
Defined.

(** X3.  Every new item is strictly newer than the watermark and not
    newer than the candidate.  The candidate equals the watermark exactly
    when nothing is new, which is exactly when every item of the batch is
    at most the watermark; and then the new items are the nil slice,
    never an empty slice that is not nil. *)
Theorem filter_advances_exactly_when_new (sch : CodeforcesScheduler)
  (actions : slice RecentAction) :
  let W := lastInsertedTimestamp sch in
  let newActions := fst (fst (filter actions sch)) in
  let candidate := snd (fst (filter actions sch)) in
  Forall (fun a => W < TimeSeconds a <= candidate) (elems newActions) /\
  (candidate = W <-> elems newActions = []) /\
  (elems newActions = [] <->
   Forall (fun a => TimeSeconds a <= W) (elems actions)) /\
  (elems newActions = [] <-> newActions = nil_slice).
Proof.
  intros W newActions candidate. subst W newActions candidate.
  rewrite filter_run. cbn [fst snd]. rewrite elems_extend.
  cbn [elems nil_slice app].
  set (W := lastInsertedTimestamp sch). set (l := elems actions).
  destruct (fold_right_max_upper (List.map TimeSeconds l) W) as [HW Hall].
  rewrite Forall_map in Hall.
  assert (Hstale : List.filter (fun a => TimeSeconds a >? W) l = [] <->
                   Forall (fun a : RecentAction => TimeSeconds a <= W) l).
  { split; [apply filter_nil_none_newer | apply filter_none_newer]. }
  split; [| split; [| split]].
  - apply Forall_forall. intros a Ha. apply filter_In in Ha.
    destruct Ha as [Hin Hnew]. apply Z.gtb_lt in Hnew.
    rewrite Forall_forall in Hall. split; [exact Hnew | apply Hall; exact Hin].
  - rewrite Hstale. split.
    + intros Heq. rewrite Heq in Hall. exact Hall.
    + intros H. apply fold_right_max_stale. rewrite Forall_map. exact H.
  - exact Hstale.
  - symmetry. apply extend_nil_iff.
Qed.

(** X4.  Once the candidate of a batch is committed, the feed can replay
    that batch, any part of it, in any order and with repetitions:
    nothing of it is new again, and the candidate stays where it is. *)
Theorem filter_replay_after_commit (sch : CodeforcesScheduler)
  (batch replay : slice RecentAction) :
  incl (elems replay) (elems batch) ->
  let candidate := snd (fst (filter batch sch)) in
  filter replay (committed_to candidate sch)
  = ((nil_slice, candidate), committed_to candidate sch).
Proof.
  intros Hincl candidate. subst candidate.
  rewrite (filter_run replay). rewrite (filter_run batch). cbn [fst snd].
  unfold committed_to, store_lastInsertedTimestamp.
  cbn [snd lastInsertedTimestamp].
  set (c := fold_right Z.max (lastInsertedTimestamp sch)
              (List.map TimeSeconds (elems batch))).
  assert (Hstale : Forall (fun a => TimeSeconds a <= c) (elems replay)).
  { apply Forall_forall. intros a Ha. apply Hincl in Ha.
    destruct (fold_right_max_upper (List.map TimeSeconds (elems batch))
                (lastInsertedTimestamp sch)) as [_ Hall].
    rewrite Forall_map, Forall_forall in Hall. apply Hall. exact Ha. }
  rewrite (filter_none_newer Hstale).
  rewrite fold_right_max_stale; [reflexivity |].
  rewrite Forall_map. exact Hstale.
Qed.

Lemma filter_replay_after_commit_witness :
  incl (elems (Some [lab.item 105; lab.item 110; lab.item 110]))
    (elems (fst lab.first_fetch)) /\
  fst (filter (Some [lab.item 105; lab.item 110; lab.item 110])
         (committed_to (snd (fst (filter (fst lab.first_fetch) (lab.bench 100))))
            (lab.bench 100)))
  = (nil_slice, 110).
Proof.
  assert (H : incl (elems (Some [lab.item 105; lab.item 110; lab.item 110]))
                (elems (fst lab.first_fetch))).
  { intros a Ha. simpl in *. tauto. }
  split; [exact H |].
  rewrite (filter_replay_after_commit (lab.bench 100) (fst lab.first_fetch)
             (Some [lab.item 105; lab.item 110; lab.item 110]) H).
  reflexivity.
Defined.

End FilterMore.

(* ===================================================================== *)
(** * More on the cycle *)
(* ===================================================================== *)

Section CycleMore.

Import world scheduler trail.
Variable env : Env.

Lemma committed_to_same (sch : CodeforcesScheduler) :
  committed_to (lastInsertedTimestamp sch) sch = sch.
Proof. destruct sch. reflexivity. Qed.

Lemma committed_to_twice (v w : Z) (sch : CodeforcesScheduler) :
  committed_to w (committed_to v sch) = committed_to w sch.
Proof. reflexivity. Qed.

(** A cycle that returns gives back the scheduler it got, up to the
    watermark. *)
Lemma cycle_moves_watermark_only (sch sch' : CodeforcesScheduler)
  (hist hist' : history) :
  run env (cycle sch) hist ≈ Ret (hist', sch') ->
  sch' = committed_to (lastInsertedTimestamp sch') sch.
Proof.
  intros Hrun. apply cycle_inv in Hrun.
  destruct Hrun as (h1 & actions & [e|] & _ & H).
  - destruct H as [_ ->]. symmetry. apply committed_to_same.
  - destruct H as (h2 & [e|] & _ & H).
    + destruct H as [_ ->]. symmetry. apply committed_to_same.
    + destruct H as [_ ->]. reflexivity.
Qed.

(** X5.  The cycles write to nothing of the scheduler but the watermark:
    after any number of cycles the feed client, the store, the cooldown
    and the batch size are the ones the scheduler was built with. *)
Theorem cycles_move_watermark_only (n : nat) :
  forall (sch sch' : CodeforcesScheduler) (hist hist' : history),
    run env (cycles n sch) hist ≈ Ret (hist', sch') ->
    sch' = committed_to (lastInsertedTimestamp sch') sch /\
    cfClient sch' = cfClient sch /\
    cfStore sch' = cfStore sch /\
    cooldown sch' = cooldown sch /\
    batchSize sch' = batchSize sch.
Proof.
  assert (Hfields : forall v sch sch',
            sch' = committed_to v sch ->
            cfClient sch' = cfClient sch /\ cfStore sch' = cfStore sch /\
            cooldown sch' = cooldown sch /\ batchSize sch' = batchSize sch).
  { intros v sch sch' ->. repeat split. }
  induction n as [|n IH]; intros sch sch' hist hist' Hrun; simpl in Hrun.
  - apply run_ret_inv in Hrun. destruct Hrun as [_ ->].
    split; [symmetry; apply committed_to_same | repeat split].
  - apply run_bind_inv in Hrun. destruct Hrun as (h1 & s1 & H1 & H2).
    apply cycle_moves_watermark_only in H1.
    apply IH in H2. destruct H2 as [H2 _].
    assert (Hsch : sch' = committed_to (lastInsertedTimestamp sch') sch).
    { rewrite H2 at 1. rewrite H1. apply committed_to_twice. }
    split; [exact Hsch |]. eapply Hfields. exact Hsch.
Qed.

(** X6.  When a cycle moves the watermark, it moves it to the timestamp
    of an item that was fetched in this cycle, found new and handed to a
    store that returned no error; and no item of the fetched batch is
    newer than the watermark after the cycle. *)
Theorem watermark_moves_to_a_persisted_item (sch sch' : CodeforcesScheduler)
  (hist hist' : history) :
  run env (cycle sch) hist ≈ Ret (hist', sch') ->
  lastInsertedTimestamp sch' <> lastInsertedTimestamp sch ->
  exists h1 h2 actions a,
    run env (cfapi.RecentActions (cfClient sch) (batchSize sch)) hist
      ≈ Ret (h1, (actions, None)) /\
    run env (store.AddRecentActions (cfStore sch)
               (fst (fst (filter actions sch)))) h1
      ≈ Ret (h2, None) /\
    In a (elems (fst (fst (filter actions sch)))) /\
    TimeSeconds a = lastInsertedTimestamp sch' /\
    Forall (fun b => TimeSeconds b <= lastInsertedTimestamp sch')
      (elems actions).
Proof.
  intros Hcycle Hmoved. apply cycle_inv in Hcycle.
  destruct Hcycle as (h1 & actions & [e|] & Hfetch & H).
  { destruct H as [_ ->]. contradiction Hmoved; reflexivity. }
  destruct H as (h2 & [e|] & Happend & H).
  { destruct H as [_ ->]. contradiction Hmoved; reflexivity. }
  destruct H as [_ ->].
  unfold committed_to, store_lastInsertedTimestamp in *.
  cbn [snd lastInsertedTimestamp] in *.
  assert (Hcand : snd (fst (filter actions sch))
                  = fold_right Z.max (lastInsertedTimestamp sch)
                      (List.map TimeSeconds (elems actions))).
  { rewrite filter_run. reflexivity. }
  assert (Hnew : elems (fst (fst (filter actions sch)))
                 = List.filter
                     (fun a => TimeSeconds a >? lastInsertedTimestamp sch)
                     (elems actions)).
  { rewrite filter_run. cbn [fst]. rewrite elems_extend. reflexivity. }
  rewrite Hcand in *.
  set (W := lastInsertedTimestamp sch) in *.
  set (ts := List.map TimeSeconds (elems actions)) in *.
  destruct (fold_right_max_upper ts W) as [HW Hall].
  destruct (fold_right_max_attained ts W) as [Hsame | Hin].
  { contradiction Hmoved. }
  apply in_map_iff in Hin. destruct Hin as (a & Ha & Hin).
  exists h1, h2, actions, a.
  split; [exact Hfetch |]. split; [exact Happend |].
  split; [| split; [exact Ha |]].
  - rewrite Hnew. apply filter_In. split; [exact Hin |].
    apply Z.gtb_lt. rewrite Ha. lia.
  - subst ts. rewrite Forall_map in Hall. exact Hall.
Qed.

(** X7.  Over the MongoDB store, a cycle whose fetch returned no error
    inserts the new items and nothing else: when there is none it makes
    no [InsertMany] call at all, and else exactly one, with all the new
    items in their order.  The watermark moves to the candidate when the
    driver accepts them and stays when it refuses. *)
Theorem mongo_cycle_inserts_the_new_items (sch : CodeforcesScheduler)
  (st : mongodb.mongoStore) (hist h1 : history)
  (actions : slice RecentAction) :
  cfStore sch = mongodb.asStore st ->
  run env (cfapi.RecentActions (cfClient sch) (batchSize sch)) hist
    ≈ Ret (h1, (actions, None)) ->
  exists calls sch',
    run env (cycle sch) hist ≈ Ret (h1 ++ calls, sch') /\
    match List.filter (fun a => TimeSeconds a >? lastInsertedTimestamp sch)
            (elems actions) with
    | [] => List.filter failures.is_insertion calls = [] /\ sch' = sch
    | a :: l =>
        exists answer,
          List.filter failures.is_insertion calls
            = [Call (InsertMany (mongodb.recentActionsCollection st)
                       (Some (a :: l))) answer] /\
          match answer with
          | None => sch' = committed_to (snd (fst (filter actions sch))) sch
          | Some _ => sch' = sch
          end
    end.
Proof.
  intros Hstore Hfetch.
  assert (Hnew : fst (fst (filter actions sch))
                 = extend nil_slice
                     (List.filter
                        (fun a => TimeSeconds a >? lastInsertedTimestamp sch)
                        (elems actions))).
  { rewrite filter_run. reflexivity. }
  destruct (List.filter (fun a => TimeSeconds a >? lastInsertedTimestamp sch)
              (elems actions)) as [|a l] eqn:Enew.
  - assert (Happend :
      run env (store.AddRecentActions (cfStore sch)
                 (fst (fst (filter actions sch)))) h1 ≈ Ret (h1, None)).
    { rewrite Hnew, Hstore. cbn [extend store.AddRecentActions mongodb.asStore].
      apply AddRecentActions_nil_run. }
    eexists _, _. split.
    + rewrite (@cycle_committed _ _ _ _ _ _ Hfetch Happend).
      rewrite <- (app_nil_l (after_append _ _)) at 1. reflexivity.
    + split; [reflexivity |].
      assert (Hsame : snd (fst (filter actions sch)) = lastInsertedTimestamp sch).
      { rewrite filter_run. cbn [fst snd]. apply fold_right_max_stale.
        rewrite Forall_map. apply filter_nil_none_newer. exact Enew. }
      rewrite Hsame. apply committed_to_same.
  - pose proof (AddRecentActions_some_run env st (a :: l) h1) as Hrun.
    cbv zeta in Hrun. cbn [extend elems nil_slice app] in Hrun.
    assert (Hsame : forall r,
      run env (mongodb.mongoStore_AddRecentActions st (Some (a :: l))) h1 ≈ r ->
      run env (store.AddRecentActions (cfStore sch)
                 (fst (fst (filter actions sch)))) h1 ≈ r).
    { intros r Hr. rewrite Hnew, Hstore. exact Hr. }
    match type of Hrun with
    | context [match ?x with _ => _ end] => destruct x as [e|] eqn:Eins
    end.
    + apply Hsame in Hrun.
      eexists _, _. split.
      * rewrite (@cycle_append_failed _ _ _ _ _ _ _ Hfetch Hrun).
        rewrite <- !app_assoc. reflexivity.
      * exists (Some e). split; reflexivity.
    + apply Hsame in Hrun.
      eexists _, _. split.
      * rewrite (@cycle_committed _ _ _ _ _ _ Hfetch Hrun).
        rewrite <- !app_assoc. reflexivity.
      * exists None. split; reflexivity.
Qed.

(** One cycle over the two doubles: what it calls. *)
Lemma cycle_over_doubles_calls (sch : CodeforcesScheduler) (hist : history) :
  over_doubles sch ->
  returns env (cycle sch) hist
    (fun hist' sch' =>
       over_doubles sch' /\ cooldown sch' = cooldown sch /\
       batchSize sch' = batchSize sch /\
       exists calls,
         hist' = hist ++ calls /\
         List.map lab.is_feed_call (firstn 1 calls) = [true] /\
         List.length (List.filter lab.is_feed_call calls) = 1%nat /\
         List.filter kinds.is_sleep calls = [slept (cooldown sch)] /\
         last calls (logged zap.InfoLevel "" []) = slept (cooldown sch) /\
         (List.length (List.filter lab.is_append_call calls) <= 1)%nat).
Proof.
  intros [Hfeed Hvault]. unfold cycle. rewrite Hfeed.
  cbn [cfapi.RecentActions doubles.feed].
  apply returns_call.
  destruct (env hist (FeedRecentActions (batchSize sch))) as [actions [err|]].
  - walk. apply returns_ret. rewrite <- ?app_assoc.
    split; [split; assumption |].
    split; [reflexivity |]. split; [reflexivity |].
    eexists. split; [reflexivity |]. cbn. repeat split; lia.
  - cbn beta iota. rewrite filter_run. cbn beta iota. rewrite Hvault.
    cbn [store.AddRecentActions doubles.vault].
    unfold store_lastInsertedTimestamp.
    walk; apply returns_ret; rewrite <- ?app_assoc;
      (split; [split; assumption |]);
      (split; [reflexivity |]); (split; [reflexivity |]);
      eexists; (split; [reflexivity |]); cbn; repeat split; lia.
Qed.

(** X14.  Over the two doubles, whatever they answer, [n] cycles make
    [n] fetches and [n] sleeps, each sleep of the cooldown the scheduler
    was built with and the last call of its cycle, and at most [n]
    appends: between two fetches there is always one cooldown. *)
Theorem cycles_over_doubles_pace (n : nat) :
  forall (sch : CodeforcesScheduler) (hist : history),
    over_doubles sch ->
    exists calls sch',
      run env (cycles n sch) hist ≈ Ret (hist ++ calls, sch') /\
      List.length (List.filter lab.is_feed_call calls) = n /\
      List.filter kinds.is_sleep calls = repeat (slept (cooldown sch)) n /\
      (List.length (List.filter lab.is_append_call calls) <= n)%nat /\
      (n <> O -> last calls (logged zap.InfoLevel "" []) = slept (cooldown sch)).
Proof.
  induction n as [|n IH]; intros sch hist Hsch.
  - exists [], sch. simpl. rewrite app_nil_r.
    split; [apply run_ret |]. repeat split; [lia | intros H; contradiction H; reflexivity].
  - destruct (cycle_over_doubles_calls hist Hsch)
      as (h1 & s1 & Hrun1 & Hs1 & Hcool & _ & calls1 & -> & _ & Hf1 & Hsl1 & Hl1 & Ha1).
    destruct (IH s1 (hist ++ calls1) Hs1)
      as (calls2 & s2 & Hrun2 & Hf2 & Hsl2 & Ha2 & Hl2).
    exists (calls1 ++ calls2), s2. split.
    + change (cycles (S n) sch) with (ITree.bind (cycle sch) (cycles n)).
      rewrite (@run_then env _ _ _ _ _ _ _ Hrun1), app_assoc. exact Hrun2.
    + rewrite !filter_app, !length_app, Hf1, Hf2, Hsl1, Hsl2, Hcool.
      split; [reflexivity |]. split; [reflexivity |]. split; [lia |].
      intros _. destruct n as [|n].
      * assert (calls2 = []) as ->.
        { simpl in Hrun2. rewrite run_ret in Hrun2.
          apply eutt_inv_Ret in Hrun2. injection Hrun2 as Hh _.
          rewrite <- (app_nil_r (hist ++ calls1)) in Hh at 1.
          apply app_inv_head in Hh. symmetry. exact Hh. }
        rewrite app_nil_r. exact Hl1.
      * assert (Hne : calls2 <> []).
        { intros ->. simpl in Hf2. discriminate Hf2. }
        rewrite <- Hcool, <- Hl2 by discriminate.
        clear - Hne. induction calls1 as [|c calls1 IHc]; simpl.
        -- reflexivity.
        -- destruct (calls1 ++ calls2) eqn:E; [| exact IHc].
           apply app_eq_nil in E. destruct E as [_ E]. contradiction.
Qed.

End CycleMore.

Section CycleMoreWitnesses.

Import world scheduler trail.

Lemma cycles_move_watermark_only_witness :
  run lab.overlap (cycles 2 (lab.bench 100)) []
    ≈ Ret (lab.first_cycle ++ lab.second_cycle, lab.bench 110) /\
  lab.bench 110
    = committed_to (lastInsertedTimestamp (lab.bench 110)) (lab.bench 100).
Proof.
  split; [exact overlap_two_cycles |].
  exact (proj1 (@cycles_move_watermark_only lab.overlap 2 (lab.bench 100)
                  (lab.bench 110) [] (lab.first_cycle ++ lab.second_cycle)
                  overlap_two_cycles)).
Defined.

Lemma watermark_moves_to_a_persisted_item_witness :
  run lab.overlap (cycle (lab.bench 100)) []
    ≈ Ret (lab.first_cycle, lab.bench 110) /\
  lastInsertedTimestamp (lab.bench 110) <> lastInsertedTimestamp (lab.bench 100) /\
  exists a actions,
    In a (elems (fst (fst (filter actions (lab.bench 100))))) /\
    TimeSeconds a = 110.
Proof.
  assert (H : lastInsertedTimestamp (lab.bench 110)
              <> lastInsertedTimestamp (lab.bench 100)).
  { simpl. discriminate. }
  split; [exact overlap_first_cycle |]. split; [exact H |].
  destruct (@watermark_moves_to_a_persisted_item lab.overlap (lab.bench 100)
              (lab.bench 110) [] lab.first_cycle overlap_first_cycle H)
    as (h1 & h2 & actions & a & _ & _ & Hin & Ht & _).
  exists a, actions. split; [exact Hin | exact Ht].
Defined.

End CycleMoreWitnesses.

(* ===================================================================== *)
(** * More on the store *)
(* ===================================================================== *)

Ltac split_in H :=
  repeat match type of H with
         | _ \/ _ => destruct H as [<- | H]
         | False => contradiction H
         end.

(** Whether one of the calls is classified, computed. *)
Lemma classified_iff (A : Type) (f : world.call -> option A)
  (calls : world.history) :
  (exists c, In c calls /\ f c <> None) <->
  existsb (fun c => match f c with Some _ => true | None => false end)
    calls = true.
Proof.
  rewrite existsb_exists. split.
  - intros (c & Hin & Hf). exists c. split; [exact Hin |].
    destruct (f c); [reflexivity | contradiction].
  - intros (c & Hin & Hf). exists c. split; [exact Hin |].
    destruct (f c); [discriminate | discriminate].
Qed.

Ltac decide_classified :=
  rewrite classified_iff; cbn;
  split; intros F; try reflexivity; try discriminate;
  try (exfalso; apply F; reflexivity).

Section StoreMore.

Import world mongodb.
Variable env : Env.

(** X8.  [QueryRecentActions] returns for every environment.  It makes
    one [Find], for the documents whose creation time is at least the
    timestamp (the bound is inclusive), and never inserts.  It returns an
    error exactly when [Find] or the reading of its cursor failed, and
    the error wraps that failure; else it returns the actions that the
    cursor gave. *)
Theorem QueryRecentActions_fails_exactly_when_a_step_fails (st : mongoStore)
  (timestamp : Z) (hist : history) :
  exists (calls : history) (actions : slice RecentAction) (err : option error),
    run env (mongoStore_QueryRecentActions st timestamp) hist
      ≈ Ret (hist ++ calls, (actions, err)) /\
    (exists answer,
        List.filter kinds.is_find calls
        = [Call (Find (recentActionsCollection st)
                   (mongo.BDoc [("timeSeconds",
                                 mongo.BDoc [("$gte", mongo.BInt timestamp)])]))
             answer]) /\
    List.filter failures.is_insertion calls = [] /\
    (err <> None <-> exists c, In c calls /\ kinds.query_failure_of c <> None) /\
    (forall c cause,
        In c calls -> kinds.query_failure_of c = Some cause ->
        exists e, err = Some e /\ errors.Unwrap e = Some cause /\
                  actions = nil_slice) /\
    (err = None ->
     exists cursor,
       In (Call (CursorAll cursor) (inl actions)) calls).
Proof.
  enough (H : returns env (mongoStore_QueryRecentActions st timestamp) hist
            (fun hist' r =>
               exists calls, hist' = hist ++ calls /\
                 (exists answer,
                     List.filter kinds.is_find calls
                     = [Call (Find (recentActionsCollection st)
                                (mongo.BDoc
                                   [("timeSeconds",
                                     mongo.BDoc [("$gte", mongo.BInt timestamp)])]))
                          answer]) /\
                 List.filter failures.is_insertion calls = [] /\
                 (snd r <> None <->
                  exists c, In c calls /\ kinds.query_failure_of c <> None) /\
                 (forall c cause,
                     In c calls -> kinds.query_failure_of c = Some cause ->
                     exists e, snd r = Some e /\ errors.Unwrap e = Some cause /\
                               fst r = nil_slice) /\
                 (snd r = None ->
                  exists cursor,
                    In (Call (CursorAll cursor) (inl (fst r))) calls))).
  { destruct H as (hist' & [actions err] & Hrun & calls & -> & H).
    exists calls, actions, err. split; [exact Hrun | exact H]. }
  unfold mongoStore_QueryRecentActions. cbn zeta.
  walk.
  all: apply returns_ret; rewrite <- ?app_assoc.
  all: eexists; split; [reflexivity |]; cbn [fst snd].
  all: split; [eexists; reflexivity |].
  all: split; [reflexivity |].
  all: split; [decide_classified |].
  all: split;
    [ intros failing cause Hin Hf; cbn in Hin; split_in Hin; cbn in Hf;
      first [ discriminate Hf
            | injection Hf as <-;
              eexists; split; [reflexivity | split; reflexivity] ]
    | ].
  all: intros F; try discriminate F.
  eexists. cbn. eauto 6.
Qed.

(** X9.  [NewMongoStore] returns for every environment.  It connects
    once and pings only a client that it got: it returns an error
    exactly when the connection or the ping failed, and the error wraps
    that failure.  The store it returns else works on the collection
    "recent_actions" of the database it was asked for, through the client
    that answered the ping. *)
Theorem NewMongoStore_fails_exactly_when_a_step_fails
  (mongoURI databaseName : string) (hist : history) :
  exists (calls : history) (r : store.CodeforcesStore + error),
    run env (NewMongoStore mongoURI databaseName) hist
      ≈ Ret (hist ++ calls, r) /\
    (exists answer,
        List.filter kinds.is_connect calls = [Call (Connect mongoURI) answer] /\
        match answer with
        | inl client =>
            exists pong,
              List.filter kinds.is_ping calls = [Call (Ping client) pong]
        | inr _ => List.filter kinds.is_ping calls = []
        end) /\
    ((exists e, r = inr e) <->
     exists c, In c calls /\ kinds.startup_failure_of c <> None) /\
    (forall c cause,
        In c calls -> kinds.startup_failure_of c = Some cause ->
        exists e, r = inr e /\ errors.Unwrap e = Some cause) /\
    (forall s, r = inl s ->
       exists client,
         In (Call (Ping client) None) calls /\
         s = asStore (mStoreOf client databaseName) /\
         recentActionsCollection (mStoreOf client databaseName)
         = {| mongo.client := client;
              mongo.database := databaseName;
              mongo.name := "recent_actions" |}).
Proof.
  enough (H : returns env (NewMongoStore mongoURI databaseName) hist
            (fun hist' r =>
               exists calls, hist' = hist ++ calls /\
                 (exists answer,
                     List.filter kinds.is_connect calls
                     = [Call (Connect mongoURI) answer] /\
                     match answer with
                     | inl client =>
                         exists pong,
                           List.filter kinds.is_ping calls
                           = [Call (Ping client) pong]
                     | inr _ => List.filter kinds.is_ping calls = []
                     end) /\
                 ((exists e, r = inr e) <->
                  exists c, In c calls /\ kinds.startup_failure_of c <> None) /\
                 (forall c cause,
                     In c calls -> kinds.startup_failure_of c = Some cause ->
                     exists e, r = inr e /\ errors.Unwrap e = Some cause) /\
                 (forall s, r = inl s ->
                    exists client,
                      In (Call (Ping client) None) calls /\
                      s = asStore (mStoreOf client databaseName) /\
                      recentActionsCollection (mStoreOf client databaseName)
                      = {| mongo.client := client;
                           mongo.database := databaseName;
                           mongo.name := "recent_actions" |}))).
  { destruct H as (hist' & r & Hrun & calls & -> & H).
    exists calls, r. split; [exact Hrun | exact H]. }
  unfold NewMongoStore.
  walk.
  all: apply returns_ret; rewrite <- ?app_assoc.
  all: eexists; split; [reflexivity |].
  all: split;
    [ eexists; split; [reflexivity |]; cbn;
      first [reflexivity | eexists; reflexivity]
    | ].
  all: split;
    [ rewrite classified_iff; cbn; split;
      [ intros (wrapped & F); first [reflexivity | discriminate F]
      | intros F; first [discriminate F | eexists; reflexivity] ]
    | ].
  all: split;
    [ intros failing cause Hin Hf; cbn in Hin; split_in Hin; cbn in Hf;
      first [ discriminate Hf
            | injection Hf as <-; eexists; split; reflexivity ]
    | ].
  all: intros s0 F; try discriminate F.
  injection F as <-. eexists. split; [cbn; eauto 6 |].
  split; reflexivity.
Qed.

(** X15.  [LastRecordedTimestampForRecentActions] returns for every
    environment, after one aggregation and at most one document: it
    never inserts, and what it returns is 0 unless a document was
    decoded, and then the maximum of that document. *)
Theorem LastRecorded_reads_one_document (st : mongoStore) (hist : history) :
  exists (calls : history) (seed : Z),
    run env (mongoStore_LastRecordedTimestampForRecentActions st) hist
      ≈ Ret (hist ++ calls, seed) /\
    (exists answer,
        List.filter failures.is_aggregate calls
        = [Call (Aggregate (recentActionsCollection st) maxPipeline) answer]) /\
    (List.length (List.filter kinds.is_decode calls) <= 1)%nat /\
    List.filter failures.is_insertion calls = [] /\
    (seed <> 0 ->
     exists cursor res,
       In (Call (CursorDecode cursor) (inl res)) calls /\ seed = Max res).
Proof.
  enough (H : returns env (mongoStore_LastRecordedTimestampForRecentActions st)
            hist
            (fun hist' seed =>
               exists calls, hist' = hist ++ calls /\
                 (exists answer,
                     List.filter failures.is_aggregate calls
                     = [Call (Aggregate (recentActionsCollection st) maxPipeline)
                          answer]) /\
                 (List.length (List.filter kinds.is_decode calls) <= 1)%nat /\
                 List.filter failures.is_insertion calls = [] /\
                 (seed <> 0 ->
                  exists cursor res,
                    In (Call (CursorDecode cursor) (inl res)) calls /\
                    seed = Max res))).
  { destruct H as (hist' & seed & Hrun & calls & -> & H).
    exists calls, seed. split; [exact Hrun | exact H]. }
  unfold mongoStore_LastRecordedTimestampForRecentActions. cbn zeta.
  walk.
  all: apply returns_ret; rewrite <- ?app_assoc.
  all: eexists; split; [reflexivity |].
  all: split; [eexists; reflexivity |].
  all: split; [cbn; lia |].
  all: split; [reflexivity |].
  all: intros F; try (contradiction F; reflexivity).
  do 2 eexists. split; [cbn; eauto 6 | reflexivity].
Qed.

End StoreMore.

(* ===================================================================== *)
(** * More on the feed client *)
(* ===================================================================== *)

Section ClientMore.

Import world cfapi.
Variable env : Env.

(** X11.  [RecentActions] makes at most one transport call: a GET of the
    recent-actions endpoint with the query [maxCount] set to the batch
    size, under the timeout of the client, and none when the request
    could not be built.  It closes the body of the response once, as its
    last call, exactly when the transport call gave a response, whatever
    goes wrong afterwards. *)
Theorem RecentActions_closes_the_body_it_opened (cf : codeforcesClient)
  (maxCount : Z) (hist : history) :
  exists (calls : history) (r : fetched),
    run env (codeforcesClient_RecentActions cf maxCount) hist
      ≈ Ret (hist ++ calls, r) /\
    ((List.filter kinds.is_transport calls = [] /\
      List.filter kinds.is_close calls = []) \/
     exists req answer,
       In (Call (NewRequest "GET" "https://codeforces.com/api/recentActions")
             (inl req)) calls /\
       List.filter kinds.is_transport calls
       = [Call (ClientDo (Timeout cf)
                  (http.AddQuery req "maxCount" (Sprint maxCount))) answer] /\
       match answer with
       | inl resp =>
           List.filter kinds.is_close calls
           = [Call (BodyClose (http.Body resp)) tt] /\
           last calls (logged zap.InfoLevel "" [])
           = Call (BodyClose (http.Body resp)) tt
       | inr _ => List.filter kinds.is_close calls = []
       end).
Proof.
  enough (H : returns env (codeforcesClient_RecentActions cf maxCount) hist
            (fun hist' r =>
               exists calls, hist' = hist ++ calls /\
                 ((List.filter kinds.is_transport calls = [] /\
                   List.filter kinds.is_close calls = []) \/
                  exists req answer,
                    In (Call (NewRequest "GET"
                                "https://codeforces.com/api/recentActions")
                          (inl req)) calls /\
                    List.filter kinds.is_transport calls
                    = [Call (ClientDo (Timeout cf)
                               (http.AddQuery req "maxCount" (Sprint maxCount)))
                         answer] /\
                    match answer with
                    | inl resp =>
                        List.filter kinds.is_close calls
                        = [Call (BodyClose (http.Body resp)) tt] /\
                        last calls (logged zap.InfoLevel "" [])
                        = Call (BodyClose (http.Body resp)) tt
                    | inr _ => List.filter kinds.is_close calls = []
                    end))).
  { destruct H as (hist' & r & Hrun & calls & -> & H).
    exists calls, r. split; [exact Hrun | exact H]. }
  unfold codeforcesClient_RecentActions, readAndParse. cbn zeta.
  walk.
  all: apply returns_ret; rewrite <- ?app_assoc.
  all: eexists; split; [reflexivity |].
  all: first
         [ solve [left; split; reflexivity]
         | right; do 2 eexists;
           split; [cbn; eauto 8 |];
           split; [reflexivity |];
           cbn; first [reflexivity | split; reflexivity] ].
Qed.

(** X12.  The error of a fetch wraps its cause: when a call of a library
    failed, [errors.Unwrap] of the returned error is the error of that
    call, and its message ends with the message of the cause between
    brackets; the error for a remote status that is not "OK" wraps
    nothing.  With an error, the returned list is the nil slice. *)
Theorem RecentActions_errors_wrap_their_cause (cf : codeforcesClient)
  (maxCount : Z) (hist : history) :
  exists (calls : history) (actions : slice RecentAction) (err : option error),
    run env (codeforcesClient_RecentActions cf maxCount) hist
      ≈ Ret (hist ++ calls, (actions, err)) /\
    (forall c f,
        In c calls -> failures.failure_of c = Some f ->
        exists e,
          err = Some e /\ errors.Unwrap e = kinds.cause_of f /\
          actions = nil_slice) /\
    (forall e cause,
        err = Some e -> errors.Unwrap e = Some cause ->
        exists prefix, Error e = (prefix ++ Error cause ++ "]")%string).
Proof.
  enough (H : returns env (codeforcesClient_RecentActions cf maxCount) hist
            (fun hist' r =>
               exists calls, hist' = hist ++ calls /\
                 (forall c f,
                     In c calls -> failures.failure_of c = Some f ->
                     exists e,
                       snd r = Some e /\ errors.Unwrap e = kinds.cause_of f /\
                       fst r = nil_slice) /\
                 (forall e cause,
                     snd r = Some e -> errors.Unwrap e = Some cause ->
                     exists prefix,
                       Error e = (prefix ++ Error cause ++ "]")%string))).
  { destruct H as (hist' & [actions err] & Hrun & calls & -> & H).
    exists calls, actions, err. split; [exact Hrun | exact H]. }
  unfold codeforcesClient_RecentActions, readAndParse. cbn zeta.
  walk.
  all: apply returns_ret; rewrite <- ?app_assoc.
  all: eexists; split; [reflexivity |]; cbn [fst snd].
  all: try match goal with
           | H : negb _ = true |- _ => apply status_not_ok in H
           | H : negb _ = false |- _ => apply status_ok in H
           end.
  all: split;
    [ intros failing f Hin Hf; cbn in Hin; split_in Hin; cbn in Hf;
      repeat match goal with
             | H : String.eqb _ _ = _ |- _ => rewrite H in Hf
             end;
      first [ discriminate Hf
            | injection Hf as <-;
              eexists; split; [reflexivity | split; reflexivity] ]
    | ].
  all: intros wrapped cause Herr Hcause;
    first [ discriminate Herr
          | injection Herr as <-; cbn in Hcause;
            first [ discriminate Hcause
                  | injection Hcause as <-; eexists; reflexivity ] ].
Qed.

End ClientMore.

(* ===================================================================== *)
(** * More on the startup *)
(* ===================================================================== *)

Section StartupMore.

Import world scheduler trail cmd.
Variable env : Env.

Lemma main_cases (fl : flags) (hist : history) :
  (exists client, answers env hist (startup fl client)) \/
  (exists calls,
      run env (main (Parsed fl)) hist ≈ Ret (hist ++ calls, 1) /\
      kinds.ended_by calls).
Proof.
  destruct (env hist
              (NewLogger (negb (String.eqb (environment fl)
                                  kDevelopmentEnvironment)))) as [e1|] eqn:E1.
  { right. eexists. split.
    - unfold main. rewrite run_call, E1. cbn beta iota. run_all. run_done.
    - exists e1. split; [reflexivity |].
      split; [| repeat split].
      eexists _, e1. split; [left; reflexivity |].
      split; [reflexivity | left; reflexivity]. }
  set (h1 := (hist ++ [Call (NewLogger (negb (String.eqb (environment fl)
                                               kDevelopmentEnvironment))) None])
                  ++ [Call (Log zap.InfoLevel
                        "Attempting to create a new mongo store. mongoURI: %s, databaseName = %s"
                        [zap.AStr (mongoAddr fl); zap.AStr (databaseName fl)])
                        tt]).
  destruct (env h1 (Connect (mongoAddr fl))) as [client|e2] eqn:E2.
  2: { right. eexists. split.
       - unfold main, mongodb.NewMongoStore. rewrite run_call, E1.
         cbn beta iota. unfold Infof.
         rewrite !bind_bind, run_call_unit, !bind_bind, run_call.
         fold h1. rewrite E2. cbn beta iota.
         run_all. subst h1. run_done.
       - eexists. split; [reflexivity |].
         split; [| repeat split].
         eexists _, e2. split; [right; right; left; reflexivity |].
         split; [reflexivity | right; reflexivity]. }
  destruct (env (h1 ++ [Call (Connect (mongoAddr fl)) (inl client)])
              (Ping client)) as [e3|] eqn:E3.
  { right. eexists. split.
    - unfold main, mongodb.NewMongoStore. rewrite run_call, E1.
      cbn beta iota. unfold Infof.
      rewrite !bind_bind, run_call_unit, !bind_bind, run_call.
      fold h1. rewrite E2. cbn beta iota.
      rewrite !bind_bind, run_call, E3. cbn beta iota.
      run_all. subst h1. run_done.
    - eexists. split; [reflexivity |].
      split; [| repeat split].
      eexists _, e3. split; [right; right; right; left; reflexivity |].
      split; [reflexivity | right; reflexivity]. }
  left. exists client. cbn [answers startup event answer answer_type].
  unfold logged. cbn [event answer answer_type].
  subst h1.
  split; [exact E1 |].
  split; [match goal with |- ?x = tt => destruct x; reflexivity end |].
  split; [exact E2 |]. split; [exact E3 | exact I].
Qed.

(** X10.  [main] returns in three ways only.  It returns with the exit
    status 2 when [flag.Parse] cannot parse the command line and with
    the exit status 0 when the command line asks for the usage, in both
    cases before any call to the logger, the store or the feed.  With
    flags that parse it returns only with the exit status 1, after a
    fatal log and because the logger, the connection or the ping failed,
    and then before any aggregation, fetch or sleep.  Once the flags are
    parsed, the logger is built and the store is connected, [main] never
    returns, whatever fails later. *)
Theorem main_exits_only_when_startup_fails (cl : commandLine)
  (hist : history) :
  (forall fl client,
      cl = Parsed fl ->
      answers env hist (startup fl client) ->
      forall r, ~ (run env (main cl) hist ≈ Ret r)) /\
  (forall hist' status,
      run env (main cl) hist ≈ Ret (hist', status) ->
      match cl with
      | Unparsable => status = 2 /\ hist' = hist
      | HelpRequested => status = 0 /\ hist' = hist
      | Parsed _ =>
          status = 1 /\
          exists calls, hist' = hist ++ calls /\ kinds.ended_by calls
      end) /\
  (cl = Unparsable -> run env (main cl) hist ≈ Ret (hist, 2)) /\
  (cl = HelpRequested -> run env (main cl) hist ≈ Ret (hist, 0)).
Proof.
  assert (Hnever : forall fl client,
             answers env hist (startup fl client) ->
             forall r, ~ (run env (main (Parsed fl)) hist ≈ Ret r)).
  { intros fl client Hstart r Hret.
    rewrite (main_resumes Hstart) in Hret.
    apply eutt_inv_bind_ret in Hret.
    destruct Hret as ([h never] & _ & _). destruct never. }
  split; [intros fl client ->; apply Hnever |].
  split; [| split; intros ->; apply run_ret].
  intros hist' status Hret.
  destruct cl as [fl | |].
  - destruct (main_cases fl hist)
      as [(client & Hstart) | (calls & Hrun & Hend)].
    + exfalso. exact (Hnever fl client Hstart _ Hret).
    + rewrite Hrun in Hret. apply eutt_inv_Ret in Hret.
      injection Hret as <- <-.
      split; [reflexivity |]. exists calls. split; [reflexivity | exact Hend].
  - cbn [main] in Hret. rewrite run_ret in Hret. apply eutt_inv_Ret in Hret.
    injection Hret as <- <-. split; reflexivity.
  - cbn [main] in Hret. rewrite run_ret in Hret. apply eutt_inv_Ret in Hret.
    injection Hret as <- <-. split; reflexivity.
Qed.

(** X13.  A cooldown of up to 153722867 minutes fits a [time.Duration]:
    the scheduler that [main] builds sleeps exactly that many minutes,
    in nanoseconds.  One minute more does not fit, and the cooldown
    wraps around to a negative duration.  Whatever the flag, the cooldown
    is an [int64]. *)
Theorem cooldown_is_exact_in_range (fl : flags) (client : mongo.Client)
  (seed : Z) :
  (0 <= coolDownInMinutes fl <= kinds.maxMinutes ->
   cooldown (seeded fl client seed) = coolDownInMinutes fl * 60000000000 /\
   0 <= cooldown (seeded fl client seed)) /\
  (coolDownInMinutes fl = kinds.maxMinutes + 1 ->
   cooldown (seeded fl client seed) < 0) /\
  kinds.in_int64 (cooldown (seeded fl client seed)).
Proof.
  unfold seeded, NewScheduler, kinds.in_int64, kinds.maxMinutes.
  cbn [cooldown]. unfold wrap64, Minute.
  split; [| split].
  - intros H. rewrite Z.mod_small by lia. lia.
  - intros ->. vm_compute. reflexivity.
  - pose proof (Z.mod_pos_bound (coolDownInMinutes fl * (60 * 1000000000) + 2 ^ 63)
                  (2 ^ 64)) as H.
    lia.
Qed.

End StartupMore.

(* ===================================================================== *)
(** * More runs in the environments of the lab *)
(* ===================================================================== *)

Section MoreWitnesses.

Import world scheduler trail.

Lemma overlap_fetch_mongo :
  run lab.overlap
    (cfapi.RecentActions (cfClient (lab.bench_mongo 100))
       (batchSize (lab.bench_mongo 100)))
    []
  ≈ Ret ([Call (FeedRecentActions 100) lab.first_fetch],
         (fst lab.first_fetch, None)).
Proof. cbn. rewrite run_trigger. reflexivity. Qed.

Lemma mongo_cycle_inserts_the_new_items_witness :
  cfStore (lab.bench_mongo 100) = mongodb.asStore lab.local /\
  run lab.overlap
    (cfapi.RecentActions (cfClient (lab.bench_mongo 100))
       (batchSize (lab.bench_mongo 100)))
    []
    ≈ Ret ([Call (FeedRecentActions 100) lab.first_fetch],
           (fst lab.first_fetch, None)) /\
  exists calls sch' answer,
    run lab.overlap (cycle (lab.bench_mongo 100)) []
      ≈ Ret ([Call (FeedRecentActions 100) lab.first_fetch] ++ calls, sch') /\
    List.filter failures.is_insertion calls
      = [Call (InsertMany (mongodb.recentActionsCollection lab.local)
                 (Some [lab.item 110; lab.item 105])) answer].
Proof.
  split; [reflexivity |]. split; [exact overlap_fetch_mongo |].
  destruct (@mongo_cycle_inserts_the_new_items lab.overlap
              (lab.bench_mongo 100) lab.local [] _ _ eq_refl
              overlap_fetch_mongo)
    as (calls & sch' & Hrun & answer & Hins & _).
  exists calls, sch', answer. split; [exact Hrun | exact Hins].
Defined.

Lemma cycles_over_doubles_pace_witness :
  over_doubles (lab.bench 100) /\
  exists calls sch',
    run lab.overlap (cycles 2 (lab.bench 100)) [] ≈ Ret ([] ++ calls, sch') /\
    List.length (List.filter lab.is_feed_call calls) = 2%nat /\
    List.filter kinds.is_sleep calls
      = [slept (cooldown (lab.bench 100)); slept (cooldown (lab.bench 100))].
Proof.
  assert (H : over_doubles (lab.bench 100)) by (split; reflexivity).
  split; [exact H |].
  destruct (@cycles_over_doubles_pace lab.overlap 2 (lab.bench 100) [] H)
    as (calls & sch' & Hrun & Hfeed & Hsleep & _).
  exists calls, sch'. split; [exact Hrun |]. split; [exact Hfeed | exact Hsleep].
Defined.

Lemma main_exits_only_when_startup_fails_witness :
  (answers lab.overlap [] (startup cmd.defaults lab.client) /\
   forall r,
     ~ (run lab.overlap (cmd.main (cmd.Parsed cmd.defaults)) [] ≈ Ret r)) /\
  (exists hist',
      run (kinds.unreachable lab.overlap) (cmd.main (cmd.Parsed cmd.defaults))
        []
        ≈ Ret (hist', 1) /\
      exists calls, hist' = [] ++ calls /\ kinds.ended_by calls) /\
  run lab.overlap (cmd.main cmd.Unparsable) [] ≈ Ret ([], 2) /\
  run lab.overlap (cmd.main cmd.HelpRequested) [] ≈ Ret ([], 0).
Proof.
  assert (H : answers lab.overlap [] (startup cmd.defaults lab.client)).
  { cbn. repeat split. }
  split; [| split; [| split]].
  - split; [exact H |].
    exact (proj1 (@main_exits_only_when_startup_fails lab.overlap
                    (cmd.Parsed cmd.defaults) [])
             cmd.defaults lab.client eq_refl H).
  - destruct (@main_cases (kinds.unreachable lab.overlap) cmd.defaults [])
      as [(client & Hstart) | (calls & Hrun & _)].
    + exfalso. cbn in Hstart. destruct Hstart as (_ & _ & _ & Hping & _).
      discriminate Hping.
    + exists ([] ++ calls). split; [exact Hrun |].
      exact (proj2 (proj1 (proj2 (@main_exits_only_when_startup_fails
                                    (kinds.unreachable lab.overlap)
                                    (cmd.Parsed cmd.defaults) []))
                      _ _ Hrun)).
  - exact (proj1 (proj2 (proj2 (@main_exits_only_when_startup_fails
                                  lab.overlap cmd.Unparsable [])))
             eq_refl).
  - exact (proj2 (proj2 (proj2 (@main_exits_only_when_startup_fails
                                  lab.overlap cmd.HelpRequested [])))
             eq_refl).
Defined.

Lemma cooldown_is_exact_in_range_witness :
  0 <= cmd.coolDownInMinutes cmd.defaults <= kinds.maxMinutes /\
  cooldown (seeded cmd.defaults lab.client 100) = 300000000000.
Proof.
  assert (H : 0 <= cmd.coolDownInMinutes cmd.defaults <= kinds.maxMinutes).
  { split; discriminate. }
  split; [exact H |].
  exact (proj1 (proj1 (cooldown_is_exact_in_range cmd.defaults lab.client 100)
                  H)).
Defined.

End MoreWitnesses.

(* ===================================================================== *)
(** * Across cycles and restarts *)
(* ===================================================================== *)

Section Lifetime.

Import world observed scheduler trail.

(** X16.  Once the candidate of a batch is committed, nothing of that
    batch is handed to the store again, however many cycles follow and
    whatever they fetch: every item that a later cycle finds new is
    strictly newer than every item of the committed batch. *)
Theorem committed_items_are_never_new_again (env : Env)
  (sch sch1 sch2 : CodeforcesScheduler) (n : nat) (h1 h2 : history)
  (actions later : slice RecentAction) :
  sch1 = committed_to (snd (fst (filter actions sch))) sch ->
  run env (cycles n sch1) h1 ≈ Ret (h2, sch2) ->
  forall a b,
    In a (elems (fst (fst (filter later sch2)))) ->
    In b (elems actions) ->
    TimeSeconds b < TimeSeconds a.
Proof.
  intros Hcommitted Hrun a b Ha Hb.
  apply cycles_watermark_le in Hrun.
  assert (Hb' : TimeSeconds b <= lastInsertedTimestamp sch1).
  { rewrite Hcommitted. unfold committed_to, store_lastInsertedTimestamp.
    cbn [snd lastInsertedTimestamp]. rewrite filter_run. cbn [fst snd].
    destruct (fold_right_max_upper (List.map TimeSeconds (elems actions))
                (lastInsertedTimestamp sch)) as [_ Hall].
    rewrite Forall_map, Forall_forall in Hall. apply Hall. exact Hb. }
  rewrite filter_run in Ha. cbn [fst] in Ha. rewrite elems_extend in Ha.
  cbn [elems nil_slice app] in Ha. apply filter_In in Ha.
  destruct Ha as [_ Ha]. apply Z.gtb_lt in Ha. lia.
Qed.

Lemma committed_items_are_never_new_again_witness :
  lab.bench 110
    = committed_to (snd (fst (filter (fst lab.first_fetch) (lab.bench 100))))
        (lab.bench 100) /\
  run lab.overlap (cycles 1 (lab.bench 110)) lab.first_cycle
    ≈ Ret (lab.first_cycle ++ lab.second_cycle, lab.bench 110) /\
  forall a,
    In a (elems (fst (fst (filter (Some [lab.item 109; lab.item 111])
                             (lab.bench 110))))) ->
    TimeSeconds (lab.item 110) < TimeSeconds a.
Proof.
  assert (Hrun : run lab.overlap (cycles 1 (lab.bench 110)) lab.first_cycle
                 ≈ Ret (lab.first_cycle ++ lab.second_cycle, lab.bench 110)).
  { rewrite cycles_one. exact overlap_second_cycle. }
  split; [reflexivity |]. split; [exact Hrun |].
  intros a Ha.
  apply (@committed_items_are_never_new_again lab.overlap (lab.bench 100)
           (lab.bench 110) (lab.bench 110) 1 lab.first_cycle
           (lab.first_cycle ++ lab.second_cycle) (fst lab.first_fetch)
           (Some [lab.item 109; lab.item 111]) eq_refl Hrun a (lab.item 110) Ha).
  simpl. tauto.
Defined.

Lemma reported_upper (stored : list RecentAction) :
  Forall (fun d => TimeSeconds d <= database.reported stored) stored.
Proof.
  destruct stored as [|d ds]; [constructor |].
  unfold database.reported. cbn [database.group_max Max].
  rewrite fold_left_max_right.
  destruct (fold_right_max_upper (List.map TimeSeconds ds) (TimeSeconds d))
    as [Hd Hds].
  constructor; [exact Hd |]. rewrite Forall_map in Hds. exact Hds.
Qed.

(** A store that held [stored] when the watermark was what it reported,
    and that holds the new items of a batch as well, reports the
    candidate of that batch. *)
Lemma reported_after_commit (sch : CodeforcesScheduler)
  (actions : slice RecentAction) (stored : list RecentAction) :
  lastInsertedTimestamp sch = database.reported stored ->
  database.reported (stored ++ elems (fst (fst (filter actions sch))))
  = snd (fst (filter actions sch)).
Proof.
  intros Hseed. rewrite filter_run. cbn [fst snd]. rewrite elems_extend.
  cbn [elems nil_slice app].
  set (W := lastInsertedTimestamp sch) in *.
  set (l := elems actions).
  set (new := List.filter (fun a => TimeSeconds a >? W) l).
  destruct (fold_right_max_upper (List.map TimeSeconds l) W) as [HW Hall].
  rewrite Forall_map in Hall.
  destruct new as [|a new'] eqn:Enew.
  - rewrite app_nil_r, <- Hseed. symmetry. apply fold_right_max_stale.
    rewrite Forall_map. apply filter_nil_none_newer. exact Enew.
  - assert (Ha : In a (List.filter (fun a => TimeSeconds a >? W) l)).
    { fold new. rewrite Enew. left. reflexivity. }
    apply filter_In in Ha. destruct Ha as [Hal HaW]. apply Z.gtb_lt in HaW.
    assert (Hcand : W < fold_right Z.max W (List.map TimeSeconds l)).
    { rewrite Forall_forall in Hall. specialize (Hall a Hal). lia. }
    apply reported_is_max.
    + destruct (fold_right_max_attained (List.map TimeSeconds l) W)
        as [Hsame | Hin]; [lia |].
      apply in_map_iff in Hin. destruct Hin as (x & Hx & Hxl).
      apply in_map_iff. exists x. split; [exact Hx |].
      apply in_or_app. right. rewrite <- Enew. subst new.
      apply filter_In. split; [exact Hxl |]. apply Z.gtb_lt. lia.
    + apply Forall_app. split.
      * eapply Forall_impl; [| apply reported_upper].
        cbn beta. intros d Hd. rewrite <- Hseed in Hd. lia.
      * rewrite <- Enew. subst new. apply Forall_forall. intros x Hx.
        apply filter_In in Hx. destruct Hx as [Hx _].
        rewrite Forall_forall in Hall. apply Hall. exact Hx.
Qed.

(** X17.  A restart resumes where the last commit left off.  If the
    watermark is what a store holding [stored] reports, then a store that
    holds [stored] and the new items of a batch reports the candidate of
    that batch.  Started over such a store, with flags that parse and a
    logger, [main] gets that candidate from
    [LastRecordedTimestampForRecentActions] and is seen to make the calls
    of the startup and of the aggregation and then to be the loop of
    [Start] on the scheduler whose watermark is the candidate: the
    watermark that a cycle commits is the one that the next start of the
    program seeds. *)
Theorem restart_seeds_the_committed_watermark (env : Env) (fl : cmd.flags)
  (client : mongo.Client) (cursor : mongo.Cursor) (sch : CodeforcesScheduler)
  (actions : slice RecentAction) (stored : list RecentAction)
  (hist : history) :
  let st := mongodb.mStoreOf client (cmd.databaseName fl) in
  let kept := stored ++ elems (fst (fst (filter actions sch))) in
  let committed := snd (fst (filter actions sch)) in
  let asked :=
    startup fl client
    ++ database.aggregation (mongodb.recentActionsCollection st) cursor
         (database.group_max kept) in
  lastInsertedTimestamp sch = database.reported stored ->
  answers env hist asked ->
  database.reported kept = committed /\
  run env (mongodb.mongoStore_LastRecordedTimestampForRecentActions st)
    (hist ++ startup fl client)
    ≈ Ret (hist ++ asked, committed) /\
  play env (cmd.main (cmd.Parsed fl)) hist
    ≈ (made asked ;;
       ITree.bind
         (play env (Start (seeded fl client committed)) (hist ++ asked))
         never).
Proof.
  intros st kept committed asked Hseed Hasked.
  pose proof (reported_after_commit sch actions stored Hseed) as Hreported.
  fold kept committed in Hreported.
  subst asked. apply answers_app in Hasked.
  destruct Hasked as [Hstart Hserved].
  pose proof (@LastRecorded_served _ _ _ _ _ Hserved) as Hlast.
  rewrite Hreported in Hlast.
  split; [exact Hreported |].
  split; [rewrite app_assoc; exact Hlast |].
  exact (@main_plays_seeded _ _ _ _ _ _ Hstart Hlast).
Qed.

Lemma restart_seeds_the_committed_watermark_witness :
  lastInsertedTimestamp (lab.bench 100) = database.reported [lab.item 100] /\
  answers (lab.plain [lab.item 100; lab.item 110; lab.item 105] [] []) []
    (startup cmd.defaults lab.client
     ++ database.aggregation lab.collection 0%nat
          (database.group_max [lab.item 100; lab.item 110; lab.item 105])) /\
  run (lab.plain [lab.item 100; lab.item 110; lab.item 105] [] [])
    (mongodb.mongoStore_LastRecordedTimestampForRecentActions lab.local)
    (startup cmd.defaults lab.client)
    ≈ Ret (startup cmd.defaults lab.client
           ++ database.aggregation lab.collection 0%nat
                (database.group_max
                   [lab.item 100; lab.item 110; lab.item 105]),
           110).
Proof.
  assert (H : answers (lab.plain [lab.item 100; lab.item 110; lab.item 105]
                         [] []) []
                (startup cmd.defaults lab.client
                 ++ database.aggregation lab.collection 0%nat
                      (database.group_max
                         [lab.item 100; lab.item 110; lab.item 105]))).
  { cbn. repeat split. }
  split; [reflexivity |]. split; [exact H |].
  exact (proj1 (proj2
           (@restart_seeds_the_committed_watermark
              (lab.plain [lab.item 100; lab.item 110; lab.item 105] [] [])
              cmd.defaults lab.client 0%nat (lab.bench 100)
              (fst lab.first_fetch) [lab.item 100] [] eq_refl H))).
Defined.

End Lifetime.
